(** * The translation workflow of AfrIDE-demo, embedded in Rocq

    The repository has three front ends over the same helpers:
    - [translation_app.py]  (Streamlit, no login),
    - [app_st_dev.py]       (Streamlit, with the login gate and the log),
    - [app_gradio.py]       (Gradio, event handlers over component values).

    A Python [str] is a [string]; its characters are the code points
    below 256 (the literal status labels that hold other characters are kept
    as their UTF-8 bytes; no string operation looks into them).  [None] is the [None] of an [option], or the value [VNone] where
    Python stores values of several types in one dictionary.  The external
    libraries (pdfplumber, python-docx, the Gemini client, the clock) are
    inputs of the model: a file carries what the readers return for it,
    and the oracle is a function of the request.

    Part I holds the definitions, part II the lemmas and theorems. *)

From Stdlib Require Import Ascii ZArith Lia.
From stdpp Require Import base option list strings pretty gmap functions.

Local Open Scope stdpp_scope.

(* ===================================================================== *)
(** * Part I: definitions *)
(* ===================================================================== *)

(** ** Python's string primitives *)

Module Py.

Definition LF : ascii := "010"%char.
Definition CR : ascii := "013"%char.
Definition nl : string := String LF "".

(** [bool(s)] for a string: the empty string is falsy. *)
Definition nonempty (s : string) : bool :=
  match s with "" => false | String _ _ => true end.

(** [bool(x)] for an optional string: [None] and [""] are falsy. *)
Definition truthy (x : option string) : bool :=
  match x with Some s => nonempty s | None => false end.

(** [x or y] on optional strings. *)
Definition or_else (x y : option string) : option string :=
  if truthy x then x else y.

(** [c.isspace()] for a code point below 256. *)
Definition is_space (c : ascii) : bool :=
  match c with
  | "009" | "010" | "011" | "012" | "013"
  | "028" | "029" | "030" | "031" | " " | "133" | "160" => true
  | _ => false
  end%char.

(** [s.lstrip()], [s.rstrip()] and [s.strip()]. *)
Fixpoint lstrip (s : string) : string :=
  match s with
  | "" => ""
  | String c s' => if is_space c then lstrip s' else s
  end.

Fixpoint rstrip (s : string) : string :=
  match s with
  | "" => ""
  | String c s' =>
      match rstrip s' with
      | "" => if is_space c then "" else String c ""
      | String d r => String c (String d r)
      end
  end.

Definition strip (s : string) : string := lstrip (rstrip s).

(** [s.strip(chars)] for a one-character set. *)
Fixpoint lstrip_char (x : ascii) (s : string) : string :=
  match s with
  | "" => ""
  | String c s' => if decide (c = x) then lstrip_char x s' else s
  end.

Fixpoint rstrip_char (x : ascii) (s : string) : string :=
  match s with
  | "" => ""
  | String c s' =>
      match rstrip_char x s' with
      | "" => if decide (c = x) then "" else String c ""
      | String d r => String c (String d r)
      end
  end.

Definition strip_char (x : ascii) (s : string) : string :=
  lstrip_char x (rstrip_char x s).

(** [s.startswith(p)] and [s.endswith(p)]. *)
Fixpoint startswith (p s : string) : bool :=
  match p, s with
  | "", _ => true
  | String a p', String b s' => if decide (a = b) then startswith p' s' else false
  | String _ _, "" => false
  end.

Definition endswith (p s : string) : bool :=
  startswith (String.rev p) (String.rev s).

Fixpoint drop (n : nat) (s : string) : string :=
  match n, s with
  | O, _ => s
  | S n', String _ s' => drop n' s'
  | S _, "" => ""
  end.

(** [sub in s]. *)
Fixpoint contains (sub s : string) : bool :=
  startswith sub s ||
  match s with "" => false | String _ s' => contains sub s' end.

(** [s.split(sep)] for a one-character separator: never the empty list. *)
Fixpoint split_char (sep : ascii) (s : string) : list string :=
  match s with
  | "" => [""]
  | String c s' =>
      if decide (c = sep) then "" :: split_char sep s'
      else match split_char sep s' with
           | [] => [String c ""]
           | p :: ps => String c p :: ps
           end
  end.

(** [sep.join(parts)]. *)
Fixpoint join (sep : string) (parts : list string) : string :=
  match parts with
  | [] => ""
  | [p] => p
  | p :: ps => p +:+ sep +:+ join sep ps
  end.

(** [s.split(sep, 1)] for a non-empty separator: the text before the first
    occurrence of [sep] and the text after it, or [None] when [sep] does not
    occur (Python then returns the one-element list [[s]]). *)
Fixpoint partition (sep s : string) : option (string * string) :=
  if startswith sep s then Some ("", drop (String.length sep) s)
  else match s with
       | "" => None
       | String c s' =>
           match partition sep s' with
           | Some (a, b) => Some (String c a, b)
           | None => None
           end
       end.

(** [len(s.split())]: the number of maximal runs of non-space characters. *)
Fixpoint count_words (in_word : bool) (s : string) : nat :=
  match s with
  | "" => 0
  | String c s' =>
      if is_space c then count_words false s'
      else if in_word then count_words true s'
      else S (count_words true s')
  end.

(** What a text-mode [open(path, "r")] does to the stored characters
    (universal newlines): CR LF and a lone CR are read as LF.
    [after_cr] tells that the previous character was a CR. *)
Fixpoint universal_newlines (after_cr : bool) (s : string) : string :=
  match s with
  | "" => ""
  | String c s' =>
      if decide (c = CR) then String LF (universal_newlines true s')
      else if decide (c = LF) then
        if after_cr then universal_newlines false s'
        else String LF (universal_newlines false s')
      else String c (universal_newlines false s')
  end.

(** [f.readlines()] on the text read: the lines with their line feed; a last
    line without line feed is kept when it is not empty. *)
Fixpoint readlines (s : string) : list string :=
  match s with
  | "" => []
  | String c s' =>
      if decide (c = LF) then nl :: readlines s'
      else match readlines s' with
           | [] => [String c ""]
           | l :: ls => String c l :: ls
           end
  end.

(** Two decimal digits and four decimal digits, zero padded, as [%m], [%d],
    [%H], [%M], [%S] and [%Y] print them. *)
Definition digit (n : nat) : ascii := ascii_of_nat (48 + n `mod` 10).

Definition pad2 (n : nat) : string :=
  String (digit (n `div` 10)) (String (digit n) "").

Definition pad4 (n : nat) : string :=
  String (digit (n `div` 1000)) (String (digit (n `div` 100))
    (String (digit (n `div` 10)) (String (digit n) ""))).

End Py.

(** ** Values kept in [st.session_state] and exceptions of the libraries *)

(** The result of a library call that may raise: the value, or the text of
    the exception ([str(e)]). *)
Inductive Exc (A : Type) : Type :=
| Returns (a : A)
| Raises (e : string).
Arguments Returns {A} a.
Arguments Raises {A} e.

(** A [datetime] as Python holds it: the fields of the civil date and time. *)
Record datetime : Type := mk_datetime {
  year : nat; month : nat; day : nat;
  hour : nat; minute : nat; second : nat; microsecond : nat }.

(** ** Uploaded files and the document reader *)

(** An uploaded file with what the readers make of it.  In Streamlit [name]
    is the file's name and [type] its MIME type; in Gradio [name] is the path
    of the temporary copy. *)
Record UploadedFile : Type := mk_file {
  file_name : string;
  file_type : string;
  (** [getvalue().decode("utf-8")], or [open(path, encoding='utf-8').read()] *)
  decoded : Exc string;
  (** pdfplumber: [page.extract_text()] of every page *)
  pdf_pages : Exc (list (option string));
  (** python-docx: [para.text] of every paragraph *)
  docx_paragraphs : Exc (list string) }.

(** What the user interface is told: [st.error], [st.warning], [st.success],
    [st.info], [st.metric] and the download button of Streamlit; [gr.Warning]
    and [gr.Info] of Gradio. *)
Inductive Notice : Type :=
| ErrUnsupportedFormat (ftype fname : string)
| ErrReadingFile (fname e : string)
| WarnGoldMismatch
| ErrInvalidApiKey
| ErrGemini (e : string)
| OkApiKeyLoaded
| ErrApiKeyNotFound
| InfoCreateEnv
| ErrProvideApiKey
| ErrUploadSource
| OkFilesPrepared
| MetricProjectScope (words : nat)
| InfoGoldLoaded
| ErrFailedToRead
| InfoTranslatorAssigned
| OkTranslationComplete
| OkEditComplete
| InfoManualEditSaved
| WarnCompleteStep4
| OkProofreadingComplete
| WarnCompleteStep4Or5
| InfoDtp
| OkFinalCheck
| DownloadButton (download_file_name : string) (paragraphs : list string)
| OkArchived
| WarnSessionExpired
| OkLoggedOut
| OkWelcome (username : string)
| ErrInvalidLogin
| InfoLoggedInAs (username : string)
| WarnNoFinalText
| InfoDownloadPrepared
| ErrCreatingDocx (e : string)
| ErrNotAnOutput
| InfoProjectArchived.

Definition is_error (n : Notice) : bool :=
  match n with
  | ErrUnsupportedFormat _ _ | ErrReadingFile _ _ | ErrInvalidApiKey
  | ErrGemini _ | ErrApiKeyNotFound | ErrProvideApiKey | ErrUploadSource
  | ErrFailedToRead | ErrInvalidLogin | ErrCreatingDocx _ | ErrNotAnOutput => true
  | _ => false
  end.

(** The answer of the remote model to one request: [response.text], or an
    exception raised by the client (timeout, transport, rejected key). *)
Definition Oracle : Type :=
  option string (* api key *) -> string (* model *) -> string (* prompt *) -> Exc string.

(** ** Helpers shared by the three front ends *)

Module Helpers.
Import Py.

(** [text += page_text + "\n"] for every page with text. *)
Fixpoint pdf_text (text : string) (pages : list (option string)) : string :=
  match pages with
  | [] => text
  | page_text :: rest =>
      if truthy page_text
      then pdf_text (text +:+ default "" page_text +:+ nl) rest
      else pdf_text text rest
  end.

(** [text += para.text + "\n"] for every paragraph. *)
Fixpoint docx_text (text : string) (paras : list string) : string :=
  match paras with
  | [] => text
  | para :: rest => docx_text (text +:+ para +:+ nl) rest
  end.

Definition docx_mime : string :=
  "application/vnd.openxmlformats-officedocument.wordprocessingml.document".

(** The few-shot block of one pair, as the three f-strings build it. *)
Definition gold_header : string :=
  nl +:+ nl +:+
  "Here are some 'gold standard' examples of English-to-Portuguese translations to guide your tone and terminology. Follow these examples closely:"
  +:+ nl.

Definition gold_block (number : nat) (en_text pt_text : string) : string :=
  (nl +:+ "--- Gold Standard Example " +:+ pretty number +:+ " ---" +:+ nl)
  +:+ ("[English]:" +:+ nl +:+ en_text +:+ nl)
  +:+ ("[Portuguese]:" +:+ nl +:+ pt_text +:+ nl)
  +:+ ("--- End Example ---" +:+ nl).

(** A word-processing document is the list of its paragraphs' texts;
    [docx.Document()] is the empty one and [add_paragraph] appends. *)
Definition Document : Type := list string.

Fixpoint add_paragraphs (doc : Document) (paras : list string) : Document :=
  match paras with
  | [] => doc
  | para :: rest => add_paragraphs (doc ++ [para]) rest
  end.

(** [os.path.basename] and [os.path.splitext] of posixpath. *)
Fixpoint basename (p : string) : string :=
  match p with
  | "" => ""
  | String c p' => if contains "/" p then basename p' else p
  end.

(** The root and extension when the extension starts at the last dot of
    [s]; [seen] tells that a character other than a dot came before. *)
Fixpoint splitext_go (seen : bool) (s : string) : option (string * string) :=
  match s with
  | "" => None
  | String c s' =>
      match splitext_go (seen || negb (bool_decide (c = "."%char))) s' with
      | Some (root, ext) => Some (String c root, ext)
      | None => if bool_decide (c = "."%char) && seen then Some ("", s) else None
      end
  end.

Definition splitext (p : string) : string * string :=
  let base := basename p in
  let dir := String.rev (drop (String.length base) (String.rev p)) in
  match splitext_go false base with
  | Some (root, ext) => (dir +:+ root, ext)
  | None => (p, "")
  end.

End Helpers.

(** ** Streamlit: the session dictionary and the script monad *)

(** A value stored under a key of [st.session_state]. *)
Inductive Val : Type :=
| VNone
| VBool (b : bool)
| VStr (s : string)
| VTime (t : datetime).

Global Instance datetime_eq_dec : EqDecision datetime.
Proof. solve_decision. Defined.

Global Instance Val_eq_dec : EqDecision Val.
Proof. solve_decision. Defined.

Module Session.
Import Py.

(** [bool(v)]. *)
Definition truthy_val (v : Val) : bool :=
  match v with
  | VNone => false
  | VBool b => b
  | VStr s => nonempty s
  | VTime _ => true
  end.

(** [x or y]. *)
Definition or_val (x y : Val) : Val := if truthy_val x then x else y.

Definition of_option (x : option string) : Val :=
  match x with Some s => VStr s | None => VNone end.

Definition to_option (v : Val) : option string :=
  match v with VStr s => Some s | _ => None end.

(** [strftime("%Y-%m-%d %H:%M:%S")]. *)
Definition strftime (t : datetime) : string :=
  pad4 (year t) +:+ "-" +:+ pad2 (month t) +:+ "-" +:+ pad2 (day t) +:+ " "
  +:+ pad2 (hour t) +:+ ":" +:+ pad2 (minute t) +:+ ":" +:+ pad2 (second t).

(** [f"{v}"]. *)
Definition format (v : Val) : string :=
  match v with
  | VNone => "None"
  | VBool true => "True"
  | VBool false => "False"
  | VStr s => s
  | VTime t =>
      if decide (microsecond t = 0) then strftime t
      else strftime t +:+ "." +:+ pad2 (microsecond t `div` (100 * 100))
           +:+ pad2 (microsecond t `div` 100) +:+ pad2 (microsecond t)
  end.

(** A mutation of the session dictionary: an assignment to a key, or the
    loop that deletes every key outside of [kept]. *)
Inductive Mutation : Type :=
| Assigned (key : string) (v : Val)
| Cleared (kept : list string).

(** What a run of the script sees and changes: the session dictionary, the
    notices shown in this run, the access log ([None]: no such file), and
    the mutations of the dictionary so far, oldest first. *)
Record World : Type := mk_world {
  session_state : gmap string Val;
  ui : list Notice;
  log_file : option string;
  journal : list Mutation }.

(** How a piece of the script ends: normally, by [st.stop()], by
    [st.rerun()], by the [AttributeError] of reading a missing key, or by the
    [TypeError] of subtracting something that is no [datetime]. *)
Inductive Flow (A : Type) : Type :=
| Done (a : A)
| Stop
| Rerun
| AttributeError (key : string)
| TypeError.
Arguments Done {A} a.
Arguments Stop {A}.
Arguments Rerun {A}.
Arguments AttributeError {A} key.
Arguments TypeError {A}.

Definition Script (A : Type) : Type := World -> Flow A * World.

Global Instance Script_ret : MRet Script := λ A a w, (Done a, w).

Global Instance Script_bind : MBind Script := λ A B f m w,
  match m w with
  | (Done a, w') => f a w'
  | (Stop, w') => (Stop, w')
  | (Rerun, w') => (Rerun, w')
  | (AttributeError k, w') => (AttributeError k, w')
  | (TypeError, w') => (TypeError, w')
  end.

(** [st.session_state.key] *)
Definition getattr (key : string) : Script Val := λ w,
  match session_state w !! key with
  | Some v => (Done v, w)
  | None => (AttributeError key, w)
  end.

(** [st.session_state.key = v] *)
Definition setattr (key : string) (v : Val) : Script unit := λ w,
  (Done (), mk_world (<[key := v]> (session_state w)) (ui w) (log_file w)
              (journal w ++ [Assigned key v])).

(** [key in st.session_state] *)
Definition has (key : string) : Script bool := λ w,
  (Done (bool_decide (is_Some (session_state w !! key))), w).

(** [st.session_state.get(key)] *)
Definition get (key : string) : Script Val := λ w,
  (Done (default VNone (session_state w !! key)), w).

(** [for key in list(st.session_state.keys()): if key not in keep: del ...] *)
Definition delete_all_but (keep : list string) : Script unit := λ w,
  (Done (), mk_world (filter (λ kv, kv.1 ∈ keep) (session_state w))
              (ui w) (log_file w) (journal w ++ [Cleared keep])).

Definition notify (n : Notice) : Script unit := λ w,
  (Done (), mk_world (session_state w) (ui w ++ [n]) (log_file w) (journal w)).

(** Runs a helper that only shows notices. *)
Definition showing {A} (r : A * list Notice) : Script A := λ w,
  (Done r.1, mk_world (session_state w) (ui w ++ r.2) (log_file w) (journal w)).

Definition stop {A} : Script A := λ w, (Stop, w).
Definition rerun {A} : Script A := λ w, (Rerun, w).
Definition type_error {A} : Script A := λ w, (TypeError, w).

Definition when (b : bool) (body : Script unit) : Script unit :=
  if b then body else mret ().

End Session.

(** ** The helpers of the Streamlit scripts

    [read_file], [build_gold_standard_prompt], [call_gemini] and
    [create_word_document] have the same text in [translation_app.py]
    (lines 21-106) and in [app_st_dev.py] (lines 168-251). *)

Module Streamlit.
Import Py Helpers Session.

(** What the user gives to one run of the script: the widgets' values, the
    buttons pressed, and the environment. *)
Record Inputs : Type := mk_inputs {
  getenv_GEMINI_API_KEY : option string;
  gold_en_files : list UploadedFile;
  gold_pt_files : list UploadedFile;
  source_file : option UploadedFile;
  source_lang : string;
  target_lang : string;
  start_button : bool;
  run_translation_button : bool;
  ask_edit_button : bool;
  ask_proofread_button : bool;
  archive_button : bool;
(** the text area "manual_edit": [None] while it shows the text given as
      its default, [Some x] when it holds the text [x] *)
  manual_edit_widget : option string;
  oracle : Oracle }.

Definition read_file (uploaded_file : UploadedFile) : option string * list Notice :=
  let file_type := file_type uploaded_file in
  let file_name := file_name uploaded_file in
  let on_exception {A} (r : Exc A) (f : A -> string) :=
    match r with
    | Returns a => (Some (f a), [])
    | Raises e => (None, [ErrReadingFile file_name e])
    end in
  if bool_decide (file_type = "text/plain") then
    on_exception (decoded uploaded_file) id
  else if bool_decide (file_type = "application/pdf") then
    on_exception (pdf_pages uploaded_file) (pdf_text "")
  else if bool_decide (file_type = docx_mime) || endswith ".docx" file_name then
    on_exception (docx_paragraphs uploaded_file) (docx_text "")
  else (None, [ErrUnsupportedFormat file_type file_name]).

(** The body of [for i, (en_file, pt_file) in enumerate(zip(...))]. *)
Fixpoint gold_loop (i : nat) (pairs : list (UploadedFile * UploadedFile))
    (prompt : string) (shown : list Notice) : string * list Notice :=
  match pairs with
  | [] => (prompt, shown)
  | (en_file, pt_file) :: rest =>
      let en := read_file en_file in
      let pt := read_file pt_file in
      let prompt :=
        if truthy en.1 && truthy pt.1 then
          let prompt := prompt +:+ (nl +:+ "--- Gold Standard Example " +:+ pretty (i + 1) +:+ " ---" +:+ nl) in
          let prompt := prompt +:+ ("[English]:" +:+ nl +:+ default "" en.1 +:+ nl) in
          let prompt := prompt +:+ ("[Portuguese]:" +:+ nl +:+ default "" pt.1 +:+ nl) in
          prompt +:+ ("--- End Example ---" +:+ nl)
        else prompt in
      gold_loop (S i) rest prompt (shown ++ en.2 ++ pt.2)
  end.

Definition build_gold_standard_prompt (en_files pt_files : list UploadedFile)
    : string * list Notice :=
  let prompt := "" in
  if bool_decide (en_files = []) || bool_decide (pt_files = []) then (prompt, [])
  else
    let shown :=
      if bool_decide (length en_files ≠ length pt_files)
      then [WarnGoldMismatch] else [] in
    gold_loop 0 (zip en_files pt_files) gold_header shown.

Definition call_gemini (oracle : Oracle) (api_key : Val)
    (prompt task_description : string) : option string * list Notice :=
  match oracle (to_option api_key) "gemini-2.5-flash" prompt with
  | Returns text => (Some text, [])
  | Raises e =>
      if contains "API_KEY_INVALID" e || contains "PERMISSION_DENIED" e
      then (None, [ErrInvalidApiKey])
      else (None, [ErrGemini e])
  end.

Definition create_word_document (text_content : string) : Document :=
  add_paragraphs [] (split_char LF text_content).

(** *** The prompts of steps 4, 5 and 6 (f-strings, sixteen spaces deep) *)

Definition pad : string := "                ".

Definition prompt_step_4 (source_lang target_lang : string) (gold source : Val) : string :=
  "You are a professional " +:+ source_lang +:+ "-to-" +:+ target_lang +:+ " translator." +:+ nl
  +:+ pad +:+ "Translate the following text. Maintain a professional tone and ensure accuracy." +:+ nl
  +:+ pad +:+ "Preserve paragraph breaks (indicated by newlines)." +:+ nl
  +:+ pad +:+ format gold +:+ nl
  +:+ pad +:+ "---" +:+ nl
  +:+ pad +:+ "Source Text to Translate:" +:+ nl
  +:+ pad +:+ format source +:+ nl
  +:+ pad +:+ "---" +:+ nl
  +:+ pad +:+ target_lang +:+ " Translation:".

Definition prompt_step_5 (source_lang target_lang : string) (gold source step_4 : Val) : string :=
  "You are a professional editor. Review the following translation from "
    +:+ source_lang +:+ " to " +:+ target_lang +:+ "." +:+ nl
  +:+ pad +:+ "Compare it against the source text for accuracy, terminology, and tone." +:+ nl
  +:+ pad +:+ "Correct any stylistic or grammatical issues to improve fluency. Preserve paragraph breaks." +:+ nl
  +:+ pad +:+ format gold +:+ nl
  +:+ pad +:+ "---" +:+ nl
  +:+ pad +:+ "Source Text:" +:+ nl
  +:+ pad +:+ format source +:+ nl
  +:+ pad +:+ "---" +:+ nl
  +:+ pad +:+ "Initial Translation to Review:" +:+ nl
  +:+ pad +:+ format step_4 +:+ nl
  +:+ pad +:+ "---" +:+ nl
  +:+ pad +:+ "Provide only the final, improved " +:+ target_lang +:+ " translation:".

Definition prompt_step_6 (target_lang : string) (current_text : Val) : string :=
  "You are a meticulous proofreader. Perform a final check on the following "
    +:+ target_lang +:+ " text." +:+ nl
  +:+ pad +:+ "Correct only objective errors (typos, grammar, punctuation). Preserve paragraph breaks." +:+ nl
  +:+ pad +:+ "Do NOT change the style or word choice unless it's grammatically incorrect." +:+ nl
  +:+ pad +:+ "---" +:+ nl
  +:+ pad +:+ "Text to Proofread:" +:+ nl
  +:+ pad +:+ format current_text +:+ nl
  +:+ pad +:+ "---" +:+ nl
  +:+ pad +:+ "Provide only the final, proofread text:".

(** *** The blocks both scripts run, in the order of the file *)

(** [if "project_started" not in st.session_state: ...] *)
Definition init_project (inp : Inputs) : Script unit :=
  started ← has "project_started";
  when (negb started) (
    setattr "project_started" (VBool false);;
    setattr "api_key" (of_option (getenv_GEMINI_API_KEY inp));;
    setattr "source_text" VNone;;
    setattr "gold_standard_prompt" (VStr "");;
    setattr "translation_step_4" VNone;;
    setattr "translation_step_5" VNone;;
    setattr "translation_step_6" VNone;;
    setattr "final_text" VNone).

(** The key's status in the sidebar. *)
Definition sidebar_configuration : Script unit :=
  api_key ← getattr "api_key";
  if truthy_val api_key then notify OkApiKeyLoaded
  else notify ErrApiKeyNotFound;; notify InfoCreateEnv.

(** The two checks after [if start_button or project_started], and the
    flag set right after them. *)
Definition check_and_start (inp : Inputs) : Script UploadedFile :=
  api_key ← getattr "api_key";
  when (negb (truthy_val api_key)) (notify ErrProvideApiKey;; stop);;
  match source_file inp with
  | None => notify ErrUploadSource;; stop
  | Some file =>
      setattr "project_started" (VBool true);;
      mret file
  end.

(** Step 2, preparation. *)
Definition step_2 (inp : Inputs) (file : UploadedFile) : Script unit :=
  source_text ← getattr "source_text";
  when (bool_decide (source_text = VNone)) (
    text ← showing (read_file file);
    setattr "source_text" (of_option text);;
    gold ← showing (build_gold_standard_prompt (gold_en_files inp) (gold_pt_files inp));
    setattr "gold_standard_prompt" (VStr gold);;
    source_text ← getattr "source_text";
    if truthy_val source_text then
      notify OkFilesPrepared;;
      notify (MetricProjectScope (count_words false (format source_text)));;
      gold ← getattr "gold_standard_prompt";
      when (truthy_val gold) (notify InfoGoldLoaded)
    else
      notify ErrFailedToRead;; stop).

Definition step_3 : Script unit := notify InfoTranslatorAssigned.

(** Step 4, translation. *)
Definition step_4 (inp : Inputs) : Script unit :=
  step_4 ← getattr "translation_step_4";
  when (run_translation_button inp || truthy_val step_4) (
    step_4 ← getattr "translation_step_4";
    when (negb (truthy_val step_4)) (
      gold ← getattr "gold_standard_prompt";
      source_text ← getattr "source_text";
      let prompt := prompt_step_4 (source_lang inp) (target_lang inp) gold source_text in
      api_key ← getattr "api_key";
      translation ← showing (call_gemini (oracle inp) api_key prompt "translating");
      when (truthy translation) (
        setattr "translation_step_4" (of_option translation);;
        setattr "final_text" (of_option translation);;
        notify OkTranslationComplete))).

(** Step 5, editing: the model's review, then the text area. *)
Definition step_5 (inp : Inputs) : Script unit :=
  step_4 ← getattr "translation_step_4";
  if truthy_val step_4 then
    when (ask_edit_button inp) (
      gold ← getattr "gold_standard_prompt";
      source_text ← getattr "source_text";
      step_4 ← getattr "translation_step_4";
      let prompt := prompt_step_5 (source_lang inp) (target_lang inp) gold source_text step_4 in
      api_key ← getattr "api_key";
      edited_translation ← showing (call_gemini (oracle inp) api_key prompt "editing");
      when (truthy edited_translation) (
        setattr "translation_step_5" (of_option edited_translation);;
        setattr "final_text" (of_option edited_translation);;
        notify OkEditComplete));;
    step_5 ← getattr "translation_step_5";
    step_4 ← getattr "translation_step_4";
    let default_text := or_val step_5 step_4 in
    let manual_edit := default default_text (VStr <$> manual_edit_widget inp) in
    when (bool_decide (manual_edit ≠ default_text)) (
      setattr "translation_step_5" manual_edit;;
      setattr "final_text" manual_edit;;
      notify InfoManualEditSaved)
  else notify WarnCompleteStep4.

(** Step 6, proofreading. *)
Definition step_6 (inp : Inputs) : Script unit :=
  step_5 ← getattr "translation_step_5";
  step_4 ← getattr "translation_step_4";
  let current_text_for_proofread := or_val step_5 step_4 in
  if truthy_val current_text_for_proofread then
    when (ask_proofread_button inp) (
      let prompt := prompt_step_6 (target_lang inp) current_text_for_proofread in
      api_key ← getattr "api_key";
      proofread_text ← showing (call_gemini (oracle inp) api_key prompt "proofreading");
      when (truthy proofread_text) (
        setattr "translation_step_6" (of_option proofread_text);;
        setattr "final_text" (of_option proofread_text);;
        notify OkProofreadingComplete))
  else notify WarnCompleteStep4Or5.

(** The download button of step 9. *)
Definition download_button (file : UploadedFile) : Script unit :=
  final_text ← getattr "final_text";
  let doc_data := create_word_document (format final_text) in
  let base_name := (splitext (file_name file)).1 in
  let download_file_name := "translated_" +:+ base_name +:+ ".docx" in
  notify (DownloadButton download_file_name doc_data).

End Streamlit.

(** ** [translation_app.py]: the script from top to bottom *)

Module TranslationApp.
Import Py Helpers Session Streamlit.

(** Steps 7 to 9. *)
Definition steps_7_to_9 (file : UploadedFile) : Script unit :=
  final_text ← getattr "final_text";
  when (truthy_val final_text) (
    notify InfoDtp;;
    notify OkFinalCheck;;
    download_button file).

(** Step 10: feedback, and the archive button. *)
Definition step_10 (inp : Inputs) : Script unit :=
  when (archive_button inp) (
    notify OkArchived;;
    api_key ← getattr "api_key";
    delete_all_but [];;
    setattr "api_key" api_key;;
    rerun).

Definition script (inp : Inputs) : Script unit :=
  init_project inp;;
  sidebar_configuration;;
  started ← getattr "project_started";
  when (start_button inp || truthy_val started) (
    file ← check_and_start inp;
    step_2 inp file;;
    step_3;;
    step_4 inp;;
    step_5 inp;;
    step_6 inp;;
    steps_7_to_9 file;;
    step_10 inp).

(** The session of a browser tab that has not run the script yet. *)
Definition fresh : World := mk_world ∅ [] None [].

(** One run: the notices of the previous run are gone, the session stays. *)
Definition run (inp : Inputs) (w : World) : Flow unit * World :=
  script inp (mk_world (session_state w) [] (log_file w) (journal w)).

(** [st.rerun()] starts the script again at once, with no button pressed;
    [fuel] bounds the restarts. *)
Definition no_buttons (inp : Inputs) : Inputs :=
  mk_inputs (getenv_GEMINI_API_KEY inp) (gold_en_files inp) (gold_pt_files inp)
    (source_file inp) (source_lang inp) (target_lang inp)
    false false false false false (manual_edit_widget inp) (oracle inp).

Fixpoint interact (fuel : nat) (inp : Inputs) (w : World) : Flow unit * World :=
  match run inp w with
  | (Rerun, w') =>
      match fuel with
      | O => (Rerun, w')
      | S fuel' => interact fuel' (no_buttons inp) w'
      end
  | r => r
  end.

End TranslationApp.

(** ** [app_st_dev.py]: the login gate, the access log and the script *)

Module StDev.
Import Py Helpers Session Streamlit.

Definition SESSION_TIMEOUT_MIN : Z := 15.

(** An entry of [users.json]. *)
Record UserAccount : Type := mk_user { password : string; role : string }.

(** A parsed line of the access log. *)
Record LogEntry : Type := mk_entry {
  timestamp : string; username : string; event : string }.

Global Instance LogEntry_eq_dec : EqDecision LogEntry.
Proof. solve_decision. Defined.

(** What this script reads besides the inputs of the workflow. *)
Record AuthInputs : Type := mk_auth_inputs {
  workflow : Inputs;
  now : datetime;
  users_json : option (gmap string UserAccount);
  login_username : string;
  login_password : string;
  login_button : bool;
  logout_button : bool }.

(** [datetime] arithmetic: the proleptic Gregorian ordinal of the date and
    the microseconds since the start of year 1. *)
Definition is_leap (y : nat) : bool :=
  bool_decide (y `mod` 4 = 0) &&
  (bool_decide (y `mod` 100 ≠ 0) || bool_decide (y `mod` 400 = 0)).

Definition days_in_month (y m : nat) : nat :=
  match m with
  | 2 => if is_leap y then 29 else 28
  | 4 | 6 | 9 | 11 => 30
  | _ => 31
  end.

Definition days_before_month (y m : nat) : nat :=
  sum_list (days_in_month y <$> seq 1 (m - 1)).

Definition days_before_year (y : nat) : nat :=
  let y := y - 1 in y * 365 + y `div` 4 - y `div` 100 + y `div` 400.

Definition toordinal (t : datetime) : nat :=
  days_before_year (year t) + days_before_month (year t) (month t) + day t.

Definition total_microseconds (t : datetime) : Z :=
  (((Z.of_nat (toordinal t) * 24 + Z.of_nat (hour t)) * 60
    + Z.of_nat (minute t)) * 60 + Z.of_nat (second t)) * 1000000
  + Z.of_nat (microsecond t).

(** [load_users()]: the table of [users.json], empty when the file is not
    there. *)
Definition load_users (inp : AuthInputs) : gmap string UserAccount :=
  default ∅ (users_json inp).

(** The line [log_event] writes. *)
Definition log_line (now : datetime) (username event : string) : string :=
  "[" +:+ strftime now +:+ "] " +:+ username +:+ ": " +:+ event +:+ nl.

(** [open(LOG_FILE, "a")] creates the file when it is missing. *)
Definition log_event (now : datetime) (username event : string) : Script unit := λ w,
  (Done (), mk_world (session_state w) (ui w)
              (Some (default "" (log_file w) +:+ log_line now username event))
              (journal w)).

(** One turn of the loop of [read_logs]: [None] is the [continue] after an
    unpacking that fails. *)
Definition parse_line (line : string) : option LogEntry :=
  match partition "] " (strip line) with
  | None => None
  | Some (timestamp, rest) =>
      let timestamp := strip_char "[" timestamp in
      match partition ":" rest with
      | None => None
      | Some (username, event) =>
          Some (mk_entry timestamp (strip username) (strip event))
      end
  end.

Fixpoint read_logs_loop (lines : list string) (logs : list LogEntry) : list LogEntry :=
  match lines with
  | [] => logs
  | line :: rest =>
      match parse_line line with
      | Some entry => read_logs_loop rest (logs ++ [entry])
      | None => read_logs_loop rest logs
      end
  end.

Definition read_logs (w : World) : list LogEntry :=
  match log_file w with
  | None => []
  | Some content =>
      let lines := readlines (universal_newlines false content) in
      read_logs_loop lines []
  end.

Definition is_session_expired (now : datetime) : Script bool :=
  present ← has "last_activity";
  if negb present then mret true
  else
    last_activity ← getattr "last_activity";
    match last_activity with
    | VTime t =>
        let elapsed := (total_microseconds now - total_microseconds t)%Z in
        mret (bool_decide (elapsed > SESSION_TIMEOUT_MIN * 60 * 1000000)%Z)
    | _ => type_error
    end.

Definition update_activity (now : datetime) : Script unit :=
  setattr "last_activity" (VTime now).

Definition login_ui (inp : AuthInputs) : Script unit :=
  when (login_button inp) (
    let users := load_users inp in
    let username := login_username inp in
    match users !! username with
    | Some account =>
        if bool_decide (password account = login_password inp) then
          setattr "authenticated" (VBool true);;
          setattr "username" (VStr username);;
          update_activity (now inp);;
          notify (OkWelcome username);;
          log_event (now inp) username "Logged in";;
          rerun
        else notify ErrInvalidLogin
    | None => notify ErrInvalidLogin
    end);;
  stop.

Definition logout (inp : AuthInputs) : Script unit :=
  named ← has "username";
  when named (
    username ← getattr "username";
    log_event (now inp) (format username) "Logged out");;
  api_key ← get "api_key";
  delete_all_but [];;
  setattr "authenticated" (VBool false);;
  when (truthy_val api_key) (setattr "api_key" api_key);;
  notify OkLoggedOut;;
  rerun.

(** The gate at the top of the script (lines 259-272). *)
Definition authentication_gate (inp : AuthInputs) : Script unit :=
  known ← has "authenticated";
  when (negb known) (setattr "authenticated" (VBool false));;
  authenticated ← getattr "authenticated";
  expired ← (if truthy_val authenticated then is_session_expired (now inp)
             else mret false);
  when (truthy_val authenticated && expired) (
    notify WarnSessionExpired;;
    logout inp);;
  authenticated ← getattr "authenticated";
  when (negb (truthy_val authenticated)) (login_ui inp);;
  update_activity (now inp).

Definition sidebar_auth (inp : AuthInputs) : Script unit :=
  username ← getattr "username";
  notify (InfoLoggedInAs (format username));;
  when (logout_button inp) (logout inp).

(** Steps 7 to 9, with the log entry written once. *)
Definition steps_7_to_9 (inp : AuthInputs) (file : UploadedFile) : Script unit :=
  final_text ← getattr "final_text";
  when (truthy_val final_text) (
    notify InfoDtp;;
    notify OkFinalCheck;;
    fired ← has "log_event_fired";
    when (negb fired) (
      username ← getattr "username";
      log_event (now inp) (format username)
        ("Completed translation " +:+ source_lang (workflow inp) +:+ "->"
           +:+ target_lang (workflow inp));;
      setattr "log_event_fired" (VBool true));;
    download_button file).

(** Step 10: the archive button (lines 497-513). *)
Definition step_10 (inp : AuthInputs) : Script unit :=
  when (archive_button (workflow inp)) (
    notify OkArchived;;
    username ← getattr "username";
    log_event (now inp) (format username) "Submitted feedback and archived project.";;
    api_key ← getattr "api_key";
    username ← getattr "username";
    authenticated ← getattr "authenticated";
    last_activity ← getattr "last_activity";
    delete_all_but ["api_key"; "username"; "authenticated"; "last_activity"];;
    setattr "project_started" (VBool false);;
    rerun).

Definition script (inp : AuthInputs) : Script unit :=
  authentication_gate inp;;
  init_project (workflow inp);;
  sidebar_auth inp;;
  sidebar_configuration;;
  started ← getattr "project_started";
  when (start_button (workflow inp) || truthy_val started) (
    file ← check_and_start (workflow inp);
    step_2 (workflow inp) file;;
    step_3;;
    step_4 (workflow inp);;
    step_5 (workflow inp);;
    step_6 (workflow inp);;
    steps_7_to_9 inp file;;
    step_10 inp).

Definition run (inp : AuthInputs) (w : World) : Flow unit * World :=
  script inp (mk_world (session_state w) [] (log_file w) (journal w)).

Definition no_buttons (inp : AuthInputs) : AuthInputs :=
  mk_auth_inputs (TranslationApp.no_buttons (workflow inp)) (now inp)
    (users_json inp) (login_username inp) (login_password inp) false false.

Fixpoint interact (fuel : nat) (inp : AuthInputs) (w : World) : Flow unit * World :=
  match run inp w with
  | (Rerun, w') =>
      match fuel with
      | O => (Rerun, w')
      | S fuel' => interact fuel' (no_buttons inp) w'
      end
  | r => r
  end.

End StDev.

(** ** [app_gradio.py]: components, handlers and their wiring *)

Module Gradio.
Import Py Helpers.

(** The components that some handler reads or writes. *)
Inductive Component : Type :=
| api_key_state | source_text_state | gold_prompt_state | source_file_obj_state
| translation_step_4_state | translation_step_5_state | translation_step_6_state
| final_text_state
| model_name_dd | gold_en_upload | gold_pt_upload
| source_file_upload | source_lang_dd | target_lang_dd | start_button
| step_2_accordion | step_3_accordion | step_4_accordion | step_5_accordion
| step_6_accordion | step_7_accordion | step_8_accordion | step_9_accordion
| step_10_accordion
| word_count_label | gold_status_label | source_text_widget
| step_4_prompt_text | step_4_source_text | step_4_target_text
| step_5_prompt_text | step_5_source_text | step_5_target_text
| step_6_prompt_text | step_6_source_text | step_6_target_text
| final_source_widget | final_translation_widget | download_file_widget
| feedback_slider | feedback_text.

Global Instance Component_eq_dec : EqDecision Component.
Proof. solve_decision. Defined.

(** The value of a component: [None], a string, an uploaded file or a list
    of them, a number, or the temporary file offered for download (its
    path and the document written to it). *)
Inductive GVal : Type :=
| GNone
| GStr (s : string)
| GFile (f : UploadedFile)
| GFiles (fs : list UploadedFile)
| GNum (n : nat)
| GTemp (path : string) (doc : Document).

Record Props : Type := mk_props {
  value : GVal; visible : bool; interactive : bool }.

(** What a handler returns for a component: a plain value, or a component
    constructor that sets the properties it names. *)
Record Update : Type := mk_update {
  new_value : option GVal;
  new_visible : option bool;
  new_interactive : option bool }.

Definition App : Type := Component -> Props.

Definition plain (v : GVal) : Update := mk_update (Some v) None None.
Definition text (s : string) : Update := plain (GStr s).
Definition Accordion (visible : bool) : Update := mk_update None (Some visible) None.
Definition Interactive (b : bool) : Update := mk_update None None (Some b).
Definition Refresh (v : GVal) : Update := mk_update (Some v) None (Some true).

Definition apply_update (u : Update) (p : Props) : Props :=
  mk_props (default (value p) (new_value u))
           (default (visible p) (new_visible u))
           (default (interactive p) (new_interactive u)).

Fixpoint apply_updates (us : list (Component * Update)) (app : App) : App :=
  match us with
  | [] => app
  | (c, u) :: rest => apply_updates rest (<[c := apply_update u (app c)]> app)
  end.

(** How a handler ends: it returns its dictionary (after the toasts of
    [gr.Warning] and [gr.Info]), or it raises [gr.Error]. *)
Inductive Outcome : Type :=
| Return (updates : list (Component * Update)) (toasts : list Notice)
| Raise (toasts : list Notice) (error : Notice).

Inductive Result (A : Type) : Type :=
| Ok (a : A)
| GrError (error : Notice).
Arguments Ok {A} a.
Arguments GrError {A} error.

(** Python's view of a component value. *)
Definition gtruthy (v : GVal) : bool :=
  match v with
  | GNone => false
  | GStr s => nonempty s
  | GFile _ => true
  | GFiles fs => bool_decide (fs ≠ [])
  | GNum n => bool_decide (n ≠ 0)
  | GTemp _ _ => true
  end.

Definition gformat (v : GVal) : string :=
  match v with
  | GNone => "None"
  | GStr s => s
  | GFile f => file_name f
  | GFiles _ => "[...]"
  | GNum n => pretty n
  | GTemp path _ => path
  end.

Definition gtext (v : GVal) : option string :=
  match v with GStr s => Some s | _ => None end.

Definition of_text (x : option string) : GVal :=
  match x with Some s => GStr s | None => GNone end.

Definition gfile (v : GVal) : option UploadedFile :=
  match v with GFile f => Some f | _ => None end.

Definition gfiles (v : GVal) : option (list UploadedFile) :=
  match v with GFiles fs => Some fs | _ => None end.

(** *** The helpers *)

(** [read_file(filepath)]; the file stands for its path.  A [gr.Error]
    raised inside the [try] is caught and raised again by the [except]. *)
Definition read_file (filepath : option UploadedFile) : Result (option string) :=
  match filepath with
  | None => Ok None
  | Some f =>
      let file_name := basename (file_name f) in
      let on_exception {A} (r : Exc A) (g : A -> string) :=
        match r with
        | Returns a => Ok (Some (g a))
        | Raises e => GrError (ErrReadingFile file_name e)
        end in
      if endswith ".txt" file_name then on_exception (decoded f) id
      else if endswith ".pdf" file_name then on_exception (pdf_pages f) (pdf_text "")
      else if endswith ".docx" file_name then on_exception (docx_paragraphs f) (docx_text "")
      else GrError (ErrReadingFile file_name ("Unsupported file format: " +:+ file_name))
  end.

Fixpoint gold_loop (i : nat) (pairs : list (UploadedFile * UploadedFile))
    (prompt : string) : Result string :=
  match pairs with
  | [] => Ok prompt
  | (en_file, pt_file) :: rest =>
      match read_file (Some en_file) with
      | GrError e => GrError e
      | Ok en_text =>
          match read_file (Some pt_file) with
          | GrError e => GrError e
          | Ok pt_text =>
              let prompt :=
                if truthy en_text && truthy pt_text then
                  let prompt := prompt +:+ (nl +:+ "--- Gold Standard Example " +:+ pretty (i + 1) +:+ " ---" +:+ nl) in
                  let prompt := prompt +:+ ("[English]:" +:+ nl +:+ default "" en_text +:+ nl) in
                  let prompt := prompt +:+ ("[Portuguese]:" +:+ nl +:+ default "" pt_text +:+ nl) in
                  prompt +:+ ("--- End Example ---" +:+ nl)
                else prompt in
              gold_loop (S i) rest prompt
          end
      end
  end.

(** The toasts shown before the function ends, and its result: the prompt,
    or the [gr.Error] of a file that cannot be read.  [None] and the empty
    list are both falsy. *)
Definition build_gold_standard_prompt (en_files pt_files : option (list UploadedFile))
    : list Notice * Result string :=
  let prompt := "" in
  let en := default [] en_files in
  let pt := default [] pt_files in
  if bool_decide (en = []) || bool_decide (pt = []) then ([], Ok prompt)
  else
    let toasts :=
      if bool_decide (length en ≠ length pt) then [WarnGoldMismatch] else [] in
    (toasts, gold_loop 0 (zip en pt) gold_header).

Definition call_gemini (oracle : Oracle) (api_key : option string)
    (model_name prompt task_description : string) : Result string :=
  if negb (truthy api_key) then GrError ErrInvalidApiKey
  else
    match oracle api_key model_name prompt with
    | Returns text => Ok text
    | Raises e =>
        if contains "API_KEY_INVALID" e || contains "PERMISSION_DENIED" e
        then GrError ErrInvalidApiKey
        else GrError (ErrGemini e)
    end.

Definition create_word_document (text_content : option string) : Document :=
  let doc := [] in
  if truthy text_content
  then add_paragraphs doc (split_char LF (default "" text_content))
  else doc.

Definition generate_step_4_prompt (source_lang target_lang gold_prompt source_text : string) : string :=
  "You are a professional " +:+ source_lang +:+ "-to-" +:+ target_lang +:+ " translator." +:+ nl
  +:+ "Translate the following text. Maintain a professional tone and ensure accuracy." +:+ nl
  +:+ "Preserve paragraph breaks (indicated by newlines)." +:+ nl
  +:+ gold_prompt +:+ nl
  +:+ "---" +:+ nl
  +:+ "Source Text to Translate:" +:+ nl
  +:+ source_text +:+ nl
  +:+ "---" +:+ nl
  +:+ target_lang +:+ " Translation:".

Definition generate_step_5_prompt
    (source_lang target_lang gold_prompt source_text translation_text : string) : string :=
  "You are a professional editor. Review the following translation from "
    +:+ source_lang +:+ " to " +:+ target_lang +:+ "." +:+ nl
  +:+ "Compare it against the source text for accuracy, terminology, and tone." +:+ nl
  +:+ "Correct any stylistic or grammatical issues to improve fluency. Preserve paragraph breaks." +:+ nl
  +:+ gold_prompt +:+ nl
  +:+ "---" +:+ nl
  +:+ "Source Text:" +:+ nl
  +:+ source_text +:+ nl
  +:+ "---" +:+ nl
  +:+ "Initial Translation to Review:" +:+ nl
  +:+ translation_text +:+ nl
  +:+ "---" +:+ nl
  +:+ "Provide only the final, improved " +:+ target_lang +:+ " translation:".

Definition generate_step_6_prompt (target_lang text_to_proofread : string) : string :=
  "You are a meticulous proofreader. Perform a final check on the following "
    +:+ target_lang +:+ " text." +:+ nl
  +:+ "Correct only objective errors (typos, grammar, punctuation). Preserve paragraph breaks." +:+ nl
  +:+ "Do NOT change the style or word choice unless it's grammatically incorrect." +:+ nl
  +:+ "---" +:+ nl
  +:+ "Text to Proofread:" +:+ nl
  +:+ text_to_proofread +:+ nl
  +:+ "---" +:+ nl
  +:+ "Provide only the final, proofread text:".


(** *** The event handlers *)

(** What the handlers take from outside the components: the environment
    variable, the remote model, and the name [tempfile] picks. *)
Record Env : Type := mk_env {
  env_GEMINI_API_KEY : option string;
  env_oracle : Oracle;
  gettempdir : string;
  random_infix : string }.

Definition accordions (visible : bool) : list (Component * Update) :=
  [ (step_2_accordion, Accordion visible); (step_3_accordion, Accordion visible);
    (step_4_accordion, Accordion visible); (step_5_accordion, Accordion visible);
    (step_6_accordion, Accordion visible); (step_7_accordion, Accordion visible);
    (step_8_accordion, Accordion visible); (step_9_accordion, Accordion visible);
    (step_10_accordion, Accordion visible) ].

Definition start_project (env : Env)
    (source_file en_files pt_files source_lang target_lang : GVal) : Outcome :=
  let api_key := env_GEMINI_API_KEY env in
  if negb (truthy api_key) then Raise [] ErrApiKeyNotFound
  else if negb (gtruthy source_file) then Raise [] ErrUploadSource
  else
    match read_file (gfile source_file) with
    | GrError e => Raise [] e
    | Ok source_text =>
        match build_gold_standard_prompt (gfiles en_files) (gfiles pt_files) with
        | (toasts, GrError e) => Raise toasts e
        | (toasts, Ok gold_prompt) =>
            if negb (truthy source_text) then Raise toasts ErrFailedToRead
            else
              let source_text := default "" source_text in
              let word_count := count_words false source_text in
              let word_count_md := "**Project Scope:** " +:+ pretty word_count +:+ " words" in
              let gold_status_md :=
                if nonempty gold_prompt
                then "✔️ Gold standard samples have been loaded."
                else "ℹ️ No gold standard samples loaded." in
              let prompt_4 :=
                generate_step_4_prompt (gformat source_lang) (gformat target_lang)
                  gold_prompt source_text in
              Return
                ([ (api_key_state, plain (of_text api_key));
                   (source_text_state, text source_text);
                   (gold_prompt_state, text gold_prompt);
                   (source_file_obj_state, plain source_file);
                   (word_count_label, text word_count_md);
                   (gold_status_label, text gold_status_md);
                   (source_text_widget, text source_text);
                   (step_4_prompt_text, text prompt_4);
                   (step_4_source_text, text source_text);
                   (step_5_source_text, text source_text);
                   (step_6_source_text, text source_text);
                   (final_source_widget, text source_text) ]
                 ++ accordions true
                 ++ [ (source_file_upload, Interactive false);
                      (gold_en_upload, Interactive false);
                      (gold_pt_upload, Interactive false);
                      (source_lang_dd, Interactive false);
                      (target_lang_dd, Interactive false);
                      (start_button, Interactive false) ])
                toasts
        end
    end.

Definition run_step_4 (env : Env)
    (prompt_4 model_name api_key source_lang target_lang source_text gold_prompt : GVal)
    : Outcome :=
  match call_gemini (env_oracle env) (gtext api_key) (gformat model_name)
          (gformat prompt_4) "translating" with
  | GrError e => Raise [] e
  | Ok translation =>
      if nonempty translation then
        let prompt_5 :=
          generate_step_5_prompt (gformat source_lang) (gformat target_lang)
            (gformat gold_prompt) (gformat source_text) translation in
        Return [ (translation_step_4_state, text translation);
                 (final_text_state, text translation);
                 (step_4_target_text, text translation);
                 (step_5_target_text, text translation);
                 (final_translation_widget, text translation);
                 (step_5_prompt_text, text prompt_5) ] []
      else Return [] []
  end.

Definition run_step_5_ai (env : Env)
    (prompt_5 model_name api_key target_lang final_text_state' : GVal) : Outcome :=
  match call_gemini (env_oracle env) (gtext api_key) (gformat model_name)
          (gformat prompt_5) "editing" with
  | GrError e => Raise [] e
  | Ok edited_translation =>
      if nonempty edited_translation then
        let prompt_6 := generate_step_6_prompt (gformat target_lang) edited_translation in
        Return [ (translation_step_5_state, text edited_translation);
                 (final_text_state, text edited_translation);
                 (step_5_target_text, text edited_translation);
                 (final_translation_widget, text edited_translation);
                 (step_6_prompt_text, text prompt_6) ] []
      else Return [] []
  end.

Definition on_manual_edit (manual_text target_lang final_text_state' : GVal) : Outcome :=
  let prompt_6 := generate_step_6_prompt (gformat target_lang) (gformat manual_text) in
  Return [ (final_text_state, plain manual_text);
           (final_translation_widget, plain manual_text);
           (step_6_prompt_text, text prompt_6) ] [].

Definition run_step_6 (env : Env) (prompt_6 model_name api_key : GVal) : Outcome :=
  match call_gemini (env_oracle env) (gtext api_key) (gformat model_name)
          (gformat prompt_6) "proofreading" with
  | GrError e => Raise [] e
  | Ok proofread_text =>
      if nonempty proofread_text then
        Return [ (translation_step_6_state, text proofread_text);
                 (final_text_state, text proofread_text);
                 (step_6_target_text, text proofread_text);
                 (final_translation_widget, text proofread_text) ] []
      else Return [] []
  end.

(** [NamedTemporaryFile(delete=False, suffix=".docx", prefix=...)]: the
    path is the directory, the prefix, the random part and the suffix. *)
Definition NamedTemporaryFile (env : Env) (suffix prefix : string) : string :=
  gettempdir env +:+ "/" +:+ prefix +:+ random_infix env +:+ suffix.

Definition download_docx (env : Env) (final_text source_file_obj : GVal) : Outcome :=
  if negb (gtruthy final_text) then
    Return [ (download_file_widget, plain GNone) ] [WarnNoFinalText]
  else
    match gfile source_file_obj with
    | None => Raise [] (ErrCreatingDocx "'NoneType' object has no attribute 'name'")
    | Some source =>
        let base_name := (splitext (basename (file_name source))).1 in
        let download_file_name := "translated_" +:+ base_name +:+ ".docx" in
        let doc_data := create_word_document (gtext final_text) in
        let temp_path := NamedTemporaryFile env ".docx" download_file_name in
        Return [ (download_file_widget, plain (GTemp temp_path doc_data)) ]
               [InfoDownloadPrepared]
    end.

Definition archive_project : Outcome :=
  Return
    ([ (api_key_state, plain GNone);
       (source_text_state, plain GNone);
       (gold_prompt_state, text "");
       (source_file_obj_state, plain GNone);
       (translation_step_4_state, plain GNone);
       (translation_step_5_state, plain GNone);
       (translation_step_6_state, plain GNone);
       (final_text_state, plain GNone);
       (source_file_upload, Refresh GNone);
       (gold_en_upload, Refresh GNone);
       (gold_pt_upload, Refresh GNone);
       (source_lang_dd, Refresh (GStr "English"));
       (target_lang_dd, Refresh (GStr "Portuguese"));
       (start_button, Interactive true);
       (word_count_label, text "");
       (gold_status_label, text "");
       (source_text_widget, text "");
       (step_4_prompt_text, text "");
       (step_4_source_text, text "");
       (step_4_target_text, text "");
       (step_5_prompt_text, text "");
       (step_5_source_text, text "");
       (step_5_target_text, text "");
       (step_6_prompt_text, text "");
       (step_6_source_text, text "");
       (step_6_target_text, text "");
       (final_source_widget, text "");
       (final_translation_widget, text "");
       (download_file_widget, plain GNone);
       (feedback_slider, plain (GNum 4));
       (feedback_text, text "") ]
     ++ accordions false)
    [InfoProjectArchived].

(** *** The layout and the wiring *)

(** The components as [gr.Blocks] creates them. *)
Definition initial : App := λ c,
  match c with
  | api_key_state | source_text_state | source_file_obj_state
  | translation_step_4_state | translation_step_5_state
  | translation_step_6_state | final_text_state => mk_props GNone false false
  | gold_prompt_state => mk_props (GStr "") false false
  | model_name_dd => mk_props (GStr "gemini-1.5-flash-latest") true true
  | gold_en_upload | gold_pt_upload | source_file_upload => mk_props GNone true true
  | source_lang_dd => mk_props (GStr "English") true true
  | target_lang_dd => mk_props (GStr "Portuguese") true true
  | start_button => mk_props GNone true true
  | step_2_accordion | step_3_accordion | step_4_accordion | step_5_accordion
  | step_6_accordion | step_7_accordion | step_8_accordion | step_9_accordion
  | step_10_accordion => mk_props GNone false false
  | word_count_label => mk_props (GStr "**Project Scope:** 0 words") true false
  | gold_status_label => mk_props (GStr "ℹ️ No gold standard samples loaded.") true false
  | step_4_prompt_text | step_5_prompt_text | step_6_prompt_text
  | step_5_target_text | feedback_text => mk_props (GStr "") true true
  | source_text_widget | step_4_source_text | step_4_target_text
  | step_5_source_text | step_6_source_text | step_6_target_text
  | final_source_widget | final_translation_widget => mk_props (GStr "") true false
  | download_file_widget => mk_props GNone true false
  | feedback_slider => mk_props (GNum 4) true true
  end.

(** What the user does in the page. *)
Inductive Event : Type :=
| start_button_click
| step_4_button_click
| step_5_button_click
| step_5_target_text_input (typed : string)
| step_6_button_click
| prepare_download_button_click
| archive_button_click
(** the user changes an input that has no handler of its own *)
| user_change (c : Component) (v : GVal).

(** The [outputs=] list of every handler. *)
Definition outputs (ev : Event) : list Component :=
  match ev with
  | start_button_click =>
      [ api_key_state; source_text_state; gold_prompt_state; source_file_obj_state;
        word_count_label; gold_status_label; source_text_widget;
        step_4_prompt_text; step_4_source_text; step_5_source_text;
        step_6_source_text; final_source_widget;
        step_2_accordion; step_3_accordion; step_4_accordion; step_5_accordion;
        step_6_accordion; step_7_accordion; step_8_accordion; step_9_accordion;
        step_10_accordion;
        source_file_upload; gold_en_upload; gold_pt_upload; source_lang_dd;
        target_lang_dd; start_button ]
  | step_4_button_click =>
      [ translation_step_4_state; final_text_state; step_4_target_text;
        step_5_target_text; final_translation_widget; step_5_prompt_text ]
  | step_5_button_click =>
      [ translation_step_5_state; final_text_state; step_5_target_text;
        final_translation_widget; step_6_prompt_text ]
  | step_5_target_text_input _ =>
      [ final_text_state; final_translation_widget; step_6_prompt_text ]
  | step_6_button_click =>
      [ translation_step_6_state; final_text_state; step_6_target_text;
        final_translation_widget ]
  | prepare_download_button_click => [ download_file_widget ]
  | archive_button_click =>
      [ api_key_state; source_text_state; gold_prompt_state; source_file_obj_state;
        translation_step_4_state; translation_step_5_state; translation_step_6_state;
        final_text_state;
        source_file_upload; gold_en_upload; gold_pt_upload; source_lang_dd;
        target_lang_dd; start_button;
        word_count_label; gold_status_label; source_text_widget;
        step_4_prompt_text; step_4_source_text; step_4_target_text;
        step_5_prompt_text; step_5_source_text; step_5_target_text;
        step_6_prompt_text; step_6_source_text; step_6_target_text;
        final_source_widget; final_translation_widget; download_file_widget;
        feedback_slider; feedback_text;
        step_2_accordion; step_3_accordion; step_4_accordion; step_5_accordion;
        step_6_accordion; step_7_accordion; step_8_accordion; step_9_accordion;
        step_10_accordion ]
  | user_change _ _ => []
  end.

(** The inputs the user can change without a handler running. *)
Definition user_input (c : Component) : bool :=
  match c with
  | model_name_dd | gold_en_upload | gold_pt_upload | source_file_upload
  | source_lang_dd | target_lang_dd
  | step_4_prompt_text | step_5_prompt_text | step_6_prompt_text
  | feedback_slider | feedback_text => true
  | _ => false
  end.

(** The handler of an event, fed with its [inputs=] list. *)
Definition handle (env : Env) (ev : Event) (app : App) : Outcome :=
  let v c := value (app c) in
  match ev with
  | start_button_click =>
      start_project env (v source_file_upload) (v gold_en_upload) (v gold_pt_upload)
        (v source_lang_dd) (v target_lang_dd)
  | step_4_button_click =>
      run_step_4 env (v step_4_prompt_text) (v model_name_dd) (v api_key_state)
        (v source_lang_dd) (v target_lang_dd) (v source_text_state) (v gold_prompt_state)
  | step_5_button_click =>
      run_step_5_ai env (v step_5_prompt_text) (v model_name_dd) (v api_key_state)
        (v target_lang_dd) (v final_text_state)
  | step_5_target_text_input _ =>
      on_manual_edit (v step_5_target_text) (v target_lang_dd) (v final_text_state)
  | step_6_button_click =>
      run_step_6 env (v step_6_prompt_text) (v model_name_dd) (v api_key_state)
  | prepare_download_button_click =>
      download_docx env (v final_text_state) (v source_file_obj_state)
  | archive_button_click => archive_project
  | user_change _ _ => Return [] []
  end.

(** What the page does before the handler runs: typing puts the text in
    the box; a changed input takes its value when it is interactive. *)
Definition before (ev : Event) (app : App) : App :=
  match ev with
  | step_5_target_text_input typed =>
      <[step_5_target_text := apply_update (text typed) (app step_5_target_text)]> app
  | user_change c v =>
      if user_input c && interactive (app c)
      then <[c := apply_update (plain v) (app c)]> app
      else app
  | _ => app
  end.

(** One event: the returned dictionary updates the outputs; a [gr.Error]
    updates nothing; a key that is no output of the event is an error. *)
Definition fire (env : Env) (ev : Event) (app : App) : App * list Notice :=
  let app := before ev app in
  match handle env ev app with
  | Return updates toasts =>
      if forallb (λ cu, bool_decide (cu.1 ∈ outputs ev)) updates
      then (apply_updates updates app, toasts)
      else (app, toasts ++ [ErrNotAnOutput])
  | Raise toasts error => (app, toasts ++ [error])
  end.

(** A session: the events in order, each with the outside world it meets. *)
Definition fire_all (steps : list (Env * Event)) (app : App) : App :=
  foldl (λ app step, (fire step.1 step.2 app).1) app steps.

End Gradio.

(** ** The properties, in the words of the specification *)

Module Spec.
Import Py Helpers.

(** [c] occurs in [s]. *)
Fixpoint occurs (c : ascii) (s : string) : bool :=
  match s with
  | "" => false
  | String d s' => bool_decide (d = c) || occurs c s'
  end.

Definition is_digit (c : ascii) : bool :=
  bool_decide (c ∈ ["0"; "1"; "2"; "3"; "4"; "5"; "6"; "7"; "8"; "9"]%char).

(** The text is empty or ends with a line feed. *)
Fixpoint terminated (s : string) : bool :=
  match s with
  | "" => true
  | String c "" => bool_decide (c = LF)
  | String c s' => terminated s'
  end.

(** [s] equals itself stripped of surrounding whitespace. *)
Definition stripped (s : string) : Prop := strip s = s.

Definition concat_strings (parts : list string) : string :=
  foldr String.app "" parts.

(** The texts of a pair, both truthy. *)
Definition both (pair : option string * option string) : bool :=
  truthy pair.1 && truthy pair.2.

Definition block_of (number : nat) (pair : option string * option string) : string :=
  gold_block number (default "" pair.1) (default "" pair.2).

(** The blocks when the pairs that are kept are numbered 1, 2, 3, ... in a
    row. *)
Definition consecutive_blocks (pairs : list (option string * option string)) : string :=
  concat_strings (imap (λ k pair, block_of (k + 1) pair) (filter (λ pair, both pair) pairs)).

(** The blocks when every pair that is kept carries its own position among
    the zipped pairs, counted from 1. *)
Definition positional_blocks (pairs : list (option string * option string)) : string :=
  concat_strings (imap (λ i pair, if both pair then block_of (i + 1) pair else "") pairs).

(** The artifacts of a project in the Streamlit session. *)
Definition artifact_keys : list string :=
  ["translation_step_4"; "translation_step_5"; "translation_step_6"].

(** The artifact written last according to the journal: the value of the
    last assignment to one of the three artifacts, [None] when the
    dictionary was cleared after it or nothing was written at all. *)
Fixpoint latest_artifact (seen : option Val) (journal : list Session.Mutation) : option Val :=
  match journal with
  | [] => seen
  | Session.Assigned key v :: rest =>
      latest_artifact (if bool_decide (key ∈ artifact_keys) then Some v else seen) rest
  | Session.Cleared kept :: rest => latest_artifact None rest
  end.

(** [final_text] mirrors the artifact written last. *)
Definition final_text_is_latest (w : Session.World) : Prop :=
  Session.session_state w !! "final_text" = latest_artifact None (Session.journal w).

(** A project that went through preparation: the flag is set, the key and
    the source text are there, and so are the keys of the artifacts. *)
Definition prepared (w : Session.World) : bool :=
  let m := Session.session_state w in
  bool_decide (m !! "project_started" = Some (VBool true))
  && Session.truthy_val (default VNone (m !! "api_key"))
  && bool_decide (is_Some (m !! "source_text") ∧ m !! "source_text" ≠ Some VNone)
  && bool_decide (is_Some (m !! "gold_standard_prompt"))
  && bool_decide (is_Some (m !! "translation_step_4"))
  && bool_decide (is_Some (m !! "translation_step_5"))
  && bool_decide (is_Some (m !! "translation_step_6"))
  && bool_decide (is_Some (m !! "final_text")).

(** The remote model cannot be reached: every request raises [e]. *)
Definition unavailable (oracle : Oracle) (e : string) : Prop :=
  ∀ api_key model prompt, oracle api_key model prompt = Raises e.

(** The notice [call_gemini] shows for the exception [e]. *)
Definition gemini_error (e : string) : Notice :=
  if contains "API_KEY_INVALID" e || contains "PERMISSION_DENIED" e
  then ErrInvalidApiKey else ErrGemini e.

(** In a Streamlit run: a pressed button reaches the model. *)
Definition oracle_invoked (inp : Streamlit.Inputs) (w : Session.World) : bool :=
  let m := Session.session_state w in
  let step_4 := default VNone (m !! "translation_step_4") in
  let step_5 := default VNone (m !! "translation_step_5") in
  Streamlit.run_translation_button inp && negb (Session.truthy_val step_4)
  || Streamlit.ask_edit_button inp && Session.truthy_val step_4
  || Streamlit.ask_proofread_button inp
     && Session.truthy_val (Session.or_val step_5 step_4).

(** In Gradio: the box whose text an event sends to the model. *)
Definition prompt_box (ev : Gradio.Event) : option Gradio.Component :=
  match ev with
  | Gradio.step_4_button_click => Some Gradio.step_4_prompt_text
  | Gradio.step_5_button_click => Some Gradio.step_5_prompt_text
  | Gradio.step_6_button_click => Some Gradio.step_6_prompt_text
  | _ => None
  end.

(** The answer of the model to the request made from the page. *)
Definition asked (env : Gradio.Env) (app : Gradio.App) (box : Gradio.Component)
    : Exc string :=
  Gradio.env_oracle env
    (Gradio.gtext (Gradio.value (app Gradio.api_key_state)))
    (Gradio.gformat (Gradio.value (app Gradio.model_name_dd)))
    (Gradio.gformat (Gradio.value (app box))).

(** A successful write: a key is there and the model answers with a text
    that is not empty. *)
Definition answer (env : Gradio.Env) (app : Gradio.App) (box : Gradio.Component)
    : option Gradio.GVal :=
  if truthy (Gradio.gtext (Gradio.value (app Gradio.api_key_state))) then
    match asked env app box with
    | Returns t => if nonempty t then Some (Gradio.GStr t) else None
    | Raises _ => None
    end
  else None.



(** The texts the Streamlit reader gives for the zipped pairs, and the
    notices it shows. *)
Definition streamlit_texts (pairs : list (UploadedFile * UploadedFile))
    : list (option string * option string) :=
  (λ p, ((Streamlit.read_file p.1).1, (Streamlit.read_file p.2).1)) <$> pairs.

Definition streamlit_notices (pairs : list (UploadedFile * UploadedFile)) : list Notice :=
  concat ((λ p, (Streamlit.read_file p.1).2 ++ (Streamlit.read_file p.2).2) <$> pairs).

(** The text the Gradio reader gives for a file, and whether the read
    returns. *)
Definition gradio_text (f : UploadedFile) : option string :=
  match Gradio.read_file (Some f) with Gradio.Ok t => t | Gradio.GrError _ => None end.

Definition gradio_readable (f : UploadedFile) : bool :=
  match Gradio.read_file (Some f) with Gradio.Ok _ => true | Gradio.GrError _ => false end.

Definition gradio_texts (pairs : list (UploadedFile * UploadedFile))
    : list (option string * option string) :=
  (λ p, (gradio_text p.1, gradio_text p.2)) <$> pairs.

(** The world after some more notices. *)
Definition shown (w : Session.World) (ns : list Notice) : Session.World :=
  Session.mk_world (Session.session_state w) (Session.ui w ++ ns)
    (Session.log_file w) (Session.journal w).

(** A piece of the script keeps [final_text_is_latest], however it ends. *)
Definition preserves {A} (m : Session.Script A) : Prop :=
  ∀ w, final_text_is_latest w → final_text_is_latest (m w).2.

End Spec.

(** ** Sample inputs, for the concrete runs *)

Module Samples.

Definition txt (name content : string) : UploadedFile :=
  mk_file name "text/plain" (Returns content) (Raises "not a PDF") (Raises "not a DOCX").

Definition morning : datetime := mk_datetime 2025 3 14 9 26 53 0.

(** A model that answers every request with [t], and one that is down. *)
Definition answers (t : string) : Oracle := λ _ _ _, Returns t.
Definition down : Oracle := λ _ _ _, Raises "503 UNAVAILABLE".

(** A run of a Streamlit script with the source [source] uploaded. *)
Definition press (source : UploadedFile)
    (start translate edit proofread archive : bool) (o : Oracle) : Streamlit.Inputs :=
  Streamlit.mk_inputs (Some "key") [] [] (Some source) "English" "Portuguese"
    start translate edit proofread archive None o.

Definition report : UploadedFile := txt "report.txt" "Hello world".
Definition blank : UploadedFile := txt "blank.txt" "".

(** The session after the first run of [translation_app.py], and after a
    project was started on [report]. *)
Definition opened : Session.World :=
  (TranslationApp.run (press report false false false false false down)
     TranslationApp.fresh).2.

Definition started : Session.World :=
  (TranslationApp.run (press report true false false false false down) opened).2.

Definition translated : Session.World :=
  (TranslationApp.run (press report false true false false false (answers "first"))
     started).2.

Definition gradio_env (o : Oracle) : Gradio.Env :=
  Gradio.mk_env (Some "key") o "/tmp" "k3x9q2ab".

(** A Gradio page on which a project was started with the key [key]. *)
Definition gradio_started : Gradio.App :=
  <[Gradio.api_key_state := Gradio.mk_props (Gradio.GStr "key") false false]>
    Gradio.initial.

(** A logged-in session of [app_st_dev.py] with a translated project. *)
Definition logged_in : Session.World :=
  Session.mk_world
    (<["authenticated" := VBool true]>
       (<["username" := VStr "ana"]>
          (<["last_activity" := VTime morning]> (Session.session_state translated))))
    [] None [].

Definition auth (inp : Streamlit.Inputs) : StDev.AuthInputs :=
  StDev.mk_auth_inputs inp morning None "" "" false false.

End Samples.

(** ** [app_st_dev.py]: the user table and the admin panel *)

Module Admin.
Import Py Session StDev.

(** [users.json]: [None] when the file is not there. *)
Definition UsersFile : Type := option (gmap string UserAccount).

(** What the admin panel shows. *)
Inductive AdminNotice : Type :=
| WarnAdminPassword
| OkAdminAccess
| TableUsers (rows : list (string * string))
| ErrUserExists
| ErrFillFields
| OkUserAdded (username : string).

(** The widgets of the panel and the environment. *)
Record AdminInputs : Type := mk_admin_inputs {
  getenv_ADMIN_PASSWORD : option string;
  entered : string;
  new_user : string;
  new_pass : string;
  new_role : string;
  add_user_button : bool;
  admin_now : datetime }.

(** [load_users()]: the table, and the file after the call (an empty table
    is saved when there was none). *)
Definition load_users (file : UsersFile) : gmap string UserAccount * UsersFile :=
  match file with
  | Some users => (users, file)
  | None => (∅, Some ∅)
  end.

(** [save_users(users)] *)
Definition save_users (users : gmap string UserAccount) : UsersFile := Some users.

(** The outcome of the panel: the user file, the world (its log), what was
    shown, and whether the script reruns. *)
Record AdminOutcome : Type := mk_admin_outcome {
  users_file : UsersFile;
  world : World;
  said : list AdminNotice;
  reruns : bool }.

Definition admin_panel (inp : AdminInputs) (file : UsersFile) (w : World) : AdminOutcome :=
  let admin_password := getenv_ADMIN_PASSWORD inp in
  if bool_decide (Some (entered inp) ≠ admin_password) then
    mk_admin_outcome file w [WarnAdminPassword] false
  else
    let '(users, file) := load_users file in
    let table := (λ kv : string * UserAccount, (kv.1, role kv.2)) <$> map_to_list users in
    let said := [OkAdminAccess; TableUsers table] in
    if add_user_button inp then
      if bool_decide (is_Some (users !! new_user inp)) then
        mk_admin_outcome file w (said ++ [ErrUserExists]) false
      else if negb (nonempty (new_user inp)) || negb (nonempty (new_pass inp)) then
        mk_admin_outcome file w (said ++ [ErrFillFields]) false
      else
        let users := <[new_user inp := mk_user (new_pass inp) (new_role inp)]> users in
        let file := save_users users in
        let w := (log_event (admin_now inp) "ADMIN"
                    ("Created new user: " +:+ new_user inp) w).2 in
        mk_admin_outcome file w (said ++ [OkUserAdded (new_user inp)]) true
    else mk_admin_outcome file w said false.

End Admin.

(** ** Further notions for the properties of part II *)

Module Notions.
Import Py Session.

(** A piece of the script keeps the property [I] of the world, however it
    ends. *)
Definition keeps (I : World -> Prop) {A} (m : Script A) : Prop :=
  ∀ w, I w → I (m w).2.

(** The log holds [content] and what was appended after it. *)
Definition log_extends (content : string) (w : World) : Prop :=
  ∃ more, default "" (log_file w) = content +:+ more.

(** The number of occurrences of [c] in [s]. *)
Fixpoint count_char (c : ascii) (s : string) : nat :=
  match s with
  | "" => 0
  | String d s' => (if bool_decide (d = c) then 1 else 0) + count_char c s'
  end.

(** A user name and an event that the log gives back: no line feed, no
    carriage return, no colon in the name, both stripped. *)
Definition loggable (entry : datetime * string * string) : Prop :=
  let '(_, u, e) := entry in
  Spec.occurs LF u = false ∧ Spec.occurs CR u = false ∧ Spec.occurs ":" u = false
  ∧ Spec.stripped u
  ∧ Spec.occurs LF e = false ∧ Spec.occurs CR e = false ∧ Spec.stripped e.

(** The world after the events of [history] were logged one by one. *)
Definition log_all (history : list (datetime * string * string)) (w : World) : World :=
  foldl (λ w entry, (StDev.log_event entry.1.1 entry.1.2 entry.2 w).2) w history.

Definition entry_of (entry : datetime * string * string) : StDev.LogEntry :=
  StDev.mk_entry (strftime entry.1.1) entry.1.2 entry.2.

(** [now - last_activity], in microseconds. *)
Definition elapsed (now t : datetime) : Z :=
  (StDev.total_microseconds now - StDev.total_microseconds t)%Z.

(** A page of [translation_app.py] on which no project was started: the
    keys are there with their first values and a key of the model. *)
Definition opened (w : World) : bool :=
  let m := session_state w in
  bool_decide (m !! "project_started" = Some (VBool false))
  && truthy_val (default VNone (m !! "api_key"))
  && bool_decide (m !! "source_text" = Some VNone)
  && bool_decide (is_Some (m !! "gold_standard_prompt"))
  && bool_decide (m !! "translation_step_4" = Some VNone)
  && bool_decide (m !! "translation_step_5" = Some VNone)
  && bool_decide (m !! "translation_step_6" = Some VNone)
  && bool_decide (m !! "final_text" = Some VNone).

(** The keys a run of [translation_app.py] initialises, with the key of the
    model [api_key]. *)
Definition first_session (api_key : option string) : gmap string Val :=
  <["final_text" := VNone]>
    (<["translation_step_6" := VNone]>
       (<["translation_step_5" := VNone]>
          (<["translation_step_4" := VNone]>
             (<["gold_standard_prompt" := VStr ""]>
                (<["source_text" := VNone]>
                   (<["api_key" := of_option api_key]>
                      (<["project_started" := VBool false]> ∅))))))).

(** The texts and the key of a started project. *)
Definition frozen (source gold api_key : Val) (w : World) : Prop :=
  is_Some (session_state w !! "project_started")
  ∧ session_state w !! "source_text" = Some source
  ∧ session_state w !! "gold_standard_prompt" = Some gold
  ∧ session_state w !! "api_key" = Some api_key.

(** In Gradio: the event can change the component, which is an output of
    its handler, the box typed in, or the input the user changes. *)
Definition touches (ev : Gradio.Event) (c : Gradio.Component) : bool :=
  bool_decide (c ∈ Gradio.outputs ev)
  || match ev with
     | Gradio.step_5_target_text_input _ => bool_decide (c = Gradio.step_5_target_text)
     | Gradio.user_change c' _ => bool_decide (c = c')
     | _ => false
     end.

(** The inputs of step 1 that a started project locks. *)
Definition project_inputs : list Gradio.Component :=
  [Gradio.source_file_upload; Gradio.gold_en_upload; Gradio.gold_pt_upload;
   Gradio.source_lang_dd; Gradio.target_lang_dd; Gradio.start_button].

(** The session [logout] leaves: the flag, and the key of the model when
    there was one. *)
Definition logged_out_session (api_key : Val) : gmap string Val :=
  if truthy_val api_key
  then <["api_key" := api_key]> (<["authenticated" := VBool false]> ∅)
  else <["authenticated" := VBool false]> ∅.

End Notions.

(** ** The operations that write, in the words of the specification

    RunTranslate, RunEdit, ManualEdit and RunProofread as the specification
    names them, read off a run of a Streamlit script: which of them succeed
    in the run, in the order of the page, and the text each produces. *)

Module Operations.
Import Py Session Streamlit.

(** A successful write: the artifact it belongs to and the text produced. *)
Definition Write : Type := string * Val.

Definition field (m : gmap string Val) (key : string) : Val :=
  default VNone (m !! key).

(** The session after the writes: each sets its artifact and the final
    text. *)
Definition store (ops : list Write) (m : gmap string Val) : gmap string Val :=
  foldl (λ m (op : Write), <["final_text" := op.2]> (<[op.1 := op.2]> m)) m ops.

Definition after (op : option Write) (m : gmap string Val) : gmap string Val :=
  store (option_list op) m.

(** The mutations the writes leave in the journal. *)
Definition journal_of (ops : list Write) : list Mutation :=
  ops ≫= λ op : Write, [Assigned op.1 op.2; Assigned "final_text" op.2].


(** The answer of the model to [prompt]: a success is an answer that is
    not empty. *)
Definition answer (inp : Inputs) (m : gmap string Val) (prompt : string) : option Val :=
  match oracle inp (to_option (field m "api_key")) "gemini-2.5-flash" prompt with
  | Returns t => if nonempty t then Some (VStr t) else None
  | Raises _ => None
  end.

(** RunTranslate: the button, no draft yet, and an answer. *)
Definition run_translate (inp : Inputs) (m : gmap string Val) : option Write :=
  if run_translation_button inp && negb (truthy_val (field m "translation_step_4")) then
    (λ t, ("translation_step_4", t)) <$>
      answer inp m
        (prompt_step_4 (source_lang inp) (target_lang inp)
           (field m "gold_standard_prompt") (field m "source_text"))
  else None.

(** RunEdit: a draft, the button, and an answer. *)
Definition run_edit (inp : Inputs) (m : gmap string Val) : option Write :=
  if truthy_val (field m "translation_step_4") && ask_edit_button inp then
    (λ t, ("translation_step_5", t)) <$>
      answer inp m
        (prompt_step_5 (source_lang inp) (target_lang inp)
           (field m "gold_standard_prompt") (field m "source_text")
           (field m "translation_step_4"))
  else None.

(** ManualEdit: a draft, and a text in the text area other than the one it
    was given. *)
Definition manual_edit (inp : Inputs) (m : gmap string Val) : option Write :=
  let given := or_val (field m "translation_step_5") (field m "translation_step_4") in
  match manual_edit_widget inp with
  | Some x =>
      if truthy_val (field m "translation_step_4") && bool_decide (VStr x ≠ given)
      then Some ("translation_step_5", VStr x)
      else None
  | None => None
  end.

(** RunProofread: a review or a draft, the button, and an answer. *)
Definition run_proofread (inp : Inputs) (m : gmap string Val) : option Write :=
  let current := or_val (field m "translation_step_5") (field m "translation_step_4") in
  if truthy_val current && ask_proofread_button inp then
    (λ t, ("translation_step_6", t)) <$>
      answer inp m (prompt_step_6 (target_lang inp) current)
  else None.

(** The successful writes of one run, in order: each operation meets the
    session the operations before it left. *)
Definition operations (inp : Inputs) (m : gmap string Val) : list Write :=
  let translate := run_translate inp m in
  let m4 := after translate m in
  let edit := run_edit inp m4 in
  let m5 := after edit m4 in
  let manual := manual_edit inp m5 in
  let m5' := after manual m5 in
  let proofread := run_proofread inp m5' in
  option_list translate ++ option_list edit ++ option_list manual ++ option_list proofread.

(** The successful writes of the runs of a session, one after the other. *)
Fixpoint session_operations (inps : list Inputs) (m : gmap string Val) : list Write :=
  match inps with
  | [] => []
  | inp :: rest =>
      operations inp m ++ session_operations rest (store (operations inp m) m)
  end.

Definition run_all (inps : list Inputs) (w : World) : World :=
  foldl (λ w inp, (TranslationApp.run inp w).2) w inps.

(** The world after a piece of the script that showed [ns] and made the
    write [op], if any. *)
Definition commit (op : option Write) (ns : list Notice) (w : World) : World :=
  mk_world (after op (session_state w)) (ui w ++ ns) (log_file w)
    (journal w ++ journal_of (option_list op)).

(** The keys the steps read are in the session. *)
Definition ready (m : gmap string Val) : Prop :=
  Forall (λ key, is_Some (m !! key))
    ["api_key"; "gold_standard_prompt"; "source_text"; "translation_step_4";
     "translation_step_5"; "translation_step_6"; "final_text"].

(** In Gradio: the state component in which an event that asks the model
    stores the answer. *)
Definition artifact_state (ev : Gradio.Event) : option Gradio.Component :=
  match ev with
  | Gradio.step_4_button_click => Some Gradio.translation_step_4_state
  | Gradio.step_5_button_click => Some Gradio.translation_step_5_state
  | Gradio.step_6_button_click => Some Gradio.translation_step_6_state
  | _ => None
  end.

End Operations.

(** ** More sample inputs *)

Module MoreSamples.

Definition users : gmap string StDev.UserAccount :=
  {[ "ana" := StDev.mk_user "s3cret" "user" ]}.

Definition login (user pass : string) (pressed : bool) : StDev.AuthInputs :=
  StDev.mk_auth_inputs
    (Samples.press Samples.report false false false false false Samples.down)
    Samples.morning (Some users) user pass pressed false.

Definition later : datetime := mk_datetime 2025 3 14 9 40 0 0.
Definition much_later : datetime := mk_datetime 2025 3 14 9 42 0 0.

Definition at_time (now : datetime) : StDev.AuthInputs :=
  StDev.mk_auth_inputs
    (Samples.press Samples.report false false false false false Samples.down)
    now (Some users) "" "" false false.

Definition add_bob : Admin.AdminInputs :=
  Admin.mk_admin_inputs (Some "root") "root" "bob" "pw" "user" true Samples.morning.

Definition docx (name : string) (paragraphs : list string) : UploadedFile :=
  mk_file name Helpers.docx_mime (Raises "not text") (Raises "not a PDF") (Returns paragraphs).

End MoreSamples.

(* ===================================================================== *)
(** * Part II: lemmas and theorems *)
(* ===================================================================== *)
(** ** The primitives on sample inputs *)

Example split_char_lines :
  Py.split_char Py.LF ("a" +:+ Py.nl +:+ Py.nl +:+ "b" +:+ Py.nl) = ["a"; ""; "b"; ""]
  ∧ Py.split_char Py.LF "" = [""].
Proof. split; reflexivity. Qed.

Example strip_both_ends :
  Py.strip ("  a b " +:+ Py.nl) = "a b" ∧ Py.strip "   " = "" ∧ Py.strip_char "[" "[[x[" = "x".
Proof. repeat split; reflexivity. Qed.

Example partition_first_occurrence :
  Py.partition "] " "[ts] u: a] b" = Some ("[ts", "u: a] b")
  ∧ Py.partition ":" "no colon" = None.
Proof. split; reflexivity. Qed.

Example readlines_universal_newlines :
  Py.readlines (Py.universal_newlines false
                  ("a" +:+ String Py.CR Py.nl +:+ "b" +:+ String Py.CR "c"))
  = ["a" +:+ Py.nl; "b" +:+ Py.nl; "c"].
Proof. reflexivity. Qed.

Example splitext_samples :
  Helpers.splitext "report.txt" = ("report", ".txt")
  ∧ Helpers.splitext "archive.tar.gz" = ("archive.tar", ".gz")
  ∧ Helpers.splitext ".bashrc" = (".bashrc", "")
  ∧ Helpers.splitext "/tmp/x.y/notes" = ("/tmp/x.y/notes", "")
  ∧ Helpers.basename "/tmp/gradio/report.txt" = "report.txt".
Proof. repeat split; reflexivity. Qed.

Example strftime_sample :
  Session.strftime Samples.morning = "2025-03-14 09:26:53"
  ∧ StDev.log_line Samples.morning "ana" "Logged in"
    = "[2025-03-14 09:26:53] ana: Logged in" +:+ Py.nl.
Proof. split; vm_compute; reflexivity. Qed.

Example elapsed_sample :
  (StDev.total_microseconds (mk_datetime 2025 3 1 0 0 0 0)
   - StDev.total_microseconds (mk_datetime 2025 2 28 23 45 0 0))%Z = (15 * 60 * 1000000)%Z.
Proof. vm_compute. reflexivity. Qed.

Example count_words_sample : Py.count_words false (" Hello  big" +:+ Py.nl +:+ "world ") = 3.
Proof. reflexivity. Qed.

(** ** Strings *)

Section strings.
Import Py.

Lemma app_cons c s t : String c s +:+ t = String c (s +:+ t).
Proof. reflexivity. Qed.

Lemma app_empty_l s : "" +:+ s = s.
Proof. reflexivity. Qed.

Lemma app_empty_r s : s +:+ "" = s.
Proof. induction s as [|c s IH]; [done|]. by rewrite app_cons, IH. Qed.

Lemma app_assoc_s s t u : (s +:+ t) +:+ u = s +:+ (t +:+ u).
Proof. induction s as [|c s IH]; [done|]. by rewrite !app_cons, IH. Qed.

Lemma length_app_s s t :
  String.length (s +:+ t) = String.length s + String.length t.
Proof. induction s as [|c s IH]; [done|]. rewrite app_cons. simpl. by rewrite IH. Qed.

Lemma occurs_app c s t :
  Spec.occurs c (s +:+ t) = Spec.occurs c s || Spec.occurs c t.
Proof.
  induction s as [|d s IH]; [done|].
  rewrite app_cons. simpl. rewrite IH. by rewrite orb_assoc.
Qed.

(** *** [split] and [join] *)

Lemma split_char_cons sep c s :
  split_char sep (String c s) =
    if decide (c = sep) then "" :: split_char sep s
    else match split_char sep s with
         | [] => [String c ""]
         | p :: ps => String c p :: ps
         end.
Proof. reflexivity. Qed.

Lemma split_char_not_nil sep s : split_char sep s ≠ [].
Proof.
  destruct s as [|c s]; [done|]. simpl.
  case_decide; [done|]. by destruct (split_char sep s).
Qed.

Lemma join_split sep s : join (String sep "") (split_char sep s) = s.
Proof.
  induction s as [|c s IH]; [done|]. simpl.
  case_decide as Hc.
  - subst c. pose proof (split_char_not_nil sep s) as Hne.
    destruct (split_char sep s) as [|p ps] eqn:E; [done|].
    change (join (String sep "") ("" :: p :: ps))
      with ("" +:+ String sep "" +:+ join (String sep "") (p :: ps)).
    by rewrite IH.
  - pose proof (split_char_not_nil sep s) as Hne.
    destruct (split_char sep s) as [|p ps] eqn:E; [done|].
    destruct ps as [|q ps]; simpl in *; by rewrite <- IH.
Qed.

Lemma split_char_free sep s :
  Forall (λ p, Spec.occurs sep p = false) (split_char sep s).
Proof.
  induction s as [|c s IH]; simpl.
  - by constructor.
  - case_decide as Hc.
    + by constructor.
    + destruct (split_char sep s) as [|p ps].
      * constructor; [|done]. simpl. by rewrite bool_decide_eq_false_2.
      * inversion IH; subst. constructor; [|done].
        simpl. by rewrite bool_decide_eq_false_2.
Qed.

(** The split is the only way to cut [s] into pieces without the separator. *)
Lemma split_char_unique sep ps :
  ps ≠ [] → Forall (λ p, Spec.occurs sep p = false) ps →
  split_char sep (join (String sep "") ps) = ps.
Proof.
  induction ps as [|p ps IH]; [done|]. intros _ Hfree.
  inversion Hfree as [|? ? Hp Hps]; subst.
  destruct ps as [|q ps].
  - simpl. clear IH Hfree Hps.
    induction p as [|c p IHp]; [done|]. simpl in *.
    apply orb_false_iff in Hp as [Hc Hp]. apply bool_decide_eq_false in Hc.
    rewrite decide_False by done. by rewrite (IHp Hp).
  - change (join (String sep "") (p :: q :: ps))
      with (p +:+ String sep "" +:+ join (String sep "") (q :: ps)).
    specialize (IH ltac:(done) Hps).
    induction p as [|c p IHp].
    + rewrite app_empty_l, app_cons, split_char_cons, decide_True by done.
      by rewrite app_empty_l, IH.
    + simpl in Hp. apply orb_false_iff in Hp as [Hc Hp].
      apply bool_decide_eq_false in Hc.
      rewrite app_cons, split_char_cons, decide_False by done.
      rewrite IHp; [done| |done]. by constructor.
Qed.

Lemma add_paragraphs_app doc paras :
  Helpers.add_paragraphs doc paras = doc ++ paras.
Proof.
  revert doc. induction paras as [|p ps IH]; intros doc; simpl.
  - by rewrite app_nil_r.
  - by rewrite IH, <- app_assoc.
Qed.

End strings.

(** ** The document writers *)

Section documents.
Import Py Helpers.

Lemma create_word_document_split t :
  Streamlit.create_word_document t = split_char LF t.
Proof. unfold Streamlit.create_word_document. by rewrite add_paragraphs_app. Qed.

(** The paragraphs are the lines of the text: joined by line feeds they
    give the text back, none holds a line feed, and no other list of
    paragraphs does both. *)
Lemma create_word_document_lines t (paras : list string) :
  Streamlit.create_word_document t = paras ↔
  paras ≠ [] ∧ join nl paras = t ∧ Forall (λ p, Spec.occurs LF p = false) paras.
Proof.
  rewrite create_word_document_split. split.
  - intros <-. split; [apply split_char_not_nil|]. split.
    + apply join_split.
    + apply split_char_free.
  - intros (Hne & <- & Hfree). by apply split_char_unique.
Qed.

Lemma gradio_create_word_document_split t :
  t ≠ "" → Gradio.create_word_document (Some t) = split_char LF t.
Proof.
  intros Ht. unfold Gradio.create_word_document.
  destruct t as [|c t]; [done|]. simpl truthy. cbv iota.
  by rewrite add_paragraphs_app.
Qed.

(** The name of the download in the Streamlit scripts. *)
Lemma streamlit_download_button file w text :
  Session.session_state w !! "final_text" = Some (VStr text) →
  Streamlit.download_button file w =
    (Session.Done (),
     Session.mk_world (Session.session_state w)
       (Session.ui w ++
          [DownloadButton
             ("translated_" +:+ (splitext (file_name file)).1 +:+ ".docx")
             (split_char LF text)])
       (Session.log_file w) (Session.journal w)).
Proof.
  intros Hf. unfold Streamlit.download_button, Session.getattr, Session.notify.
  unfold mbind, Session.Script_bind. rewrite Hf. simpl Session.format.
  by rewrite create_word_document_split.
Qed.

End documents.

(** C9, as the code has it: the two [create_word_document] produce the same
    paragraphs, the lines of the text, for every text that is not empty; for
    the empty text the writer of [translation_app.py] produces one empty
    paragraph and the writer of [app_gradio.py], which tests [if
    text_content], produces none. *)
Theorem create_word_document_agree_nonempty (t : string) (Ht : t ≠ "") :
  Streamlit.create_word_document t = Gradio.create_word_document (Some t)
  ∧ Streamlit.create_word_document t = Py.split_char Py.LF t
  ∧ Streamlit.create_word_document "" = [""]
  ∧ Gradio.create_word_document (Some "") = [].
Proof.
  rewrite gradio_create_word_document_split by done.
  rewrite create_word_document_split. done.
Qed.

Lemma create_word_document_agree_nonempty_witness :
  Streamlit.create_word_document ("Ola" +:+ Py.nl +:+ Py.nl +:+ "mundo")
  = Gradio.create_word_document (Some ("Ola" +:+ Py.nl +:+ Py.nl +:+ "mundo")).
Proof.
  apply (create_word_document_agree_nonempty ("Ola" +:+ Py.nl +:+ Py.nl +:+ "mundo")).
  discriminate.
Defined.

(** C9 as stated fails at the empty string: one empty paragraph against no
    paragraph. *)
Lemma create_word_document_differ_on_empty :
  ¬ (∀ t : string,
       Streamlit.create_word_document t = Gradio.create_word_document (Some t)).
Proof. intros H. specialize (H ""). discriminate H. Qed.

(** C5: in [app_gradio.py] the file offered for download is not named
    [translated_<base>.docx]: [download_docx] passes that name as the prefix
    of a temporary file, so the random part and a second [.docx] follow it.
    The paragraphs are the lines of the text, as the claim says. *)
Theorem gradio_download_name (env : Gradio.Env) (text : string) (source : UploadedFile)
    (Htext : text ≠ "") :
  let expected :=
    "translated_" +:+ (Helpers.splitext (Helpers.basename (file_name source))).1 +:+ ".docx" in
  ∃ path,
    Gradio.download_docx env (Gradio.GStr text) (Gradio.GFile source)
    = Gradio.Return
        [(Gradio.download_file_widget,
          Gradio.plain (Gradio.GTemp path (Py.split_char Py.LF text)))]
        [InfoDownloadPrepared]
    ∧ path = Gradio.gettempdir env +:+ "/" +:+ expected +:+ Gradio.random_infix env +:+ ".docx"
    ∧ path ≠ Gradio.gettempdir env +:+ "/" +:+ expected.
Proof.
  intros expected. eexists. split; [|split; [reflexivity|]].
  - unfold Gradio.download_docx. destruct text as [|c text]; [done|].
    simpl Gradio.gtruthy. cbv iota. simpl Gradio.gfile. cbv iota.
    simpl Gradio.gtext.
    rewrite (gradio_create_word_document_split (String c text)) by done.
    reflexivity.
  - intros Heq. apply (f_equal String.length) in Heq.
    rewrite !length_app_s in Heq. simpl in Heq. lia.
Qed.

Lemma gradio_download_name_witness :
  ∃ path,
    Gradio.download_docx
      (Gradio.mk_env (Some "key") (λ _ _ _, Returns "") "/tmp" "k3x9q2ab")
      (Gradio.GStr "Ola") (Gradio.GFile (mk_file "/tmp/gradio/report.txt" "" (Returns "Hello") (Raises "") (Raises "")))
    = Gradio.Return
        [(Gradio.download_file_widget, Gradio.plain (Gradio.GTemp path ["Ola"]))]
        [InfoDownloadPrepared]
    ∧ path = "/tmp/translated_report.docxk3x9q2ab.docx"
    ∧ path ≠ "/tmp/translated_report.docx".
Proof.
  exact (gradio_download_name
           (Gradio.mk_env (Some "key") (λ _ _ _, Returns "") "/tmp" "k3x9q2ab")
           "Ola" (mk_file "/tmp/gradio/report.txt" "" (Returns "Hello") (Raises "") (Raises ""))
           ltac:(discriminate)).
Defined.

(** ** The few-shot block *)

Section gold.
Import Py Helpers Spec.

Lemma gold_block_pieces prompt n en pt :
  (((prompt +:+ (nl +:+ "--- Gold Standard Example " +:+ pretty n +:+ " ---" +:+ nl))
    +:+ ("[English]:" +:+ nl +:+ en +:+ nl))
    +:+ ("[Portuguese]:" +:+ nl +:+ pt +:+ nl))
    +:+ ("--- End Example ---" +:+ nl)
  = prompt +:+ gold_block n en pt.
Proof. unfold gold_block. by rewrite !app_assoc_s. Qed.

Lemma streamlit_gold_loop pairs : ∀ i prompt shown,
  Streamlit.gold_loop i pairs prompt shown =
    (prompt +:+ concat_strings
                  (imap (λ j pair, if both pair then block_of (i + j + 1) pair else "")
                        (streamlit_texts pairs)),
     shown ++ streamlit_notices pairs).
Proof.
  induction pairs as [|[en_file pt_file] rest IH]; intros i prompt shown.
  - simpl. by rewrite app_empty_r, app_nil_r.
  - cbn [Streamlit.gold_loop]. rewrite IH.
    unfold streamlit_texts, streamlit_notices. rewrite !fmap_cons, imap_cons.
    cbn [concat concat_strings foldr fst snd].
    f_equal.
    + rewrite Nat.add_0_r.
      rewrite (imap_ext _ ((λ j pair, if both pair then block_of (i + j + 1) pair else "") ∘ S));
        [|intros j x _; unfold compose; destruct (both x); [f_equal; lia|done]].
      unfold both at 2. cbn [fst snd].
      destruct (truthy (Streamlit.read_file en_file).1 && truthy (Streamlit.read_file pt_file).1).
      * rewrite gold_block_pieces, app_assoc_s. done.
      * done.
    + by rewrite <- !app_assoc.
Qed.

Lemma positional_blocks_unfold pairs :
  positional_blocks pairs =
    concat_strings (imap (λ j pair, if both pair then block_of (0 + j + 1) pair else "") pairs).
Proof. reflexivity. Qed.

Lemma gradio_gold_loop pairs : ∀ i prompt,
  Forall (λ p, gradio_readable p.1 && gradio_readable p.2 = true) pairs →
  Gradio.gold_loop i pairs prompt =
    Gradio.Ok (prompt +:+ concat_strings
                 (imap (λ j pair, if both pair then block_of (i + j + 1) pair else "")
                       (gradio_texts pairs))).
Proof.
  induction pairs as [|[en_file pt_file] rest IH]; intros i prompt Hok.
  - simpl. by rewrite app_empty_r.
  - inversion Hok as [|? ? Hp Hrest]; subst. cbn [fst snd] in Hp.
    apply andb_true_iff in Hp as [Hen Hpt].
    assert (Gradio.read_file (Some en_file) = Gradio.Ok (gradio_text en_file)) as Een.
    { unfold gradio_text, gradio_readable in *.
      by destruct (Gradio.read_file (Some en_file)). }
    assert (Gradio.read_file (Some pt_file) = Gradio.Ok (gradio_text pt_file)) as Ept.
    { unfold gradio_text, gradio_readable in *.
      by destruct (Gradio.read_file (Some pt_file)). }
    cbn [Gradio.gold_loop]. rewrite Een, Ept, IH by done.
    unfold gradio_texts. rewrite fmap_cons, imap_cons.
    cbn [concat_strings foldr fst snd]. f_equal.
    rewrite Nat.add_0_r.
    rewrite (imap_ext _ ((λ j pair, if both pair then block_of (i + j + 1) pair else "") ∘ S));
      [|intros j x _; unfold compose; destruct (both x); [f_equal; lia|done]].
    unfold both at 2. cbn [fst snd].
    destruct (truthy (gradio_text en_file) && truthy (gradio_text pt_file)).
    + rewrite gold_block_pieces, app_assoc_s. done.
    + done.
Qed.

Lemma gradio_gold_loop_fails pairs : ∀ i prompt,
  Exists (λ p, gradio_readable p.1 && gradio_readable p.2 = false) pairs →
  ∃ e, Gradio.gold_loop i pairs prompt = Gradio.GrError e ∧ is_error e = true.
Proof.
  induction pairs as [|[en_file pt_file] rest IH]; intros i prompt Hbad.
  - by apply Exists_nil in Hbad.
  - cbn [Gradio.gold_loop].
    assert (∀ f e, Gradio.read_file (Some f) = Gradio.GrError e → is_error e = true) as Herr.
    { intros f e. unfold Gradio.read_file.
      repeat match goal with
      | |- context [if ?b then _ else _] => destruct b
      | |- context [match ?r with Returns _ => _ | Raises _ => _ end] => destruct r
      end; intros [= <-]; done. }
    destruct (Gradio.read_file (Some en_file)) as [en_text|e] eqn:Een;
      [|exists e; split; [done|by apply (Herr en_file)]].
    destruct (Gradio.read_file (Some pt_file)) as [pt_text|e] eqn:Ept;
      [|exists e; split; [done|by apply (Herr pt_file)]].
    apply Exists_cons in Hbad as [Hbad|Hbad]; [|by apply IH].
    unfold gradio_readable in Hbad. cbn [fst snd] in Hbad. by rewrite Een, Ept in Hbad.
Qed.

End gold.

(** C4, as the code has it.  [build_gold_standard_prompt] returns the empty
    string when either list is empty.  Otherwise it returns the fixed header
    followed, for the first [min (len en) (len pt)] pairs in order, by one
    block for every pair whose two texts are non-empty; the block carries
    the pair's own position among the zipped pairs, counted from 1, so the
    numbers of skipped pairs are left out.  Lists of different lengths
    only add a warning.  In the Streamlit scripts this holds for all files:
    a file that fails to read has no text, its pair is skipped and the
    error of the read is shown.  In [app_gradio.py] it holds when no file
    of the pairs fails to read; otherwise the function ends with the
    [gr.Error] of the read, after the warning for the lengths. *)
Theorem build_gold_standard_prompt_positional
    (en_files pt_files : list UploadedFile) :
  let pairs := zip en_files pt_files in
  let warning :=
    if bool_decide (length en_files ≠ length pt_files) then [WarnGoldMismatch] else [] in
  length pairs = length en_files `min` length pt_files
  ∧ Streamlit.build_gold_standard_prompt en_files pt_files =
      (if bool_decide (en_files = []) || bool_decide (pt_files = []) then ("", [])
       else (Helpers.gold_header +:+ Spec.positional_blocks (Spec.streamlit_texts pairs),
             warning ++ Spec.streamlit_notices pairs))
  ∧ (Forall (λ p, Spec.gradio_readable p.1 && Spec.gradio_readable p.2 = true) pairs →
     Gradio.build_gold_standard_prompt (Some en_files) (Some pt_files) =
       if bool_decide (en_files = []) || bool_decide (pt_files = []) then ([], Gradio.Ok "")
       else (warning,
             Gradio.Ok (Helpers.gold_header
                        +:+ Spec.positional_blocks (Spec.gradio_texts pairs))))
  ∧ (en_files ≠ [] → pt_files ≠ [] →
     Exists (λ p, Spec.gradio_readable p.1 && Spec.gradio_readable p.2 = false) pairs →
     ∃ e, Gradio.build_gold_standard_prompt (Some en_files) (Some pt_files)
          = (warning, Gradio.GrError e)
        ∧ is_error e = true).
Proof.
  intros pairs warning. split; [apply length_zip_with|]. split; [|split].
  - unfold Streamlit.build_gold_standard_prompt.
    destruct (bool_decide (en_files = []) || bool_decide (pt_files = [])); [done|].
    by rewrite streamlit_gold_loop.
  - intros Hreadable. unfold Gradio.build_gold_standard_prompt. cbn [from_option]. unfold id.
    destruct (bool_decide (en_files = []) || bool_decide (pt_files = [])); [done|].
    by rewrite gradio_gold_loop.
  - intros Hen Hpt Hbad. unfold Gradio.build_gold_standard_prompt.
    cbn [from_option]. unfold id.
    rewrite !bool_decide_eq_false_2 by done. cbn [orb].
    destruct (gradio_gold_loop_fails (zip en_files pt_files) 0 Helpers.gold_header Hbad)
      as (e & -> & He).
    by exists e.
Qed.


Lemma build_gold_standard_prompt_positional_witness :
  Streamlit.build_gold_standard_prompt
    [Samples.txt "a.txt" ""; Samples.txt "b.txt" "Good morning"; Samples.txt "c.txt" "Bye"]
    [Samples.txt "x.txt" "Ola"; Samples.txt "y.txt" "Bom dia"]
  = (Helpers.gold_header +:+ Helpers.gold_block 2 "Good morning" "Bom dia",
     [WarnGoldMismatch])
  ∧ Gradio.build_gold_standard_prompt
      (Some [Samples.txt "a.txt" ""; Samples.txt "b.txt" "Good morning";
             Samples.txt "c.txt" "Bye"])
      (Some [Samples.txt "x.txt" "Ola"; Samples.txt "y.txt" "Bom dia"])
    = ([WarnGoldMismatch],
       Gradio.Ok (Helpers.gold_header +:+ Helpers.gold_block 2 "Good morning" "Bom dia")).
Proof.
  pose proof (build_gold_standard_prompt_positional
    [Samples.txt "a.txt" ""; Samples.txt "b.txt" "Good morning"; Samples.txt "c.txt" "Bye"]
    [Samples.txt "x.txt" "Ola"; Samples.txt "y.txt" "Bom dia"]) as (_ & Hst & Hgr & _).
  split.
  - rewrite Hst. vm_compute. reflexivity.
  - rewrite Hgr by (repeat constructor). vm_compute. reflexivity.
Defined.

(** C4 as stated fails when a pair is skipped: the block that follows is
    numbered by its position (2), not as the first block (1). *)
Lemma build_gold_standard_prompt_not_consecutive :
  let en_files := [Samples.txt "a.txt" ""; Samples.txt "b.txt" "Good morning"] in
  let pt_files := [Samples.txt "x.txt" "Ola"; Samples.txt "y.txt" "Bom dia"] in
  (Streamlit.build_gold_standard_prompt en_files pt_files).1
    ≠ Helpers.gold_header +:+ Spec.consecutive_blocks (Spec.streamlit_texts (zip en_files pt_files))
  ∧ (Streamlit.build_gold_standard_prompt en_files pt_files).1
    = Helpers.gold_header +:+ Helpers.gold_block 2 "Good morning" "Bom dia"
  ∧ Spec.consecutive_blocks (Spec.streamlit_texts (zip en_files pt_files))
    = Helpers.gold_block 1 "Good morning" "Bom dia".
Proof. vm_compute. split; [discriminate|done]. Qed.

(** ** The access log *)

Section strip.
Import Py.

Lemma rstrip_cons c s :
  rstrip (String c s) =
    match rstrip s with
    | "" => if is_space c then "" else String c ""
    | String d r => String c (String d r)
    end.
Proof. reflexivity. Qed.

Lemma rstrip_app_kept a b : rstrip b ≠ "" → rstrip (a +:+ b) = a +:+ rstrip b.
Proof.
  intros Hb. induction a as [|c a IH]; [done|].
  rewrite app_cons, rstrip_cons, IH.
  destruct a as [|d a].
  - rewrite app_empty_l. by destruct (rstrip b).
  - by rewrite app_cons.
Qed.

Lemma rstrip_app_spaces a b : rstrip b = "" → rstrip (a +:+ b) = rstrip a.
Proof.
  intros Hb. induction a as [|c a IH]; [done|].
  by rewrite app_cons, !rstrip_cons, IH.
Qed.

Lemma rstrip_prefix s : ∃ t, s = rstrip s +:+ t.
Proof.
  induction s as [|c s [t Ht]]; [by exists ""|].
  rewrite rstrip_cons. destruct (rstrip s) as [|d r].
  - destruct (is_space c).
    + by exists (String c s).
    + exists s. by rewrite app_cons, app_empty_l.
  - exists t. by rewrite app_cons, <- Ht.
Qed.

Lemma rstrip_length s : String.length (rstrip s) ≤ String.length s.
Proof.
  destruct (rstrip_prefix s) as [t Ht]. rewrite Ht at 2.
  rewrite length_app_s. lia.
Qed.

Lemma rstrip_fixed s : String.length (rstrip s) = String.length s → rstrip s = s.
Proof.
  intros Hlen. destruct (rstrip_prefix s) as [t Ht].
  rewrite Ht in Hlen at 2. rewrite length_app_s in Hlen.
  destruct t as [|c t]; [|simpl in Hlen; lia].
  rewrite app_empty_r in Ht. done.
Qed.

Lemma lstrip_length s : String.length (lstrip s) ≤ String.length s.
Proof. induction s as [|c s IH]; simpl; [done|]. destruct (is_space c); simpl; lia. Qed.

Lemma lstrip_fixed s : String.length (lstrip s) = String.length s → lstrip s = s.
Proof.
  destruct s as [|c s]; simpl; [done|]. destruct (is_space c); [|done].
  pose proof (lstrip_length s). lia.
Qed.

Lemma stripped_inv s : Spec.stripped s → rstrip s = s ∧ lstrip s = s.
Proof.
  unfold Spec.stripped, strip. intros Hs.
  pose proof (lstrip_length (rstrip s)) as H1.
  pose proof (rstrip_length s) as H2.
  assert (rstrip s = s) as Hr.
  { apply rstrip_fixed. rewrite Hs in H1. lia. }
  split; [done|]. by rewrite Hr in Hs.
Qed.

(** *** The first occurrence of a separator *)

Lemma startswith_app p s : startswith p (p +:+ s) = true.
Proof.
  induction p as [|c p IH]; [done|].
  rewrite app_cons. simpl. by rewrite decide_True.
Qed.

Lemma drop_app p s : drop (String.length p) (p +:+ s) = s.
Proof. induction p as [|c p IH]; [done|]. by rewrite app_cons. Qed.

Lemma partition_unfold sep s :
  partition sep s =
    if startswith sep s then Some ("", drop (String.length sep) s)
    else match s with
         | "" => None
         | String c s' =>
             match partition sep s' with
             | Some (a, b) => Some (String c a, b)
             | None => None
             end
         end.
Proof. by destruct s. Qed.

Lemma partition_first c0 sep a r :
  Spec.occurs c0 a = false →
  partition (String c0 sep) (a +:+ String c0 sep +:+ r) = Some (a, r).
Proof.
  induction a as [|c a IH]; intros Ha.
  - rewrite app_empty_l, partition_unfold, startswith_app, drop_app. done.
  - simpl in Ha. apply orb_false_iff in Ha as [Hc Ha].
    apply bool_decide_eq_false in Hc.
    rewrite app_cons, partition_unfold.
    assert (startswith (String c0 sep) (String c (a +:+ String c0 sep +:+ r)) = false) as ->.
    { simpl. rewrite decide_False; [done|congruence]. }
    by rewrite IH.
Qed.

(** *** Reading the file *)

Lemma terminated_cons c s : s ≠ "" → Spec.terminated (String c s) = Spec.terminated s.
Proof. by destruct s. Qed.

Lemma terminated_app s t : Spec.terminated t = true → t ≠ "" → Spec.terminated (s +:+ t) = true.
Proof.
  intros Ht Hne. induction s as [|c s IH]; [done|].
  rewrite app_cons, terminated_cons; [done|].
  destruct s; [by rewrite app_empty_l|by rewrite app_cons].
Qed.

Lemma universal_newlines_cons b c s :
  universal_newlines b (String c s) =
    if decide (c = CR) then String LF (universal_newlines true s)
    else if decide (c = LF) then
      if b then universal_newlines false s
      else String LF (universal_newlines false s)
    else String c (universal_newlines false s).
Proof. reflexivity. Qed.

Lemma universal_newlines_id s :
  Spec.occurs CR s = false → universal_newlines false s = s.
Proof.
  induction s as [|c s IH]; [done|]. simpl. intros H.
  apply orb_false_iff in H as [Hc Hs]. apply bool_decide_eq_false in Hc.
  rewrite decide_False by done. rewrite IH by done. by case_decide; subst.
Qed.

Lemma universal_newlines_terminated s : ∀ b,
  s ≠ "" → Spec.terminated s = true →
  Spec.terminated (universal_newlines b s) = true
  ∧ (b = false → universal_newlines b s ≠ "").
Proof.
  induction s as [|c s IH]; [done|]. intros b _ Hs.
  rewrite universal_newlines_cons.
  destruct s as [|d s].
  - simpl in Hs. apply bool_decide_eq_true in Hs as ->.
    rewrite decide_False by done. rewrite decide_True by done.
    destruct b; simpl; split; try done.
  - rewrite terminated_cons in Hs by done.
    assert (∀ x b', (b' = false ∨ x = LF) →
              Spec.terminated (String x (universal_newlines b' (String d s))) = true) as Hx.
    { intros x b' Hb'. destruct (IH b' ltac:(done) Hs) as [Ht Hne].
      destruct (universal_newlines b' (String d s)) as [|y r] eqn:E.
      - destruct Hb' as [->| ->]; [by destruct Hne|done].
      - rewrite terminated_cons; done. }
    case_decide; [split; [apply Hx; by right|done]|].
    case_decide.
    + destruct b.
      * split; [|done]. by apply IH.
      * split; [apply Hx; by left|done].
    + split; [apply Hx; by left|done].
Qed.

Lemma universal_newlines_app s t : ∀ b,
  s ≠ "" → Spec.terminated s = true →
  universal_newlines b (s +:+ t) = universal_newlines b s +:+ universal_newlines false t.
Proof.
  induction s as [|c s IH]; [done|]. intros b _ Hs.
  rewrite app_cons, !universal_newlines_cons.
  destruct s as [|d s].
  - simpl in Hs. apply bool_decide_eq_true in Hs as ->.
    rewrite app_empty_l. rewrite decide_False by done. rewrite decide_True by done.
    by destruct b.
  - rewrite terminated_cons in Hs by done.
    rewrite !IH by done.
    repeat case_decide; try destruct b; by rewrite ?app_cons.
Qed.

Lemma readlines_cons c s :
  readlines (String c s) =
    if decide (c = LF) then nl :: readlines s
    else match readlines s with
         | [] => [String c ""]
         | l :: ls => String c l :: ls
         end.
Proof. reflexivity. Qed.

Lemma readlines_nil s : readlines s = [] → s = "".
Proof.
  destruct s as [|c s]; [done|]. rewrite readlines_cons.
  case_decide; [done|]. by destruct (readlines s).
Qed.

Lemma readlines_app s t :
  Spec.terminated s = true → readlines (s +:+ t) = readlines s ++ readlines t.
Proof.
  induction s as [|c s IH]; [done|]. intros Hs.
  rewrite app_cons, !readlines_cons.
  destruct s as [|d s].
  - simpl in Hs. apply bool_decide_eq_true in Hs as ->.
    rewrite app_empty_l. by rewrite decide_True.
  - rewrite terminated_cons in Hs by done. rewrite IH by done.
    case_decide; [done|].
    destruct (readlines (String d s)) as [|l ls] eqn:E; [|done].
    by apply readlines_nil in E.
Qed.

Lemma readlines_line x :
  Spec.occurs LF x = false → readlines (x +:+ nl) = [x +:+ nl].
Proof.
  induction x as [|c x IH]; [done|]. simpl Spec.occurs. intros H.
  apply orb_false_iff in H as [Hc Hx]. apply bool_decide_eq_false in Hc.
  rewrite app_cons, readlines_cons, decide_False by done.
  by rewrite IH.
Qed.

End strip.

Section log.
Import Py Session StDev.

Lemma digit_is_digit n : Spec.is_digit (digit n) = true.
Proof.
  unfold digit. pose proof (Nat.mod_upper_bound n 10 ltac:(lia)) as H.
  destruct (n `mod` 10) as [|[|[|[|[|[|[|[|[|[|k]]]]]]]]]];
    [vm_compute; reflexivity..|lia].
Qed.

Lemma occurs_cons c d s :
  Spec.occurs c (String d s) = bool_decide (d = c) || Spec.occurs c s.
Proof. reflexivity. Qed.

Lemma occurs_digit c n s :
  Spec.is_digit c = false → Spec.occurs c (String (digit n) s) = Spec.occurs c s.
Proof.
  intros Hc. rewrite occurs_cons, bool_decide_eq_false_2; [done|].
  intros E. pose proof (digit_is_digit n) as Hd. congruence.
Qed.

Lemma occurs_other c d s :
  d ≠ c → Spec.occurs c (String d s) = Spec.occurs c s.
Proof. intros. by rewrite occurs_cons, bool_decide_eq_false_2. Qed.

(** A timestamp holds digits, dashes, colons and one space. *)
Lemma occurs_strftime c t :
  Spec.is_digit c = false → c ≠ "-"%char → c ≠ ":"%char → c ≠ " "%char →
  Spec.occurs c (strftime t) = false.
Proof.
  intros Hd H1 H2 H3. unfold strftime, pad4, pad2.
  rewrite ?app_cons, ?app_empty_l.
  repeat first
    [ rewrite occurs_digit by done
    | rewrite app_cons
    | rewrite app_empty_l
    | rewrite occurs_other by congruence ].
  done.
Qed.

(** The characters around a timestamp are digits. *)
Lemma strftime_shape t :
  ∃ n s m, strftime t = String (digit n) (s +:+ String (digit m) "").
Proof.
  unfold strftime, pad4, pad2. rewrite ?app_cons, ?app_empty_l.
  exists (year t `div` 1000),
    (String (digit (year t `div` 100)) (String (digit (year t `div` 10))
      (String (digit (year t)) ("-" +:+ pad2 (month t) +:+ "-" +:+ pad2 (day t) +:+ " "
         +:+ pad2 (hour t) +:+ ":" +:+ pad2 (minute t) +:+ ":"
         +:+ String (digit (second t `div` 10)) "")))),
    (second t).
  unfold pad2. by rewrite ?app_cons, ?app_empty_l.
Qed.

Lemma rstrip_char_cons x c s :
  rstrip_char x (String c s) =
    match rstrip_char x s with
    | "" => if decide (c = x) then "" else String c ""
    | String d r => String c (String d r)
    end.
Proof. reflexivity. Qed.

Lemma rstrip_char_kept x a c : c ≠ x → rstrip_char x (a +:+ String c "") = a +:+ String c "".
Proof.
  intros Hc. induction a as [|d a IH].
  - rewrite app_empty_l, rstrip_char_cons. cbn [rstrip_char]. by rewrite decide_False.
  - rewrite app_cons, rstrip_char_cons, IH.
    destruct a; by rewrite ?app_empty_l, ?app_cons.
Qed.

Lemma lstrip_char_cons x c s :
  lstrip_char x (String c s) = if decide (c = x) then lstrip_char x s else String c s.
Proof. reflexivity. Qed.

Lemma strip_bracket_strftime t :
  strip_char "[" ("[" +:+ strftime t) = strftime t.
Proof.
  destruct (strftime_shape t) as (n & s & m & ->).
  assert (∀ k, digit k ≠ "["%char) as Hk.
  { intros k E. pose proof (digit_is_digit k) as Hd. by rewrite E in Hd. }
  unfold strip_char.
  change ("[" +:+ String (digit n) (s +:+ String (digit m) ""))
    with (String "[" (String (digit n) s) +:+ String (digit m) "").
  rewrite rstrip_char_kept by done.
  rewrite !app_cons, !lstrip_char_cons, decide_True by done.
  by rewrite decide_False.
Qed.

End log.

Section log_roundtrip.
Import Py Session StDev.

Lemma occurs_bracket_strftime t : Spec.occurs "]" ("[" +:+ strftime t) = false.
Proof.
  change ("[" +:+ strftime t) with (String "[" (strftime t)).
  rewrite occurs_other by done. by apply occurs_strftime.
Qed.

Lemma strip_line_empty_event a :
  strip (String "[" a +:+ ": " +:+ "" +:+ nl) = String "[" a +:+ ":".
Proof.
  unfold strip.
  change (String "[" a +:+ ": " +:+ "" +:+ nl)
    with (String "[" a +:+ (":" +:+ (" " +:+ nl))).
  rewrite <- app_assoc_s, rstrip_app_spaces by done.
  by rewrite rstrip_app_kept.
Qed.

Lemma strip_line_event a e :
  e ≠ "" → Spec.stripped e →
  strip (String "[" a +:+ ": " +:+ e +:+ nl) = String "[" a +:+ ": " +:+ e.
Proof.
  intros Hne [Hr Hl]%stripped_inv. unfold strip.
  assert (rstrip (e +:+ nl) = e) as He by (by rewrite rstrip_app_spaces).
  rewrite <- !app_assoc_s.
  rewrite (app_assoc_s _ e nl), rstrip_app_kept, He; [done|].
  by rewrite He.
Qed.

Lemma strip_after_colon e : Spec.stripped e → strip (" " +:+ e) = e.
Proof.
  intros [Hr Hl]%stripped_inv. unfold strip. destruct e as [|c e]; [done|].
  rewrite rstrip_app_kept, Hr by (by rewrite Hr). done.
Qed.

Lemma parse_log_line now u e :
  Spec.occurs ":" u = false → Spec.stripped u → Spec.stripped e →
  parse_line (log_line now u e) = Some (mk_entry (strftime now) u e).
Proof.
  intros Hcolon Hu He. unfold parse_line, log_line.
  assert (∀ rest,
    match partition "] " ("[" +:+ strftime now +:+ "] " +:+ u +:+ ":" +:+ rest) with
    | Some (timestamp, rest') =>
        match partition ":" rest' with
        | Some (username, event) =>
            Some (mk_entry (strip_char "[" timestamp) (strip username) (strip event))
        | None => None
        end
    | None => None
    end = Some (mk_entry (strftime now) u (strip rest))) as Hparse.
  { intros rest.
    rewrite <- (app_assoc_s "[" (strftime now)).
    rewrite (partition_first "]" " " ("[" +:+ strftime now))
      by apply occurs_bracket_strftime.
    rewrite (partition_first ":" "" u) by done.
    by rewrite strip_bracket_strftime, Hu. }
  assert (∀ rest, String "[" (strftime now +:+ "] " +:+ u) +:+ ":" +:+ rest
                  = "[" +:+ strftime now +:+ "] " +:+ u +:+ ":" +:+ rest) as Hshape.
  { intros rest. rewrite app_cons. by rewrite !app_assoc_s. }
  change (": " +:+ e +:+ nl) with (":" +:+ " " +:+ e +:+ nl).
  rewrite <- Hshape.
  change (":" +:+ " " +:+ e +:+ nl) with (": " +:+ e +:+ nl).
  destruct (decide (e = "")) as [->|Hne].
  - rewrite strip_line_empty_event.
    rewrite <- (app_empty_r (String "[" (strftime now +:+ "] " +:+ u) +:+ ":")).
    rewrite app_assoc_s, Hshape, Hparse. done.
  - rewrite strip_line_event by done.
    change (": " +:+ e) with (":" +:+ " " +:+ e).
    rewrite Hshape, Hparse. by rewrite strip_after_colon.
Qed.

Lemma read_logs_loop_app l1 l2 : ∀ logs,
  read_logs_loop (l1 ++ l2) logs = read_logs_loop l2 (read_logs_loop l1 logs).
Proof.
  induction l1 as [|line l1 IH]; intros logs; [done|].
  simpl. by destruct (parse_line line).
Qed.

Lemma occurs_log_line c now u e :
  Spec.is_digit c = false → c ≠ "-"%char → c ≠ ":"%char → c ≠ " "%char →
  c ≠ "["%char → c ≠ "]"%char →
  Spec.occurs c u = false → Spec.occurs c e = false →
  Spec.occurs c ("[" +:+ strftime now +:+ "] " +:+ u +:+ ": " +:+ e) = false.
Proof.
  intros. rewrite !occurs_app, occurs_strftime by done.
  rewrite (occurs_other c "[") by done.
  change "] " with (String "]" (String " " "")).
  change ": " with (String ":" (String " " "")).
  rewrite !occurs_other by done. simpl Spec.occurs at 1 2 3.
  by repeat match goal with H : Spec.occurs _ _ = false |- _ => rewrite H end.
Qed.

(** Reading back the log after one more [log_event]. *)
Lemma read_logs_after_log_event now u e w :
  Spec.terminated (default "" (log_file w)) = true →
  Spec.occurs LF u = false → Spec.occurs CR u = false →
  Spec.occurs ":" u = false → Spec.stripped u →
  Spec.occurs LF e = false → Spec.occurs CR e = false → Spec.stripped e →
  read_logs (log_event now u e w).2
  = read_logs w ++ [mk_entry (strftime now) u e].
Proof.
  intros Hterm HuLF HuCR Hcolon Hu HeLF HeCR He.
  unfold read_logs, log_event. cbn [snd log_file].
  set (line := log_line now u e).
  assert (universal_newlines false line = line) as Hline.
  { apply universal_newlines_id. unfold line, log_line.
    rewrite <- !app_assoc_s, occurs_app, !app_assoc_s.
    rewrite occurs_log_line by done. done. }
  assert (readlines line = [line]) as Hlines.
  { unfold line, log_line. rewrite <- !app_assoc_s.
    rewrite readlines_line; [done|]. rewrite !app_assoc_s.
    by apply occurs_log_line. }
  assert (read_logs_loop [line] = λ logs, logs ++ [mk_entry (strftime now) u e]) as Hone.
  { simpl. unfold line. by rewrite parse_log_line. }
  destruct (log_file w) as [content|]; cbn [default from_option id] in *.
  - destruct (decide (content = "")) as [->|Hne].
    + rewrite app_empty_l, Hline, Hlines, Hone. done.
    + destruct (universal_newlines_terminated content false Hne Hterm) as [Ht _].
      rewrite universal_newlines_app, Hline by done.
      rewrite readlines_app, Hlines by done.
      by rewrite read_logs_loop_app, Hone.
  - rewrite app_empty_l, Hline, Hlines, Hone. done.
Qed.

(** Every log that only [log_event] wrote ends with a line feed. *)
Lemma log_event_terminated now u e w :
  Spec.terminated (default "" (log_file (log_event now u e w).2)) = true.
Proof.
  unfold log_event, log_line. cbn [snd log_file default from_option id].
  rewrite <- !app_assoc_s. by apply terminated_app.
Qed.

End log_roundtrip.

(** C8, as the code has it: for a user name without line feed, carriage
    return, colon or closing bracket that equals itself stripped, and an event
    without line feed or carriage return that equals itself stripped, appending
    with [log_event] to a log that is missing, empty or ends with a line feed
    (every log written by [log_event] does) and reading with [read_logs] gives,
    as the last entry, that user name and that event (and the timestamp
    written).  The carriage return must be excluded because the text-mode
    read turns it into a line end. *)
Theorem log_event_read_logs_roundtrip
    (now : datetime) (w : Session.World) (u e : string)
    (Hlog : Spec.terminated (default "" (Session.log_file w)) = true)
    (HuLF : Spec.occurs Py.LF u = false) (HuCR : Spec.occurs Py.CR u = false)
    (Hucolon : Spec.occurs ":" u = false) (Hubracket : Spec.occurs "]" u = false)
    (Hu : Spec.stripped u)
    (HeLF : Spec.occurs Py.LF e = false) (HeCR : Spec.occurs Py.CR e = false)
    (He : Spec.stripped e) :
  list.last (StDev.read_logs (StDev.log_event now u e w).2)
  = Some (StDev.mk_entry (Session.strftime now) u e).
Proof. rewrite read_logs_after_log_event by done. apply list.last_snoc. Qed.

Lemma log_event_read_logs_roundtrip_witness :
  list.last (StDev.read_logs
          (StDev.log_event (mk_datetime 2025 3 14 9 26 53 0) "ana"
             "Completed translation English->Portuguese"
             (StDev.log_event (mk_datetime 2025 3 14 9 2 7 0) "ana" "Logged in"
                TranslationApp.fresh).2).2)
  = Some (StDev.mk_entry "2025-03-14 09:26:53" "ana"
            "Completed translation English->Portuguese").
Proof.
  apply (log_event_read_logs_roundtrip (mk_datetime 2025 3 14 9 26 53 0));
    vm_compute; reflexivity.
Defined.

(** C8 as stated fails for an event that holds a carriage return: it has no
    line feed and equals itself stripped, yet the entry read back stops at
    the carriage return. *)
Lemma log_roundtrip_fails_on_carriage_return :
  let u := "ana" in
  let e := "a" +:+ String Py.CR "b" in
  let w := (StDev.log_event (mk_datetime 2025 3 14 9 26 53 0) u e TranslationApp.fresh).2 in
  Spec.occurs Py.LF u = false ∧ Spec.occurs ":" u = false ∧ Spec.occurs "]" u = false
  ∧ Spec.stripped u
  ∧ Spec.occurs Py.LF e = false ∧ Spec.stripped e
  ∧ StDev.event <$> list.last (StDev.read_logs w) ≠ Some e
  ∧ StDev.read_logs w = [StDev.mk_entry "2025-03-14 09:26:53" "ana" "a"].
Proof. vm_compute. repeat split; try done. Qed.

(** ** Running the Streamlit scripts *)

Section script.
Import Py Session Streamlit.

Lemma bind_run {A B} (m : Script A) (f : A → Script B) w :
  (m ≫= f) w =
    match m w with
    | (Done a, w') => f a w'
    | (Stop, w') => (Stop, w')
    | (Rerun, w') => (Rerun, w')
    | (AttributeError k, w') => (AttributeError k, w')
    | (TypeError, w') => (TypeError, w')
    end.
Proof. reflexivity. Qed.

Lemma getattr_run key v w :
  session_state w !! key = Some v → getattr key w = (Done v, w).
Proof. intros H. unfold getattr. by rewrite H. Qed.

Lemma has_run key w :
  has key w = (Done (bool_decide (is_Some (session_state w !! key))), w).
Proof. reflexivity. Qed.

Lemma has_run_Some key v w :
  session_state w !! key = Some v → has key w = (Done true, w).
Proof. intros H. rewrite has_run, H. by rewrite bool_decide_eq_true_2. Qed.

Lemma has_run_None key w :
  session_state w !! key = None → has key w = (Done false, w).
Proof.
  intros H. rewrite has_run, H. rewrite bool_decide_eq_false_2; [done|].
  by intros [? ?].
Qed.

Lemma ret_run {A} (a : A) w : (mret a : Script A) w = (Done a, w).
Proof. reflexivity. Qed.

Lemma notify_run n w :
  notify n w = (Done (), mk_world (session_state w) (ui w ++ [n]) (log_file w) (journal w)).
Proof. reflexivity. Qed.

Lemma showing_run {A} (r : A * list Notice) w :
  showing r w =
    (Done r.1, mk_world (session_state w) (ui w ++ r.2) (log_file w) (journal w)).
Proof. reflexivity. Qed.

Lemma setattr_run key v w :
  setattr key v w =
    (Done (), mk_world (<[key := v]> (session_state w)) (ui w) (log_file w)
                (journal w ++ [Assigned key v])).
Proof. reflexivity. Qed.

Lemma get_run key w : get key w = (Done (default VNone (session_state w !! key)), w).
Proof. reflexivity. Qed.

Lemma delete_all_but_run keep w :
  delete_all_but keep w =
    (Done (), mk_world (filter (λ kv, kv.1 ∈ keep) (session_state w))
                (ui w) (log_file w) (journal w ++ [Cleared keep])).
Proof. reflexivity. Qed.

Lemma lookup_cleared (m : gmap string Val) key :
  filter (λ kv : string * Val, kv.1 ∈ @nil string) m !! key = None.
Proof.
  apply map_lookup_filter_None. right. intros x _ Hin. simpl in Hin.
  by apply elem_of_nil in Hin.
Qed.

End script.

(** Reads a key of the session after the assignments made so far. *)
Ltac solve_lookup :=
  cbn [Session.session_state];
  repeat (rewrite lookup_insert_ne by done);
  first [ eassumption | apply lookup_insert_eq | apply lookup_cleared ].

(** Runs the statement at the head of the script. *)
Ltac script_step :=
  first
    [ rewrite ret_run
    | rewrite notify_run
    | rewrite showing_run
    | rewrite setattr_run
    | rewrite get_run
    | rewrite delete_all_but_run
    | erewrite getattr_run by solve_lookup
    | erewrite has_run_Some by solve_lookup
    | rewrite has_run_None by solve_lookup
    | rewrite bind_run ];
  cbn [Session.when negb andb orb Session.truthy_val Py.truthy fst snd
       Session.session_state Session.ui Session.log_file Session.journal].

Section session_gate.
Import Py Session Streamlit StDev.

Lemma is_session_expired_missing now w :
  session_state w !! "last_activity" = None →
  is_session_expired now w = (Done true, w).
Proof.
  intros H. unfold is_session_expired.
  rewrite bind_run, has_run_None by done. done.
Qed.

Lemma logout_run inp w :
  ∃ w', logout inp w = (Rerun, w')
    ∧ session_state w' !! "authenticated" = Some (VBool false)
    ∧ session_state w' !! "username" = None
    ∧ session_state w' !! "last_activity" = None
    ∧ ui w' = ui w ++ [OkLoggedOut].
Proof.
  unfold logout. rewrite bind_run, has_run. cbn beta iota.
  set (named := bool_decide _). rewrite bind_run.
  assert (∃ w1, when named (username ← getattr "username";
                  log_event (now inp) (format username) "Logged out") w = (Done (), w1)
                ∧ ui w1 = ui w) as (w1 & -> & Hui1).
  { unfold named. destruct (session_state w !! "username") as [v|] eqn:E.
    - rewrite bool_decide_eq_true_2 by done. cbn [when].
      do 2 script_step. eexists. split; [reflexivity|done].
    - rewrite bool_decide_eq_false_2 by (by intros [? ?]). by eexists. }
  do 6 script_step.
  destruct (truthy_val (default VNone (session_state w1 !! "api_key")));
    cbn [when]; do 4 script_step; unfold rerun;
    (eexists; split; [reflexivity|]); cbn [session_state ui];
    rewrite ?lookup_insert_eq, ?lookup_insert_ne, ?lookup_cleared, ?Hui1 by done;
    rewrite ?lookup_insert_eq, ?lookup_insert_ne, ?lookup_cleared by done; done.
Qed.

End session_gate.

Section session_gate_run.
Import Py Session Streamlit StDev.

Lemma gate_expired inp w :
  session_state w !! "authenticated" = Some (VBool true) →
  session_state w !! "last_activity" = None →
  ∃ w', authentication_gate inp w = (Rerun, w')
    ∧ session_state w' !! "authenticated" = Some (VBool false)
    ∧ session_state w' !! "username" = None
    ∧ ui w' = ui w ++ [WarnSessionExpired; OkLoggedOut].
Proof.
  intros Hauth Hlast. unfold authentication_gate.
  do 6 script_step.
  rewrite bind_run, is_session_expired_missing by done.
  cbn [when negb andb orb truthy_val].
  do 3 script_step.
  match goal with |- context [logout inp ?w0] =>
    destruct (logout_run inp w0) as (w' & -> & Ha & Hu & _ & Hui) end.
  exists w'. split; [done|]. split; [done|]. split; [done|].
  rewrite Hui. cbn [ui]. by rewrite <- app_assoc.
Qed.

Lemma gate_logged_out inp w :
  session_state w !! "authenticated" = Some (VBool false) →
  login_button inp = false →
  ∃ w', authentication_gate inp w = (Stop, w').
Proof.
  intros Hauth Hbutton. unfold authentication_gate.
  do 12 script_step.
  unfold login_ui. rewrite Hbutton. cbn [when].
  do 2 script_step. unfold stop. by eexists.
Qed.

End session_gate_run.

(** C10: with no [last_activity] in the session [is_session_expired] returns
    [True]; an authenticated session in that state is logged out by the gate
    (the run ends in a rerun with [authenticated] false and the user name
    gone, after the warning), and the next run stops at the login page. *)
Theorem session_without_activity_is_expired
    (inp : StDev.AuthInputs) (w : Session.World)
    (Hlast : Session.session_state w !! "last_activity" = None) :
  StDev.is_session_expired (StDev.now inp) w = (Session.Done true, w)
  ∧ (Session.session_state w !! "authenticated" = Some (VBool true) →
     ∃ w', StDev.run inp w = (Session.Rerun, w')
       ∧ Session.session_state w' !! "authenticated" = Some (VBool false)
       ∧ Session.session_state w' !! "username" = None
       ∧ Session.ui w' = [WarnSessionExpired; OkLoggedOut]
       ∧ (StDev.run (StDev.no_buttons inp) w').1 = Session.Stop).
Proof.
  split; [by apply is_session_expired_missing|].
  intros Hauth. unfold StDev.run at 1, StDev.script.
  rewrite bind_run.
  match goal with |- context [StDev.authentication_gate inp ?w0] =>
    destruct (gate_expired inp w0 Hauth Hlast) as (w' & -> & Ha & Hu & Hui) end.
  exists w'. repeat split; try done.
  unfold StDev.run, StDev.script. rewrite bind_run.
  match goal with |- context [StDev.authentication_gate ?i ?w0] =>
    destruct (gate_logged_out i w0 Ha eq_refl) as (w'' & ->) end.
  done.
Qed.

Lemma session_without_activity_is_expired_witness :
  StDev.is_session_expired (mk_datetime 2025 3 14 9 26 53 0)
    (Session.mk_world {[ "authenticated" := VBool true; "username" := VStr "ana" ]} [] None [])
  = (Session.Done true,
     Session.mk_world {[ "authenticated" := VBool true; "username" := VStr "ana" ]} [] None []).
Proof.
  apply (session_without_activity_is_expired
           (StDev.mk_auth_inputs
              (Streamlit.mk_inputs None [] [] None "English" "Portuguese"
                 false false false false false None (λ _ _ _, Raises "offline"))
              (mk_datetime 2025 3 14 9 26 53 0) None "" "" false false)).
  vm_compute. reflexivity.
Defined.

(** ** The Gradio handlers *)

Section gradio.
Import Py Helpers Gradio.

Lemma call_gemini_asked env app box task :
  call_gemini (env_oracle env) (gtext (value (app api_key_state)))
    (gformat (value (app model_name_dd))) (gformat (value (app box))) task
  = if negb (truthy (gtext (value (app api_key_state)))) then GrError ErrInvalidApiKey
    else match Spec.asked env app box with
         | Returns t => Ok t
         | Raises e =>
             if contains "API_KEY_INVALID" e || contains "PERMISSION_DENIED" e
             then GrError ErrInvalidApiKey else GrError (ErrGemini e)
         end.
Proof. reflexivity. Qed.

(** A failed call: the handler raises, and an error is shown. *)
Lemma call_gemini_fails env app box task e :
  Spec.asked env app box = Raises e →
  ∃ n, call_gemini (env_oracle env) (gtext (value (app api_key_state)))
         (gformat (value (app model_name_dd))) (gformat (value (app box))) task
       = GrError n ∧ is_error n = true.
Proof.
  intros H. rewrite call_gemini_asked, H.
  destruct (truthy _); cbn [negb]; [|by eexists].
  destruct (_ || _); by eexists.
Qed.



End gradio.

(** ** The blocks of the Streamlit scripts when nothing is written *)

Section streamlit_blocks.
Import Py Helpers Session Streamlit Spec.

Lemma shown_nil w : shown w [] = w.
Proof. destruct w. unfold shown. cbn. by rewrite app_nil_r. Qed.

Lemma shown_shown w ns ns' : shown (shown w ns) ns' = shown w (ns ++ ns').
Proof. unfold shown. cbn. by rewrite app_assoc. Qed.

Lemma call_gemini_unavailable o e api_key prompt task :
  Spec.unavailable o e →
  call_gemini o api_key prompt task = (None, [Spec.gemini_error e]).
Proof.
  intros H. unfold call_gemini, Spec.gemini_error. rewrite H.
  by destruct (_ || _).
Qed.

Lemma gemini_error_is_error e : is_error (Spec.gemini_error e) = true.
Proof. unfold Spec.gemini_error. by destruct (_ || _). Qed.

Context (inp : Inputs) (w : World) (e : string).
Context (api_key gold source step_4' step_5' step_6' final : Val).
Context (Hkey : session_state w !! "api_key" = Some api_key).
Context (Hgold : session_state w !! "gold_standard_prompt" = Some gold).
Context (Hsource : session_state w !! "source_text" = Some source).
Context (H4 : session_state w !! "translation_step_4" = Some step_4').
Context (H5 : session_state w !! "translation_step_5" = Some step_5').
Context (H6 : session_state w !! "translation_step_6" = Some step_6').
Context (Hfinal : session_state w !! "final_text" = Some final).

Lemma step_4_no_write :
  truthy_val step_4' = true ∨ run_translation_button inp = false
    ∨ Spec.unavailable (oracle inp) e →
  ∃ ns, step_4 inp w = (Done (), shown w ns)
    ∧ (run_translation_button inp && negb (truthy_val step_4') = true →
       Spec.unavailable (oracle inp) e → Spec.gemini_error e ∈ ns).
Proof.
  intros Hcase. unfold step_4. do 2 script_step.
  destruct (truthy_val step_4') eqn:Ht4.
  - rewrite orb_true_r. cbn [when]. do 2 script_step. cbn [when negb].
    rewrite Ht4. cbn [when negb]. script_step.
    exists []. rewrite shown_nil. split; [done|].
    by rewrite andb_false_r.
  - rewrite orb_false_r. destruct (run_translation_button inp) eqn:Hb.
    + destruct Hcase as [?|[?|Ho]]; [done..|].
      cbn [when]. do 2 script_step. rewrite Ht4. cbn [when negb].
      do 8 script_step. rewrite (call_gemini_unavailable _ e) by done.
      cbn [fst snd truthy when]. script_step.
      exists [Spec.gemini_error e]. split; [done|].
      intros _ _. by apply list_elem_of_singleton.
    + cbn [when]. script_step. exists []. rewrite shown_nil. by split.
Qed.

Lemma step_5_no_write :
  manual_edit_widget inp = None →
  ask_edit_button inp = false ∨ Spec.unavailable (oracle inp) e →
  ∃ ns, step_5 inp w = (Done (), shown w ns)
    ∧ (ask_edit_button inp && truthy_val step_4' = true →
       Spec.unavailable (oracle inp) e → Spec.gemini_error e ∈ ns).
Proof.
  intros Hmanual Hcase. unfold step_5. do 2 script_step.
  destruct (truthy_val step_4') eqn:Ht4.
  - assert (∀ w', session_state w' = session_state w →
              (step_5 ← getattr "translation_step_5";
               step_4 ← getattr "translation_step_4";
               let default_text := or_val step_5 step_4 in
               let manual_edit := default default_text (VStr <$> manual_edit_widget inp) in
               when (bool_decide (manual_edit ≠ default_text)) (
                 setattr "translation_step_5" manual_edit;;
                 setattr "final_text" manual_edit;;
                 notify InfoManualEditSaved)) w' = (Done (), w')) as Hmanual_block.
    { intros w' Hw'. rewrite Hmanual.
      rewrite bind_run. erewrite getattr_run by (rewrite Hw'; eassumption).
      rewrite bind_run. erewrite getattr_run by (rewrite Hw'; eassumption).
      cbn [fmap option_fmap option_map default from_option id].
      rewrite bool_decide_eq_false_2 by (intros H; by apply H). done. }
    script_step. destruct (ask_edit_button inp) eqn:Hb.
    + destruct Hcase as [?|Ho]; [done|].
      cbn [when]. repeat script_step.
      rewrite (call_gemini_unavailable _ e) by done.
      cbn [fst snd truthy when]. script_step.
      rewrite Hmanual_block by done.
      exists [Spec.gemini_error e]. split; [done|].
      intros _ _. by apply list_elem_of_singleton.
    + cbn [when]. script_step. rewrite Hmanual_block by done.
      exists []. rewrite shown_nil. by split.
  - script_step. exists [WarnCompleteStep4]. split; [done|].
    by rewrite andb_false_r.
Qed.

Lemma step_6_no_write :
  ask_proofread_button inp = false ∨ Spec.unavailable (oracle inp) e →
  ∃ ns, step_6 inp w = (Done (), shown w ns)
    ∧ (ask_proofread_button inp && truthy_val (or_val step_5' step_4') = true →
       Spec.unavailable (oracle inp) e → Spec.gemini_error e ∈ ns).
Proof.
  intros Hcase. unfold step_6. do 4 script_step.
  destruct (truthy_val (or_val step_5' step_4')) eqn:Ht.
  - destruct (ask_proofread_button inp) eqn:Hb.
    + destruct Hcase as [?|Ho]; [done|].
      cbn [when]. repeat script_step.
      rewrite (call_gemini_unavailable _ e) by done.
      cbn [fst snd truthy when]. script_step.
      exists [Spec.gemini_error e]. split; [done|].
      intros _ _. by apply list_elem_of_singleton.
    + cbn [when]. script_step. exists []. rewrite shown_nil. by split.
  - script_step. exists [WarnCompleteStep4Or5]. split; [done|].
    by rewrite andb_false_r.
Qed.

Lemma steps_7_to_9_no_write file :
  ∃ ns, TranslationApp.steps_7_to_9 file w = (Done (), shown w ns).
Proof.
  unfold TranslationApp.steps_7_to_9, download_button. do 2 script_step.
  destruct (truthy_val final).
  - cbn [when]. repeat script_step. eexists. unfold shown. rewrite <- !app_assoc. reflexivity.
  - cbn [when]. script_step. exists []. by rewrite shown_nil.
Qed.

End streamlit_blocks.

Section streamlit_run.
Import Py Helpers Session Streamlit.
Import (notations) Spec.

Lemma prepared_inv w :
  Spec.prepared w = true →
  ∃ api_key gold source step_4' step_5' step_6' final,
    session_state w !! "project_started" = Some (VBool true)
    ∧ session_state w !! "api_key" = Some api_key ∧ truthy_val api_key = true
    ∧ session_state w !! "source_text" = Some source ∧ source ≠ VNone
    ∧ session_state w !! "gold_standard_prompt" = Some gold
    ∧ session_state w !! "translation_step_4" = Some step_4'
    ∧ session_state w !! "translation_step_5" = Some step_5'
    ∧ session_state w !! "translation_step_6" = Some step_6'
    ∧ session_state w !! "final_text" = Some final.
Proof.
  unfold Spec.prepared. rewrite !andb_true_iff, !bool_decide_eq_true.
  intros [[[[[[[Hs Hk] [[src Hsrc] Hne]] [g Hg]] [t4 H4]] [t5 H5]] [t6 H6]] [ft Hf]].
  destruct (session_state w !! "api_key") as [k|] eqn:Ek; [|done].
  exists k, g, src, t4, t5, t6, ft. repeat split; try done.
  intros ->. by rewrite Hsrc in Hne.
Qed.

(** A run over a prepared project in which no block writes: the session
    stays as it was. *)
Lemma run_no_write inp w e file :
  Spec.prepared w = true →
  source_file inp = Some file →
  archive_button inp = false →
  manual_edit_widget inp = None →
  (truthy_val (default VNone (session_state w !! "translation_step_4")) = true
     ∨ run_translation_button inp = false ∨ Spec.unavailable (oracle inp) e) →
  (ask_edit_button inp = false ∨ Spec.unavailable (oracle inp) e) →
  (ask_proofread_button inp = false ∨ Spec.unavailable (oracle inp) e) →
  ∃ ns, TranslationApp.run inp w =
          (Done (), mk_world (session_state w) ns (log_file w)
                      (journal w ++ [Assigned "project_started" (VBool true)]))
    ∧ (Spec.oracle_invoked inp w = true → Spec.unavailable (oracle inp) e →
       Spec.gemini_error e ∈ ns).
Proof.
  intros (k & g & src & t4 & t5 & t6 & ft & Hs & Hk & Hkt & Hsrc & Hne & Hg & H4 & H5 & H6 & Hf)%prepared_inv
    Hfile Harchive Hmanual Hc4 Hc5 Hc6.
  unfold Spec.oracle_invoked. rewrite H4, H5 in *. cbn [default from_option id] in *.
  unfold TranslationApp.run, TranslationApp.script, init_project,
    sidebar_configuration, check_and_start, step_2, step_3, TranslationApp.step_10.
  rewrite Hfile, Harchive.
  repeat script_step. rewrite Hkt. repeat script_step.
  rewrite orb_true_r. cbn [when].
  repeat script_step. rewrite Hkt. cbn [when negb]. repeat script_step.
  rewrite (insert_id (session_state w) "project_started") by done.
  repeat script_step.
  rewrite (bool_decide_eq_false_2 (src = VNone)) by done. cbn [when].
  repeat script_step.
  match goal with |- context [step_4 inp ?w0] =>
    destruct (step_4_no_write inp w0 e k g src t4 Hk Hg Hsrc H4 Hc4) as (ns4 & -> & He4)
  end.
  unfold Spec.shown. repeat script_step.
  match goal with |- context [step_5 inp ?w0] =>
    destruct (step_5_no_write inp w0 e k g src t4 t5 Hk Hg Hsrc H4 H5 Hmanual Hc5)
      as (ns5 & -> & He5)
  end.
  unfold Spec.shown. repeat script_step.
  match goal with |- context [step_6 inp ?w0] =>
    destruct (step_6_no_write inp w0 e k t4 t5 Hk H4 H5 Hc6) as (ns6 & -> & He6)
  end.
  unfold Spec.shown. repeat script_step.
  match goal with |- context [TranslationApp.steps_7_to_9 file ?w0] =>
    destruct (steps_7_to_9_no_write w0 ft Hf file) as (ns7 & ->)
  end.
  unfold Spec.shown. repeat script_step.
  eexists. split; [reflexivity|].
  intros Hinv Ho. cbn [app].
  rewrite !elem_of_cons, !elem_of_app.
  apply orb_true_iff in Hinv as [[Hi|Hi]%orb_true_iff|Hi]; auto 10.
Qed.

End streamlit_run.

(** ** [final_text] mirrors the artifact written last (Streamlit) *)

Section latest.
Import Py Helpers Session Streamlit.

Lemma latest_artifact_app j1 : ∀ seen j2,
  Spec.latest_artifact seen (j1 ++ j2)
  = Spec.latest_artifact (Spec.latest_artifact seen j1) j2.
Proof.
  induction j1 as [|mu j1 IH]; intros seen j2; [done|].
  destruct mu; cbn [app Spec.latest_artifact]; by rewrite IH.
Qed.

Lemma latest_artifact_snoc_other seen j key v :
  key ∉ Spec.artifact_keys →
  Spec.latest_artifact seen (j ++ [Assigned key v]) = Spec.latest_artifact seen j.
Proof.
  intros Hkey. rewrite latest_artifact_app. cbn [Spec.latest_artifact].
  by rewrite bool_decide_eq_false_2.
Qed.

Lemma artifact_key_4 : "translation_step_4" ∈ Spec.artifact_keys.
Proof. unfold Spec.artifact_keys. rewrite !elem_of_cons. auto. Qed.
Lemma artifact_key_5 : "translation_step_5" ∈ Spec.artifact_keys.
Proof. unfold Spec.artifact_keys. rewrite !elem_of_cons. auto. Qed.
Lemma artifact_key_6 : "translation_step_6" ∈ Spec.artifact_keys.
Proof. unfold Spec.artifact_keys. rewrite !elem_of_cons. auto. Qed.

Lemma not_artifact_key key :
  key ≠ "translation_step_4" → key ≠ "translation_step_5" →
  key ≠ "translation_step_6" → key ∉ Spec.artifact_keys.
Proof.
  intros ???. unfold Spec.artifact_keys. rewrite !elem_of_cons, elem_of_nil. tauto.
Qed.

Lemma preserves_bind {A B} (m : Script A) (f : A → Script B) :
  Spec.preserves m → (∀ a, Spec.preserves (f a)) → Spec.preserves (m ≫= f).
Proof.
  intros Hm Hf w Hw. rewrite bind_run. specialize (Hm w Hw).
  destruct (m w) as [[a| | |k|] w']; cbn [snd] in *; try done.
  by apply Hf.
Qed.

Lemma preserves_ret {A} (a : A) : Spec.preserves (mret a).
Proof. by intros w Hw. Qed.
Lemma preserves_notify n : Spec.preserves (notify n).
Proof. by intros w Hw. Qed.
Lemma preserves_showing {A} (r : A * list Notice) : Spec.preserves (showing r).
Proof. by intros w Hw. Qed.
Lemma preserves_getattr key : Spec.preserves (getattr key).
Proof. intros w Hw. unfold getattr. by destruct (session_state w !! key). Qed.
Lemma preserves_has key : Spec.preserves (has key).
Proof. by intros w Hw. Qed.
Lemma preserves_stop {A} : Spec.preserves (@stop A).
Proof. by intros w Hw. Qed.
Lemma preserves_rerun {A} : Spec.preserves (@rerun A).
Proof. by intros w Hw. Qed.

Lemma preserves_when b m : Spec.preserves m → Spec.preserves (when b m).
Proof. intros Hm. destruct b; [done|apply preserves_ret]. Qed.

Lemma preserves_setattr key v :
  key ≠ "final_text" → key ∉ Spec.artifact_keys → Spec.preserves (setattr key v).
Proof.
  intros Hne Hkey w Hw. unfold Spec.final_text_is_latest in *.
  cbn [setattr snd session_state journal].
  by rewrite lookup_insert_ne, latest_artifact_snoc_other.
Qed.

(** An artifact and [final_text] are assigned the same text, one after the
    other. *)
Lemma preserves_write {A} key v (k : Script A) :
  key ∈ Spec.artifact_keys → Spec.preserves k →
  Spec.preserves (setattr key v;; setattr "final_text" v;; k).
Proof.
  intros Hkey Hk w Hw. do 4 script_step. apply Hk.
  unfold Spec.final_text_is_latest. cbn [session_state journal].
  rewrite lookup_insert_eq, !latest_artifact_app. cbn [Spec.latest_artifact].
  destruct (bool_decide ("final_text" ∈ Spec.artifact_keys)); [done|].
  by rewrite bool_decide_eq_true_2.
Qed.

Lemma preserves_delete_all keep :
  "final_text" ∉ keep → Spec.preserves (delete_all_but keep).
Proof.
  intros Hkeep w Hw. unfold Spec.final_text_is_latest.
  cbn [delete_all_but snd session_state journal].
  rewrite latest_artifact_app. cbn [Spec.latest_artifact].
  apply map_lookup_filter_None. right. by intros x _.
Qed.

Lemma preserves_init inp : Spec.preserves (init_project inp).
Proof.
  unfold init_project. apply preserves_bind; [apply preserves_has|].
  intros started. apply preserves_when. intros w Hw.
  repeat script_step. unfold Spec.final_text_is_latest.
  cbn [snd session_state journal].
  rewrite lookup_insert_eq, !latest_artifact_app. done.
Qed.

End latest.

(** Splits a script along its binds. *)
Ltac preserves_step :=
  first
    [ apply preserves_write; [first [apply artifact_key_4 | apply artifact_key_5 | apply artifact_key_6]|]
    | apply preserves_bind; [|intros ?]
    | apply preserves_when
    | apply preserves_ret | apply preserves_notify | apply preserves_showing
    | apply preserves_getattr | apply preserves_has
    | apply preserves_stop | apply preserves_rerun
    | apply preserves_setattr; [done|by apply not_artifact_key]
    | apply preserves_delete_all; by apply not_elem_of_nil
    | match goal with |- Spec.preserves (if ?b then _ else _) => destruct b end
    | match goal with |- Spec.preserves (match ?o with Some _ => _ | None => _ end) => destruct o end ].

Section latest_run.
Import Py Helpers Session Streamlit.




End latest_run.

(** ** The claims on the workflow *)

Section gradio_claims.
Import Py Helpers Gradio.

(** A failed call leaves every component as it was and shows an error. *)
Lemma fire_oracle_failure env ev app box e :
  Spec.prompt_box ev = Some box →
  Spec.asked env app box = Raises e →
  ∃ n, fire env ev app = (app, [n]) ∧ is_error n = true.
Proof.
  intros Hbox Hasked.
  destruct ev; try discriminate Hbox; injection Hbox as <-;
    unfold fire; cbn [before handle];
    unfold run_step_4, run_step_5_ai, run_step_6;
    rewrite call_gemini_asked, Hasked;
    (destruct (truthy _); cbn [negb]; [destruct (_ || _)|]); by eexists.
Qed.







Lemma apply_updates_frame us : ∀ app c,
  c ∉ us.*1 → apply_updates us app c = app c.
Proof.
  induction us as [|[c' u] us IH]; intros app c Hc; [done|].
  cbn [apply_updates]. rewrite fmap_cons, not_elem_of_cons in Hc.
  destruct Hc as [Hne Hc]. rewrite IH by done.
  by apply fn_lookup_insert_ne.
Qed.

Lemma start_project_components env source en pt sl tl updates toasts :
  start_project env source en pt sl tl = Return updates toasts →
  updates.*1 = outputs start_button_click.
Proof.
  unfold start_project. intros Hstart.
  repeat match type of Hstart with
         | (if ?b then _ else _) = _ => destruct b
         | match ?r with Ok _ => _ | GrError _ => _ end = _ => destruct r
         | (let (_, _) := ?p in _) = _ => destruct p
         end; try discriminate Hstart.
  injection Hstart as <- <-. reflexivity.
Qed.



End gradio_claims.

Section streamlit_claims.
Import Py Helpers Session Streamlit.




End streamlit_claims.

Section st_dev_claims.
Import Py Helpers Session Streamlit StDev.

(** The archive button of [app_st_dev.py]. *)
Lemma step_10_archive inp w user api_key authenticated last_activity :
  session_state w !! "username" = Some user →
  session_state w !! "api_key" = Some api_key →
  session_state w !! "authenticated" = Some authenticated →
  session_state w !! "last_activity" = Some last_activity →
  archive_button (workflow inp) = true →
  ∃ w', step_10 inp w = (Rerun, w')
    ∧ session_state w' =
        <["project_started" := VBool false]>
          (filter (λ kv, kv.1 ∈ ["api_key"; "username"; "authenticated"; "last_activity"])
                  (session_state w)).
Proof.
  intros Hu Hk Ha Hl Hb. unfold step_10. rewrite Hb. cbn [when].
  do 4 script_step. unfold log_event at 1. cbn [session_state ui log_file journal].
  repeat script_step. unfold rerun. by eexists.
Qed.

Lemma lookup_archived (m : gmap string Val) key :
  (<["project_started" := VBool false]>
     (filter (λ kv : string * Val,
                kv.1 ∈ ["api_key"; "username"; "authenticated"; "last_activity"]) m)) !! key
  = if bool_decide (key = "project_started") then Some (VBool false)
    else if bool_decide (key ∈ ["api_key"; "username"; "authenticated"; "last_activity"])
         then m !! key else None.
Proof.
  case_bool_decide as Hkey.
  - subst. apply lookup_insert_eq.
  - rewrite lookup_insert_ne by done. case_bool_decide as Hin.
    + destruct (m !! key) as [v|] eqn:E.
      * by apply map_lookup_filter_Some.
      * apply map_lookup_filter_None. by left.
    + apply map_lookup_filter_None. right. by intros x _.
Qed.

End st_dev_claims.









(** C6: a failed call of the model changes nothing.  In [translation_app.py],
    with the model unreachable, a run over a prepared project (no manual edit
    pending, no archive) ends normally with the session dictionary and the
    log as they were, and shows the error of [call_gemini] when a pressed
    button reached the model.  In [app_gradio.py], when the request of a
    translate, review or proofread button raises, the event leaves every
    component as it was and shows one error; firing the event again is
    firing it on the state before. *)
Theorem oracle_failure_leaves_state
    (inp : Streamlit.Inputs) (w : Session.World) (file : UploadedFile) (e : string)
    (env env' : Gradio.Env) (ev : Gradio.Event) (app : Gradio.App) (box : Gradio.Component)
    (Hprepared : Spec.prepared w = true)
    (Hfile : Streamlit.source_file inp = Some file)
    (Harchive : Streamlit.archive_button inp = false)
    (Hmanual : Streamlit.manual_edit_widget inp = None)
    (Hdown : Spec.unavailable (Streamlit.oracle inp) e)
    (Hbox : Spec.prompt_box ev = Some box)
    (Hasked : Spec.asked env app box = Raises e) :
  (∃ ns, TranslationApp.run inp w =
           (Session.Done (),
            Session.mk_world (Session.session_state w) ns (Session.log_file w)
              (Session.journal w ++ [Session.Assigned "project_started" (VBool true)]))
         ∧ (Spec.oracle_invoked inp w = true →
            Spec.gemini_error e ∈ ns ∧ is_error (Spec.gemini_error e) = true))
  ∧ (∃ n, Gradio.fire env ev app = (app, [n]) ∧ is_error n = true)
  ∧ Gradio.fire env' ev (Gradio.fire env ev app).1 = Gradio.fire env' ev app.
Proof.
  split; [|split].
  - destruct (run_no_write inp w e file) as (ns & -> & Herr); auto.
    exists ns. split; [done|]. intros Hinv. split; [auto|].
    apply gemini_error_is_error.
  - by eapply fire_oracle_failure.
  - destruct (fire_oracle_failure env ev app box e Hbox Hasked) as (n & -> & _). done.
Qed.

Lemma oracle_failure_leaves_state_witness :
  (∃ ns, TranslationApp.run
           (Samples.press Samples.report false false true false false Samples.down)
           Samples.translated
         = (Session.Done (),
            Session.mk_world (Session.session_state Samples.translated) ns None
              (Session.journal Samples.translated
                 ++ [Session.Assigned "project_started" (VBool true)]))
         ∧ ErrGemini "503 UNAVAILABLE" ∈ ns)
  ∧ Gradio.fire (Samples.gradio_env Samples.down) Gradio.step_4_button_click
      Samples.gradio_started
    = (Samples.gradio_started, [ErrGemini "503 UNAVAILABLE"]).
Proof.
  destruct (oracle_failure_leaves_state
    (Samples.press Samples.report false false true false false Samples.down)
    Samples.translated Samples.report "503 UNAVAILABLE"
    (Samples.gradio_env Samples.down) (Samples.gradio_env Samples.down)
    Gradio.step_4_button_click Samples.gradio_started Gradio.step_4_prompt_text
    ltac:(vm_compute; reflexivity) eq_refl eq_refl eq_refl
    ltac:(intros ???; reflexivity) eq_refl ltac:(vm_compute; reflexivity))
    as ((ns & Hrun & Herr) & _ & _).
  split.
  - exists ns. split; [exact Hrun|]. exact (proj1 (Herr ltac:(vm_compute; reflexivity))).
  - vm_compute. reflexivity.
Defined.




(** In [app_st_dev.py] the archive sets [project_started] again, so the block
    that initialises the project is skipped in the next runs; the next
    [StartProject] then reads [source_text], which is gone, and the script
    ends in an [AttributeError]. *)
Lemma st_dev_start_after_archive_raises :
  let archive := Samples.auth (Samples.press Samples.report false false false false true
                                 Samples.down) in
  let start := Samples.auth (Samples.press Samples.report true false false false false
                               Samples.down) in
  let archived := StDev.interact 1 archive Samples.logged_in in
  archived.1 = Session.Done ()
  ∧ (StDev.run start archived.2).1 = Session.AttributeError "source_text".
Proof. vm_compute. split; reflexivity. Qed.

(** In [translation_app.py] the archive deletes every key and restores the
    key of the model; the rerun initialises the project again. *)
Lemma translation_app_archive_restarts :
  let archive := Samples.press Samples.report false false false false true Samples.down in
  Session.session_state (TranslationApp.interact 1 archive Samples.translated).2
  = Session.session_state Samples.opened.
Proof. vm_compute. reflexivity. Qed.

(* ===================================================================== *)
(** * Part III: further properties of the code *)
(* ===================================================================== *)

(** ** More about the readers and the writer *)

Section readers.
Import Py Helpers.

Lemma docx_text_app text paras :
  docx_text text paras = text +:+ docx_text "" paras.
Proof.
  revert text. induction paras as [|p paras IH]; intros text; cbn [docx_text].
  - by rewrite app_empty_r.
  - rewrite IH, (IH ("" +:+ p +:+ nl)), app_empty_l, !app_assoc_s. done.
Qed.

Lemma docx_text_split t : docx_text "" (split_char LF t) = t +:+ nl.
Proof.
  induction t as [|c t IH].
  - reflexivity.
  - rewrite split_char_cons. destruct (decide (c = LF)) as [->|Hc].
    + cbn [docx_text]. rewrite docx_text_app, IH. reflexivity.
    + destruct (split_char LF t) as [|p ps] eqn:E; [by destruct (split_char_not_nil LF t)|].
      cbn [docx_text] in *. rewrite docx_text_app in IH. rewrite docx_text_app.
      rewrite !app_empty_l in *. rewrite !app_cons. f_equal. exact IH.
Qed.

Lemma split_char_app_sep sep p s :
  Spec.occurs sep p = false →
  split_char sep (p +:+ String sep s) = p :: split_char sep s.
Proof.
  induction p as [|c p IH]; intros Hp.
  - rewrite app_empty_l, split_char_cons. by rewrite decide_True.
  - rewrite occurs_cons in Hp. apply orb_false_iff in Hp as [Hc Hp].
    apply bool_decide_eq_false in Hc.
    rewrite app_cons, split_char_cons, decide_False by done. by rewrite IH.
Qed.

Lemma split_char_docx_text paras :
  Forall (λ p, Spec.occurs LF p = false) paras →
  split_char LF (docx_text "" paras) = paras ++ [""].
Proof.
  induction 1 as [|p paras Hp _ IH]; [reflexivity|].
  cbn [docx_text]. rewrite docx_text_app, app_empty_l, app_assoc_s.
  unfold nl. rewrite app_cons, app_empty_l, split_char_app_sep by done.
  by rewrite IH.
Qed.

Lemma pdf_text_app text pages :
  pdf_text text pages = text +:+ pdf_text "" pages.
Proof.
  revert text. induction pages as [|p pages IH]; intros text; cbn [pdf_text].
  - by rewrite app_empty_r.
  - destruct (truthy p); [|done].
    rewrite IH, (IH ("" +:+ _ +:+ nl)), app_empty_l, !app_assoc_s. done.
Qed.

Lemma pdf_text_docx_text text pages :
  pdf_text text pages
  = docx_text text (omap (λ p, if truthy p then p else None) pages).
Proof.
  revert text. induction pages as [|p pages IH]; intros text; [done|].
  cbn [pdf_text omap list_omap]. destruct p as [[|c s]|]; cbn [truthy nonempty];
    first [done | cbn [docx_text from_option]; unfold id; apply IH].
Qed.

Lemma count_split sep t :
  length (split_char sep t) = S (Notions.count_char sep t).
Proof.
  induction t as [|c t IH]; [done|].
  rewrite split_char_cons. cbn [Notions.count_char].
  destruct (decide (c = sep)) as [->|Hc].
  - rewrite bool_decide_eq_true_2 by done. cbn [length]. by rewrite IH.
  - rewrite bool_decide_eq_false_2 by done.
    destruct (split_char sep t); cbn [length] in *; [done|lia].
Qed.

Lemma blocks_all_kept (g : nat → option string * option string → string) pairs :
  Forall (λ pair, Spec.both pair = true) pairs →
  imap (λ i pair, if Spec.both pair then g i pair else "") pairs
  = imap g (filter (λ pair, Spec.both pair) pairs).
Proof.
  intros H. revert g. induction H as [|pair pairs Hp _ IH]; intros g; [done|].
  rewrite filter_cons_True by (by rewrite Hp). cbn [imap]. rewrite Hp. f_equal.
  apply (IH (g ∘ S)).
Qed.

Lemma blocks_consecutive pairs :
  Forall (λ pair, Spec.both pair = true) pairs →
  Spec.concat_strings
    (imap (λ j pair, if Spec.both pair then Spec.block_of (0 + j + 1) pair else "") pairs)
  = Spec.consecutive_blocks pairs.
Proof.
  intros H. unfold Spec.consecutive_blocks. f_equal.
  rewrite <- (blocks_all_kept (λ k pair, Spec.block_of (k + 1) pair)) by done.
  apply imap_ext. intros i pair _. cbn. by destruct (Spec.both pair).
Qed.

Lemma blocks_none_kept (g : nat → option string * option string → string) pairs :
  Forall (λ pair, Spec.both pair = false) pairs →
  Spec.concat_strings (imap (λ i pair, if Spec.both pair then g i pair else "") pairs) = "".
Proof.
  intros H. revert g. induction H as [|pair pairs Hp _ IH]; intros g; [done|].
  cbn [imap Spec.concat_strings foldr]. rewrite Hp, app_empty_l. apply (IH (g ∘ S)).
Qed.

Lemma read_file_cases f :
  (∃ t, Streamlit.read_file f = (Some t, []))
  ∨ (∃ n, Streamlit.read_file f = (None, [n]) ∧ is_error n = true).
Proof.
  unfold Streamlit.read_file.
  repeat match goal with
  | |- context [if ?b then _ else _] => destruct b
  | |- context [match ?r with Returns _ => _ | Raises _ => _ end] => destruct r
  end; eauto.
Qed.

End readers.

(** ** [os.path.splitext] *)

Section splitext_lemmas.
Import Py Helpers.

Lemma rev_app_app s : ∀ t u, String.rev_app s t +:+ u = String.rev_app s (t +:+ u).
Proof. induction s as [|c s IH]; intros t u; cbn [String.rev_app]; [done|]. by rewrite IH, app_cons. Qed.

Lemma rev_app_rev s : ∀ t, String.rev_app s t = String.rev s +:+ t.
Proof. intros t. unfold String.rev. by rewrite rev_app_app, app_empty_l. Qed.

Lemma rev_cons c s : String.rev (String c s) = String.rev s +:+ String c "".
Proof. unfold String.rev at 1. cbn [String.rev_app]. apply rev_app_rev. Qed.

Lemma rev_app_s s t : String.rev (s +:+ t) = String.rev t +:+ String.rev s.
Proof.
  induction s as [|c s IH].
  - by rewrite app_empty_l, app_empty_r.
  - by rewrite app_cons, !rev_cons, IH, app_assoc_s.
Qed.

Lemma rev_length s : String.length (String.rev s) = String.length s.
Proof.
  induction s as [|c s IH]; [done|].
  rewrite rev_cons, length_app_s, IH. cbn [String.length]. lia.
Qed.

Lemma rev_involutive s : String.rev (String.rev s) = s.
Proof.
  induction s as [|c s IH]; [done|].
  by rewrite rev_cons, rev_app_s, IH.
Qed.

Lemma basename_suffix p : ∃ dir, p = dir +:+ basename p.
Proof.
  induction p as [|c p [dir IH]]; [by exists ""|].
  cbn [basename]. destruct (contains "/" (String c p)).
  - exists (String c dir). by rewrite app_cons, <- IH.
  - by exists "".
Qed.

Lemma splitext_go_join s : ∀ seen root ext,
  splitext_go seen s = Some (root, ext) →
  root +:+ ext = s ∧ startswith "." ext = true.
Proof.
  induction s as [|c s IH]; intros seen root ext; cbn [splitext_go]; [done|].
  destruct (splitext_go (seen || negb (bool_decide (c = "."%char))) s) as [[r e]|] eqn:E.
  - intros [= <- <-]. destruct (IH _ _ _ E) as [<- ?]. by rewrite app_cons.
  - destruct (bool_decide (c = "."%char)) eqn:Hc; cbn [andb]; [|done].
    destruct seen; [|done]. intros [= <- <-].
    apply bool_decide_eq_true in Hc as ->. split; [by rewrite app_empty_l|done].
Qed.

Lemma splitext_join p : (splitext p).1 +:+ (splitext p).2 = p.
Proof.
  unfold splitext. destruct (basename_suffix p) as [dir Hp].
  destruct (splitext_go false (basename p)) as [[root ext]|] eqn:E; cbn [fst snd].
  - destruct (splitext_go_join _ _ _ _ E) as [Hjoin _].
    rewrite Hp at 2. rewrite rev_app_s, <- (rev_length (basename p)), drop_app, rev_involutive.
    rewrite app_assoc_s, Hjoin. done.
  - by rewrite app_empty_r.
Qed.

End splitext_lemmas.

(** X1 ([read_file], Streamlit): a read gives the text and shows nothing,
    or gives [None] and shows exactly one notice, an error; a type that is
    none of the three (and a name without [.docx]) is reported as
    unsupported, whatever the file holds. *)
Theorem streamlit_read_file_text_or_error (f : UploadedFile) :
  ((∃ t, Streamlit.read_file f = (Some t, []))
   ∨ (∃ n, Streamlit.read_file f = (None, [n]) ∧ is_error n = true))
  ∧ (file_type f ≠ "text/plain" → file_type f ≠ "application/pdf" →
     file_type f ≠ Helpers.docx_mime → Py.endswith ".docx" (file_name f) = false →
     Streamlit.read_file f = (None, [ErrUnsupportedFormat (file_type f) (file_name f)])).
Proof.
  split; [apply read_file_cases|].
  intros H1 H2 H3 H4. unfold Streamlit.read_file.
  by rewrite !bool_decide_eq_false_2, H4 by done.
Qed.

Lemma streamlit_read_file_text_or_error_witness :
  Streamlit.read_file (mk_file "scan.png" "image/png" (Raises "") (Raises "") (Raises ""))
  = (None, [ErrUnsupportedFormat "image/png" "scan.png"]).
Proof.
  apply (streamlit_read_file_text_or_error
           (mk_file "scan.png" "image/png" (Raises "") (Raises "") (Raises ""))); done.
Defined.

(** X2 ([create_word_document] and [read_file]): a document written by
    [create_word_document] from the text [t] and uploaded again as DOCX
    reads as [t] with one more line feed, and writing that text gives the
    paragraphs of [t] and one more, empty. *)
Theorem docx_download_upload_roundtrip (f : UploadedFile) (t : string)
    (Htype : file_type f = Helpers.docx_mime)
    (Hdoc : docx_paragraphs f = Returns (Streamlit.create_word_document t)) :
  Streamlit.read_file f = (Some (t +:+ Py.nl), [])
  ∧ Streamlit.create_word_document (t +:+ Py.nl) = Streamlit.create_word_document t ++ [""].
Proof.
  split.
  - unfold Streamlit.read_file. rewrite Htype, Hdoc.
    rewrite !bool_decide_eq_false_2 by done. rewrite bool_decide_eq_true_2 by done.
    cbn [orb]. rewrite create_word_document_split, docx_text_split. done.
  - rewrite !create_word_document_split, <- (docx_text_split t).
    apply split_char_docx_text, split_char_free.
Qed.

Lemma docx_download_upload_roundtrip_witness :
  Streamlit.read_file (MoreSamples.docx "translated_report.docx" ["Ola"; ""; "mundo"])
  = (Some ("Ola" +:+ Py.nl +:+ Py.nl +:+ "mundo" +:+ Py.nl), [])
  ∧ Streamlit.create_word_document ("Ola" +:+ Py.nl +:+ Py.nl +:+ "mundo" +:+ Py.nl)
    = ["Ola"; ""; "mundo"; ""].
Proof.
  apply (docx_download_upload_roundtrip
           (MoreSamples.docx "translated_report.docx" ["Ola"; ""; "mundo"])
           ("Ola" +:+ Py.nl +:+ Py.nl +:+ "mundo")); reflexivity.
Defined.

(** X3 ([read_file], PDF): the pages without text are left out and every
    other page is followed by a line feed, as the paragraphs of a DOCX are;
    a PDF none of whose pages has text reads as the empty text, with no
    notice. *)
Theorem pdf_pages_without_text (f : UploadedFile) (pages : list (option string))
    (Htype : file_type f = "application/pdf")
    (Hpages : pdf_pages f = Returns pages) :
  Streamlit.read_file f
  = (Some (Helpers.docx_text "" (omap (λ p, if Py.truthy p then p else None) pages)), [])
  ∧ (Forall (λ p, Py.truthy p = false) pages → Streamlit.read_file f = (Some "", [])).
Proof.
  assert (Streamlit.read_file f = (Some (Helpers.pdf_text "" pages), [])) as Hread.
  { unfold Streamlit.read_file. rewrite Htype, Hpages.
    rewrite bool_decide_eq_false_2 by done. by rewrite bool_decide_eq_true_2 by done. }
  rewrite Hread. split; [by rewrite pdf_text_docx_text|].
  intros Hall. do 2 f_equal. clear -Hall. induction Hall as [|p ps Hp _ IH]; [done|].
  cbn [Helpers.pdf_text]. rewrite Hp. exact IH.
Qed.

Lemma pdf_pages_without_text_witness :
  Streamlit.read_file
    (mk_file "scan.pdf" "application/pdf" (Raises "") (Returns [None; Some ""; None]) (Raises ""))
  = (Some "", []).
Proof.
  apply (pdf_pages_without_text
           (mk_file "scan.pdf" "application/pdf" (Raises "") (Returns [None; Some ""; None])
              (Raises ""))
           [None; Some ""; None]); [reflexivity|reflexivity|].
  repeat constructor.
Defined.

(** X4 ([build_gold_standard_prompt]): when both lists are non-empty and
    both texts of every zipped pair are read and not empty, the examples
    are numbered 1, 2, 3, ... in a row.  For the Streamlit helper the texts
    are those its own reader gives; for the Gradio helper they are those of
    the Gradio reader, which must read every file of the pairs. *)
Theorem build_gold_standard_prompt_all_kept
    (en_files pt_files : list UploadedFile)
    (Hen : en_files ≠ []) (Hpt : pt_files ≠ []) :
  (Forall (λ pair, Spec.both pair = true) (Spec.streamlit_texts (zip en_files pt_files)) →
   (Streamlit.build_gold_standard_prompt en_files pt_files).1
   = Helpers.gold_header
     +:+ Spec.consecutive_blocks (Spec.streamlit_texts (zip en_files pt_files)))
  ∧ (Forall (λ p, Spec.gradio_readable p.1 && Spec.gradio_readable p.2 = true)
            (zip en_files pt_files) →
     Forall (λ pair, Spec.both pair = true) (Spec.gradio_texts (zip en_files pt_files)) →
     (Gradio.build_gold_standard_prompt (Some en_files) (Some pt_files)).2
     = Gradio.Ok (Helpers.gold_header
                  +:+ Spec.consecutive_blocks (Spec.gradio_texts (zip en_files pt_files)))).
Proof.
  split.
  - intros Hst. unfold Streamlit.build_gold_standard_prompt.
    rewrite !bool_decide_eq_false_2 by done. cbn [orb].
    rewrite streamlit_gold_loop. cbn [fst]. by rewrite blocks_consecutive.
  - intros Hreadable Hgr. unfold Gradio.build_gold_standard_prompt.
    cbn [from_option]. unfold id.
    rewrite !bool_decide_eq_false_2 by done. cbn [orb snd].
    rewrite gradio_gold_loop by done. by rewrite blocks_consecutive.
Qed.

Lemma build_gold_standard_prompt_all_kept_witness :
  (Streamlit.build_gold_standard_prompt
     [Samples.txt "a.txt" "Good morning"; Samples.txt "REPORT.TXT" "Bye"]
     [Samples.txt "x.txt" "Bom dia"; Samples.txt "y.txt" "Adeus"]).1
  = Helpers.gold_header +:+ Helpers.gold_block 1 "Good morning" "Bom dia"
    +:+ Helpers.gold_block 2 "Bye" "Adeus".
Proof.
  refine (eq_trans
    (proj1 (build_gold_standard_prompt_all_kept
       [Samples.txt "a.txt" "Good morning"; Samples.txt "REPORT.TXT" "Bye"]
       [Samples.txt "x.txt" "Bom dia"; Samples.txt "y.txt" "Adeus"] _ _) _) _);
    try done; try (repeat constructor); reflexivity.
Defined.

(** X5 ([build_gold_standard_prompt]): when files were given on both sides
    but no pair has two texts that are not empty, the prompt is the heading
    alone; it is not empty, so the page still tells that gold standard
    samples were loaded. *)
Theorem build_gold_standard_prompt_header_only
    (en_files pt_files : list UploadedFile)
    (Hen : en_files ≠ []) (Hpt : pt_files ≠ [])
    (Hnone : Forall (λ pair, Spec.both pair = false)
               (Spec.streamlit_texts (zip en_files pt_files))) :
  (Streamlit.build_gold_standard_prompt en_files pt_files).1 = Helpers.gold_header
  ∧ Session.truthy_val (VStr (Streamlit.build_gold_standard_prompt en_files pt_files).1) = true.
Proof.
  assert ((Streamlit.build_gold_standard_prompt en_files pt_files).1 = Helpers.gold_header)
    as ->; [|done].
  unfold Streamlit.build_gold_standard_prompt.
  rewrite !bool_decide_eq_false_2 by done. cbn [orb].
  rewrite streamlit_gold_loop. cbn [fst].
  rewrite (blocks_none_kept (λ j pair, Spec.block_of (0 + j + 1) pair)) by done.
  apply app_empty_r.
Qed.

Lemma build_gold_standard_prompt_header_only_witness :
  (Streamlit.build_gold_standard_prompt
     [Samples.txt "a.txt" ""] [Samples.txt "x.txt" "Bom dia"]).1 = Helpers.gold_header.
Proof.
  apply (build_gold_standard_prompt_header_only
           [Samples.txt "a.txt" ""] [Samples.txt "x.txt" "Bom dia"]); try done.
  repeat constructor.
Defined.

(** X6 ([create_word_document]): the document has one paragraph more than
    the text has line feeds, and joining the paragraphs with line feeds
    gives the text back. *)
Theorem create_word_document_paragraphs (t : string) :
  length (Streamlit.create_word_document t) = S (Notions.count_char Py.LF t)
  ∧ Py.join Py.nl (Streamlit.create_word_document t) = t.
Proof.
  rewrite create_word_document_split. split; [apply count_split|apply join_split].
Qed.

(** X7 ([os.path.splitext], as the download name uses it): the root and the
    extension put together are the path, and an extension that is not
    empty starts with a dot. *)
Theorem splitext_root_ext (p : string) :
  (Helpers.splitext p).1 +:+ (Helpers.splitext p).2 = p
  ∧ ((Helpers.splitext p).2 = "" ∨ Py.startswith "." (Helpers.splitext p).2 = true).
Proof.
  split; [apply splitext_join|].
  unfold Helpers.splitext.
  destruct (Helpers.splitext_go false (Helpers.basename p)) as [[root ext]|] eqn:E;
    cbn [snd]; [|by left].
  right. by destruct (splitext_go_join _ _ _ _ E).
Qed.
(** ** More about the gate of [app_st_dev.py] *)

Section gate.
Import Py Session Streamlit StDev.

Lemma log_event_run now u e w :
  log_event now u e w =
    (Done (), mk_world (session_state w) (ui w)
                (Some (default "" (log_file w) +:+ log_line now u e)) (journal w)).
Proof. reflexivity. Qed.

Ltac script_run :=
  repeat first [ rewrite log_event_run; cbn iota beta | script_step ].

Lemma cleared_empty (m : gmap string Val) :
  filter (λ kv : string * Val, kv.1 ∈ @nil string) m = ∅.
Proof. apply map_eq. intros k. by rewrite lookup_cleared, lookup_empty. Qed.

Lemma is_session_expired_run now t w :
  session_state w !! "last_activity" = Some (VTime t) →
  is_session_expired now w =
    (Done (bool_decide (Notions.elapsed now t > SESSION_TIMEOUT_MIN * 60 * 1000000)%Z), w).
Proof.
  intros H. unfold is_session_expired.
  script_run. reflexivity.
Qed.

Lemma logout_world inp w :
  ∃ w', logout inp w = (Rerun, w')
    ∧ session_state w'
      = Notions.logged_out_session (default VNone (session_state w !! "api_key"))
    ∧ ui w' = ui w ++ [OkLoggedOut]
    ∧ log_file w'
      = match session_state w !! "username" with
        | Some u => Some (default "" (log_file w)
                          +:+ log_line (now inp) (format u) "Logged out")
        | None => log_file w
        end.
Proof.
  unfold logout, Notions.logged_out_session.
  destruct (session_state w !! "username") as [u|] eqn:Hu.
  - script_run. rewrite cleared_empty.
    destruct (truthy_val (default VNone (session_state w !! "api_key")));
      cbn [when]; script_run; unfold rerun; by eexists.
  - script_run. rewrite cleared_empty.
    destruct (truthy_val (default VNone (session_state w !! "api_key")));
      cbn [when]; script_run; unfold rerun; by eexists.
Qed.

Lemma gate_active inp w t :
  session_state w !! "authenticated" = Some (VBool true) →
  session_state w !! "last_activity" = Some (VTime t) →
  (Notions.elapsed (now inp) t ≤ SESSION_TIMEOUT_MIN * 60 * 1000000)%Z →
  authentication_gate inp w =
    (Done (), mk_world (<["last_activity" := VTime (now inp)]> (session_state w))
                (ui w) (log_file w)
                (journal w ++ [Assigned "last_activity" (VTime (now inp))])).
Proof.
  intros Hauth Hlast Hle. unfold authentication_gate.
  do 6 script_step.
  rewrite bind_run, (is_session_expired_run _ t) by done.
  rewrite bool_decide_eq_false_2 by lia.
  cbn [when negb andb orb truthy_val].
  do 6 script_step. unfold update_activity. by script_step.
Qed.

Lemma gate_timeout inp w t :
  session_state w !! "authenticated" = Some (VBool true) →
  session_state w !! "last_activity" = Some (VTime t) →
  (Notions.elapsed (now inp) t > SESSION_TIMEOUT_MIN * 60 * 1000000)%Z →
  ∃ w', authentication_gate inp w = (Rerun, w')
    ∧ session_state w'
      = Notions.logged_out_session (default VNone (session_state w !! "api_key"))
    ∧ ui w' = ui w ++ [WarnSessionExpired; OkLoggedOut]
    ∧ log_file w'
      = match session_state w !! "username" with
        | Some u => Some (default "" (log_file w)
                          +:+ log_line (now inp) (format u) "Logged out")
        | None => log_file w
        end.
Proof.
  intros Hauth Hlast Hgt. unfold authentication_gate.
  do 6 script_step.
  rewrite bind_run, (is_session_expired_run _ t) by done.
  rewrite bool_decide_eq_true_2 by lia.
  cbn [when negb andb orb truthy_val].
  do 3 script_step.
  match goal with |- context [logout inp ?w0] =>
    destruct (logout_world inp w0) as (w' & -> & Hs & Hui & Hlog) end.
  exists w'. cbn [session_state ui log_file] in *.
  rewrite Hui, <- app_assoc. done.
Qed.

Lemma gate_sets_flag inp w :
  default (VBool false) (session_state w !! "authenticated") = VBool false →
  ∃ j, authentication_gate inp w =
         (login_ui inp ;; update_activity (now inp))
           (mk_world (<["authenticated" := VBool false]> (session_state w))
              (ui w) (log_file w) j).
Proof.
  intros Hauth. unfold authentication_gate. destruct w as [m u l j].
  cbn [session_state ui log_file] in *.
  destruct (m !! "authenticated") as [v|] eqn:E; cbn in Hauth; subst.
  - rewrite insert_id by done. repeat script_step.
    exists j. by rewrite bind_run.
  - repeat script_step. eexists. by rewrite bind_run.
Qed.

Lemma login_ui_failure inp w :
  login_button inp = false
  ∨ (∀ account, load_users inp !! login_username inp = Some account →
       password account ≠ login_password inp) →
  login_ui inp w =
    (Stop, mk_world (session_state w)
             (ui w ++ if login_button inp then [ErrInvalidLogin] else [])
             (log_file w) (journal w)).
Proof.
  intros H. unfold login_ui.
  destruct (login_button inp) eqn:Hb; cbn [when].
  - destruct H as [|H]; [done|].
    destruct (load_users inp !! login_username inp) as [account|] eqn:E.
    + rewrite bool_decide_eq_false_2 by (by apply H).
      do 2 script_step. reflexivity.
    + do 2 script_step. reflexivity.
  - do 2 script_step. unfold stop. rewrite app_nil_r. by destruct w.
Qed.

Lemma login_ui_success inp w account :
  login_button inp = true →
  load_users inp !! login_username inp = Some account →
  password account = login_password inp →
  login_ui inp w =
    (Rerun,
     mk_world
       (<["last_activity" := VTime (now inp)]>
          (<["username" := VStr (login_username inp)]>
             (<["authenticated" := VBool true]> (session_state w))))
       (ui w ++ [OkWelcome (login_username inp)])
       (Some (default "" (log_file w)
              +:+ log_line (now inp) (login_username inp) "Logged in"))
       (journal w ++ [Assigned "authenticated" (VBool true);
                      Assigned "username" (VStr (login_username inp));
                      Assigned "last_activity" (VTime (now inp))])).
Proof.
  intros Hb Hu Hp. unfold login_ui. rewrite Hb, Hu. cbn [when].
  rewrite bool_decide_eq_true_2 by done. unfold update_activity.
  script_run. unfold rerun. by rewrite <- !app_assoc.
Qed.

Lemma elapsed_refl now : Notions.elapsed now now = 0%Z.
Proof. unfold Notions.elapsed. lia. Qed.

End gate.

(** X8 ([authentication_gate], [is_session_expired], [update_activity]): a
    logged-in session whose last activity is at most fifteen minutes old,
    the limit included, passes the gate; the gate only moves
    [last_activity] to the present time. *)
Theorem gate_keeps_active_session
    (inp : StDev.AuthInputs) (w : Session.World) (t : datetime)
    (Hauth : Session.session_state w !! "authenticated" = Some (VBool true))
    (Hlast : Session.session_state w !! "last_activity" = Some (VTime t))
    (Hrecent : (Notions.elapsed (StDev.now inp) t ≤ 15 * 60 * 1000000)%Z) :
  StDev.is_session_expired (StDev.now inp) w = (Session.Done false, w)
  ∧ StDev.authentication_gate inp w =
      (Session.Done (),
       Session.mk_world
         (<["last_activity" := VTime (StDev.now inp)]> (Session.session_state w))
         (Session.ui w) (Session.log_file w)
         (Session.journal w ++ [Session.Assigned "last_activity" (VTime (StDev.now inp))])).
Proof.
  split; [|by apply (gate_active inp w t)].
  rewrite (is_session_expired_run _ t) by done.
  by rewrite bool_decide_eq_false_2 by (unfold StDev.SESSION_TIMEOUT_MIN; lia).
Qed.

Lemma gate_keeps_active_session_witness :
  StDev.is_session_expired
    (StDev.now (MoreSamples.at_time (mk_datetime 2025 3 14 9 41 53 0))) Samples.logged_in
  = (Session.Done false, Samples.logged_in).
Proof.
  apply (gate_keeps_active_session
           (MoreSamples.at_time (mk_datetime 2025 3 14 9 41 53 0)) Samples.logged_in
           Samples.morning); [reflexivity|reflexivity|].
  vm_compute. discriminate.
Defined.

(** X9 ([authentication_gate], [logout]): a logged-in session whose last
    activity is more than fifteen minutes old is logged out by the gate:
    the warning is shown, the session keeps only the flag [authenticated]
    (false) and the key of the model, the log gets the line of the logout,
    and the script starts again. *)
Theorem gate_logs_out_after_timeout
    (inp : StDev.AuthInputs) (w : Session.World) (t : datetime) (u : Val)
    (Hauth : Session.session_state w !! "authenticated" = Some (VBool true))
    (Hlast : Session.session_state w !! "last_activity" = Some (VTime t))
    (Huser : Session.session_state w !! "username" = Some u)
    (Hold : (Notions.elapsed (StDev.now inp) t > 15 * 60 * 1000000)%Z) :
  ∃ w', StDev.authentication_gate inp w = (Session.Rerun, w')
    ∧ Session.session_state w'
      = Notions.logged_out_session (default VNone (Session.session_state w !! "api_key"))
    ∧ Session.ui w' = Session.ui w ++ [WarnSessionExpired; OkLoggedOut]
    ∧ Session.log_file w'
      = Some (default "" (Session.log_file w)
              +:+ StDev.log_line (StDev.now inp) (Session.format u) "Logged out").
Proof.
  destruct (gate_timeout inp w t Hauth Hlast) as (w' & Hrun & Hs & Hui & Hlog).
  { unfold StDev.SESSION_TIMEOUT_MIN. lia. }
  rewrite Huser in Hlog. by exists w'.
Qed.

Lemma gate_logs_out_after_timeout_witness :
  ∃ w', StDev.authentication_gate
          (MoreSamples.at_time (mk_datetime 2025 3 14 9 41 54 0)) Samples.logged_in
        = (Session.Rerun, w')
    ∧ Session.session_state w'
      = {[ "api_key" := VStr "key"; "authenticated" := VBool false ]}
    ∧ Session.log_file w'
      = Some ("[2025-03-14 09:41:54] ana: Logged out" +:+ Py.nl).
Proof.
  destruct (gate_logs_out_after_timeout
              (MoreSamples.at_time (mk_datetime 2025 3 14 9 41 54 0)) Samples.logged_in
              Samples.morning (VStr "ana")) as (w' & Hrun & Hs & _ & Hlog);
    [reflexivity|reflexivity|reflexivity|vm_compute; reflexivity|].
  exists w'. split; [exact Hrun|]. split; [rewrite Hs|rewrite Hlog]; reflexivity.
Defined.

(** X10 ([logout]): however the session looks, [logout] restarts the script
    with a session that holds the flag [authenticated] (false) and, when it
    was there and not empty, the key of the model, and nothing else; the
    log gets a line only when the session had a user name. *)
Theorem logout_keeps_only_the_key (inp : StDev.AuthInputs) (w : Session.World) :
  ∃ w', StDev.logout inp w = (Session.Rerun, w')
    ∧ Session.session_state w'
      = Notions.logged_out_session (default VNone (Session.session_state w !! "api_key"))
    ∧ Session.ui w' = Session.ui w ++ [OkLoggedOut]
    ∧ Session.log_file w'
      = match Session.session_state w !! "username" with
        | Some u => Some (default "" (Session.log_file w)
                          +:+ StDev.log_line (StDev.now inp) (Session.format u) "Logged out")
        | None => Session.log_file w
        end.
Proof. apply logout_world. Qed.

(** X11 ([login_ui], [authentication_gate]): with the button pressed, a name
    of [users.json] and its password, the gate marks the session as
    authenticated, stores the name and the time, welcomes the user, logs
    "Logged in" and starts the script again; that next run passes the
    gate. *)
Theorem login_opens_session
    (inp : StDev.AuthInputs) (w : Session.World) (account : StDev.UserAccount)
    (Hout : default (VBool false) (Session.session_state w !! "authenticated") = VBool false)
    (Hbutton : StDev.login_button inp = true)
    (Huser : StDev.load_users inp !! StDev.login_username inp = Some account)
    (Hpass : StDev.password account = StDev.login_password inp) :
  ∃ w', StDev.authentication_gate inp w = (Session.Rerun, w')
    ∧ Session.session_state w'
      = <["last_activity" := VTime (StDev.now inp)]>
          (<["username" := VStr (StDev.login_username inp)]>
             (<["authenticated" := VBool true]> (Session.session_state w)))
    ∧ Session.ui w' = Session.ui w ++ [OkWelcome (StDev.login_username inp)]
    ∧ Session.log_file w'
      = Some (default "" (Session.log_file w)
              +:+ StDev.log_line (StDev.now inp) (StDev.login_username inp) "Logged in")
    ∧ (StDev.authentication_gate (StDev.no_buttons inp) w').1 = Session.Done ().
Proof.
  destruct (gate_sets_flag inp w Hout) as [j ->].
  rewrite bind_run, (login_ui_success inp _ account) by done.
  eexists. split; [reflexivity|]. cbn [Session.session_state Session.ui Session.log_file].
  split; [by rewrite insert_insert_eq|]. split; [done|]. split; [done|].
  erewrite (gate_active (StDev.no_buttons inp) _ (StDev.now inp)); [done| | |].
  - cbn [Session.session_state]. by rewrite !lookup_insert_ne, lookup_insert_eq by done.
  - cbn [Session.session_state]. by rewrite lookup_insert_eq.
  - cbn [StDev.no_buttons StDev.now]. rewrite elapsed_refl.
    unfold StDev.SESSION_TIMEOUT_MIN. lia.
Qed.

Lemma login_opens_session_witness :
  ∃ w', StDev.authentication_gate (MoreSamples.login "ana" "s3cret" true) TranslationApp.fresh
        = (Session.Rerun, w')
    ∧ Session.session_state w' !! "authenticated" = Some (VBool true)
    ∧ Session.log_file w' = Some ("[2025-03-14 09:26:53] ana: Logged in" +:+ Py.nl).
Proof.
  destruct (login_opens_session (MoreSamples.login "ana" "s3cret" true) TranslationApp.fresh
              (StDev.mk_user "s3cret" "user"))
    as (w' & Hrun & Hs & _ & Hlog & _); [reflexivity|reflexivity|reflexivity|reflexivity|].
  exists w'. split; [exact Hrun|]. split; [rewrite Hs|rewrite Hlog]; reflexivity.
Defined.

(** X12 ([login_ui], [authentication_gate]): a session that is not
    authenticated never gets past the gate of a run.  Without the button,
    with a name that is not in [users.json] (or no such file), or with
    another password than the stored one, the run stops at the login form:
    only the flag is (re)set, the log is not written, and the error is
    shown when the button was pressed. *)
Theorem failed_login_stops_the_run
    (inp : StDev.AuthInputs) (w : Session.World)
    (Hout : default (VBool false) (Session.session_state w !! "authenticated") = VBool false)
    (Hfail : StDev.login_button inp = false
             ∨ (∀ account, default ∅ (StDev.users_json inp) !! StDev.login_username inp
                           = Some account →
                  StDev.password account ≠ StDev.login_password inp)) :
  ∃ w', StDev.run inp w = (Session.Stop, w')
    ∧ Session.session_state w'
      = <["authenticated" := VBool false]> (Session.session_state w)
    ∧ Session.ui w' = (if StDev.login_button inp then [ErrInvalidLogin] else [])
    ∧ Session.log_file w' = Session.log_file w.
Proof.
  unfold StDev.run, StDev.script. rewrite bind_run.
  match goal with |- context [StDev.authentication_gate inp ?w0] =>
    destruct (gate_sets_flag inp w0 Hout) as [j ->] end.
  rewrite bind_run, login_ui_failure by done. by eexists.
Qed.

Lemma failed_login_stops_the_run_witness :
  ∃ w', StDev.run (MoreSamples.login "ana" "guess" true) TranslationApp.fresh
        = (Session.Stop, w')
    ∧ Session.ui w' = [ErrInvalidLogin]
    ∧ Session.log_file w' = None.
Proof.
  destruct (failed_login_stops_the_run (MoreSamples.login "ana" "guess" true)
              TranslationApp.fresh) as (w' & Hrun & _ & Hui & Hlog); [reflexivity| |].
  - right. intros account. vm_compute. intros [= <-]. discriminate.
  - exists w'. split; [exact Hrun|]. split; [exact Hui|exact Hlog].
Defined.
(** ** Invariants of the scripts *)

Section keeps_lemmas.
Import Py Session.
Context (I : World → Prop).

Lemma keeps_bind {A B} (m : Script A) (f : A → Script B) :
  Notions.keeps I m → (∀ a, Notions.keeps I (f a)) → Notions.keeps I (m ≫= f).
Proof.
  intros Hm Hf w Hw. rewrite bind_run. specialize (Hm w Hw).
  destruct (m w) as [[a| | |k|] w']; cbn [snd] in *; try done. by apply Hf.
Qed.

Lemma keeps_ret {A} (a : A) : Notions.keeps I (mret a).
Proof. by intros w Hw. Qed.

Lemma keeps_getattr key : Notions.keeps I (getattr key).
Proof. intros w Hw. unfold getattr. by destruct (session_state w !! key). Qed.

Lemma keeps_has key : Notions.keeps I (has key).
Proof. by intros w Hw. Qed.

Lemma keeps_get key : Notions.keeps I (get key).
Proof. by intros w Hw. Qed.

Lemma keeps_stop {A} : Notions.keeps I (@stop A).
Proof. by intros w Hw. Qed.

Lemma keeps_rerun {A} : Notions.keeps I (@rerun A).
Proof. by intros w Hw. Qed.

Lemma keeps_type_error {A} : Notions.keeps I (@type_error A).
Proof. by intros w Hw. Qed.

Lemma keeps_when b m : Notions.keeps I m → Notions.keeps I (when b m).
Proof. intros Hm. destruct b; [done|apply keeps_ret]. Qed.

End keeps_lemmas.

Ltac keeps_structure :=
  first
    [ apply keeps_bind; [|intros ?]
    | apply keeps_when
    | apply keeps_ret | apply keeps_getattr | apply keeps_has | apply keeps_get
    | apply keeps_stop | apply keeps_rerun | apply keeps_type_error
    | match goal with |- Notions.keeps _ (if ?b then _ else _) => destruct b end
    | match goal with
      | |- Notions.keeps _ (match ?o with Some _ => _ | None => _ end) => destruct o
      end
    | match goal with
      | |- Notions.keeps _ (match ?v with VNone => _ | VBool _ => _ | VStr _ => _
                                      | VTime _ => _ end) => destruct v
      end ].

Section log_invariant.
Import Py Session Streamlit StDev.

Lemma keeps_log_event c now u e :
  Notions.keeps (Notions.log_extends c) (log_event now u e).
Proof.
  intros w [more H]. exists (more +:+ log_line now u e).
  change (default "" (log_file w) +:+ log_line now u e
          = c +:+ more +:+ log_line now u e).
  by rewrite H, app_assoc_s.
Qed.

Lemma keeps_log_script c inp :
  Notions.keeps (Notions.log_extends c) (StDev.script inp).
Proof.
  unfold StDev.script, authentication_gate, is_session_expired, logout, login_ui,
    update_activity, init_project, sidebar_auth, sidebar_configuration, check_and_start,
    step_2, step_3, step_4, step_5, step_6, StDev.steps_7_to_9, StDev.step_10,
    download_button.
  repeat first [ apply keeps_log_event | keeps_structure | (intros ? H; exact H) ].
Qed.

Lemma keeps_log_interact c fuel : ∀ inp w,
  Notions.log_extends c w → Notions.log_extends c (StDev.interact fuel inp w).2.
Proof.
  induction fuel as [|fuel IH]; intros inp w Hw;
    pose proof (keeps_log_script c inp
                  (mk_world (session_state w) [] (log_file w) (journal w)) Hw) as Hrun;
    cbn [StDev.interact]; fold (StDev.run inp w) in Hrun;
    destruct (StDev.run inp w) as [[[]| | |k|] w']; try done.
  by apply IH.
Qed.

Lemma keeps_log_translation_app l inp :
  Notions.keeps (λ w, log_file w = l) (TranslationApp.script inp).
Proof.
  unfold TranslationApp.script, init_project, sidebar_configuration, check_and_start,
    step_2, step_3, step_4, step_5, step_6, TranslationApp.steps_7_to_9,
    TranslationApp.step_10, download_button.
  repeat first [ keeps_structure | (intros ? H; exact H) ].
Qed.

End log_invariant.

Section final_text_invariant.
Import Py Session Streamlit StDev.

Lemma preserves_log_event now u e : Spec.preserves (log_event now u e).
Proof. by intros w Hw. Qed.

Lemma preserves_type_error {A} : Spec.preserves (@type_error A).
Proof. by intros w Hw. Qed.

Lemma preserves_get key : Spec.preserves (get key).
Proof. by intros w Hw. Qed.

Lemma preserves_st_dev_script inp : Spec.preserves (StDev.script inp).
Proof.
  unfold StDev.script.
  apply preserves_bind; [|intros _; apply preserves_bind; [apply preserves_init|intros _]].
  - unfold authentication_gate, is_session_expired, logout, login_ui, update_activity.
    repeat first
      [ preserves_step | apply preserves_log_event | apply preserves_type_error
      | apply preserves_get
      | match goal with
        | |- Spec.preserves (match ?v with VNone => _ | VBool _ => _ | VStr _ => _
                                      | VTime _ => _ end) => destruct v
        end ].
  - unfold sidebar_auth, logout, sidebar_configuration, check_and_start,
      step_2, step_3, step_4, step_5, step_6, StDev.steps_7_to_9, StDev.step_10,
      download_button.
    repeat first
      [ preserves_step | apply preserves_log_event | apply preserves_get
      | apply preserves_delete_all;
        rewrite !elem_of_cons, elem_of_nil; by intros [|[|[|[|]]]] ].
Qed.

Lemma st_dev_interact_final_text fuel : ∀ inp w,
  Spec.final_text_is_latest w →
  Spec.final_text_is_latest (StDev.interact fuel inp w).2.
Proof.
  induction fuel as [|fuel IH]; intros inp w Hw;
    pose proof (preserves_st_dev_script inp
                  (mk_world (session_state w) [] (log_file w) (journal w)) Hw) as Hrun;
    cbn [StDev.interact]; fold (StDev.run inp w) in Hrun;
    destruct (StDev.run inp w) as [[[]| | |k|] w']; try done.
  by apply IH.
Qed.

End final_text_invariant.

Section frozen_invariant.
Import Py Session Streamlit.
Context (source gold api_key : Val) (Hsource : source ≠ VNone).

Lemma keeps_frozen_setattr key v :
  key ≠ "source_text" → key ≠ "gold_standard_prompt" → key ≠ "api_key" →
  Notions.keeps (Notions.frozen source gold api_key) (setattr key v).
Proof.
  intros H1 H2 H3 w (Hp & Hs & Hg & Hk). unfold Notions.frozen.
  cbn [setattr snd session_state].
  split; [|by rewrite !lookup_insert_ne by done]. destruct (decide (key = "project_started")) as [->|Hne].
  - rewrite lookup_insert_eq. by eexists.
  - by rewrite lookup_insert_ne.
Qed.

Lemma keeps_frozen_init inp :
  Notions.keeps (Notions.frozen source gold api_key) (init_project inp).
Proof.
  intros w Hw. pose proof Hw as ([p Hp] & _). unfold init_project.
  repeat script_step. exact Hw.
Qed.

Lemma keeps_frozen_step_2 inp file :
  Notions.keeps (Notions.frozen source gold api_key) (step_2 inp file).
Proof.
  intros w Hw. pose proof Hw as (_ & Hs & _). unfold step_2.
  do 2 script_step. rewrite bool_decide_eq_false_2 by done. repeat script_step. exact Hw.
Qed.

Lemma keeps_frozen_script inp :
  archive_button inp = false →
  Notions.keeps (Notions.frozen source gold api_key) (TranslationApp.script inp).
Proof.
  intros Harchive. unfold TranslationApp.script.
  apply keeps_bind; [apply keeps_frozen_init|intros _].
  unfold TranslationApp.step_10. rewrite Harchive. cbn [when].
  unfold sidebar_configuration, check_and_start, step_3, step_4, step_5, step_6,
    TranslationApp.steps_7_to_9, download_button.
  repeat first
    [ apply keeps_frozen_step_2
    | apply keeps_frozen_setattr; done
    | keeps_structure
    | (intros ? H; exact H) ].
Qed.

End frozen_invariant.

(** X13 ([log_event], [app_st_dev.py] from top to bottom): the script only
    appends to the access log.  Whatever the inputs and the session, after
    a run and the reruns it causes the log starts with what it held
    before; [translation_app.py] does not touch the log at all. *)
Theorem access_log_is_append_only
    (fuel : nat) (inp : StDev.AuthInputs) (w : Session.World) (inp' : Streamlit.Inputs) :
  Notions.log_extends (default "" (Session.log_file w)) (StDev.run inp w).2
  ∧ Notions.log_extends (default "" (Session.log_file w)) (StDev.interact fuel inp w).2
  ∧ Session.log_file (TranslationApp.run inp' w).2 = Session.log_file w.
Proof.
  assert (Notions.log_extends (default "" (Session.log_file w)) w) as Hw.
  { exists "". by rewrite app_empty_r. }
  split; [|split].
  - by apply (keeps_log_script _ inp).
  - by apply keeps_log_interact.
  - by apply (keeps_log_translation_app (Session.log_file w) inp').
Qed.

(** X14 ([app_st_dev.py] from top to bottom): as in [translation_app.py],
    [final_text] mirrors the artifact written last after every run and after
    the reruns it causes, through login, logout, timeout and archive. *)
Theorem st_dev_final_text_mirrors_latest_write
    (fuel : nat) (inp : StDev.AuthInputs) (w : Session.World)
    (Hw : Spec.final_text_is_latest w) :
  Spec.final_text_is_latest (StDev.run inp w).2
  ∧ Spec.final_text_is_latest (StDev.interact fuel inp w).2.
Proof.
  split; [by apply (preserves_st_dev_script inp)|by apply st_dev_interact_final_text].
Qed.

Lemma st_dev_final_text_mirrors_latest_write_witness :
  Spec.final_text_is_latest
    (StDev.run (Samples.auth (Samples.press Samples.report false false false true false
                                (Samples.answers "second")))
       (Session.mk_world (Session.session_state Samples.logged_in) [] None
          (Session.journal Samples.translated))).2.
Proof.
  refine (proj1 (st_dev_final_text_mirrors_latest_write 0
                   (Samples.auth (Samples.press Samples.report false false false true false
                                    (Samples.answers "second")))
                   (Session.mk_world (Session.session_state Samples.logged_in) [] None
                      (Session.journal Samples.translated)) _)).
  vm_compute. reflexivity.
Defined.

(** X15 ([translation_app.py] from top to bottom): once a project has a
    source text, a run without the archive button leaves the source text,
    the gold standard prompt and the key of the model as they are, whatever
    files are uploaded and whatever buttons are pressed. *)
Theorem started_project_keeps_its_texts
    (inp : Streamlit.Inputs) (w : Session.World) (source gold api_key : Val)
    (Hw : Notions.frozen source gold api_key w)
    (Hsource : source ≠ VNone)
    (Harchive : Streamlit.archive_button inp = false) :
  Notions.frozen source gold api_key (TranslationApp.run inp w).2.
Proof. by apply (keeps_frozen_script source gold api_key Hsource inp Harchive). Qed.

Lemma started_project_keeps_its_texts_witness :
  Notions.frozen (VStr "Hello world") (VStr "") (VStr "key")
    (TranslationApp.run
       (Samples.press Samples.blank true true false false false (Samples.answers "second"))
       Samples.translated).2.
Proof.
  refine (started_project_keeps_its_texts
            (Samples.press Samples.blank true true false false false (Samples.answers "second"))
            Samples.translated (VStr "Hello world") (VStr "") (VStr "key") _ _ _);
    [|discriminate|reflexivity].
  vm_compute. split; [by eexists|]. split; [reflexivity|]. split; reflexivity.
Defined.
(** ** More about the steps of the Streamlit scripts *)

Section steps.
Import Py Helpers Session Streamlit StDev.

Lemma getattr_run_None key w :
  session_state w !! key = None → getattr key w = (AttributeError key, w).
Proof. intros H. unfold getattr. by rewrite H. Qed.

Lemma call_gemini_returns o api_key prompt task t :
  o (to_option api_key) "gemini-2.5-flash" prompt = Returns t →
  call_gemini o api_key prompt task = (Some t, []).
Proof. intros H. unfold call_gemini. by rewrite H. Qed.

Lemma read_logs_log_all history : ∀ w,
  Spec.terminated (default "" (log_file w)) = true →
  Forall Notions.loggable history →
  read_logs (Notions.log_all history w)
  = read_logs w ++ (Notions.entry_of <$> history).
Proof.
  induction history as [|[[now u] e] history IH]; intros w Hw Hall.
  - by rewrite app_nil_r.
  - inversion_clear Hall as [|? ? Hx Hall'].
    cbv beta iota delta [Notions.loggable] in Hx.
    destruct Hx as (H1 & H2 & H3 & H4 & H5 & H6 & H7).
    unfold Notions.log_all in *. cbn [foldl fst snd].
    rewrite IH by (apply log_event_terminated || done).
    rewrite read_logs_after_log_event by done.
    by rewrite <- app_assoc.
Qed.

Lemma steps_7_to_9_first inp file w final user :
  session_state w !! "final_text" = Some final →
  truthy_val final = true →
  session_state w !! "username" = Some user →
  session_state w !! "log_event_fired" = None →
  ∃ ns, StDev.steps_7_to_9 inp file w =
    (Done (),
     mk_world (<["log_event_fired" := VBool true]> (session_state w)) (ui w ++ ns)
       (Some (default "" (log_file w)
              +:+ log_line (now inp) (format user)
                    ("Completed translation " +:+ source_lang (workflow inp) +:+ "->"
                       +:+ target_lang (workflow inp))))
       (journal w ++ [Assigned "log_event_fired" (VBool true)])).
Proof.
  intros Hfinal Htext Huser Hfired. unfold StDev.steps_7_to_9, download_button.
  do 2 script_step. rewrite Htext. cbn [when].
  do 5 script_step. rewrite has_run_None by done. cbn [when negb].
  repeat first [ rewrite log_event_run; cbn iota beta | script_step ].
  rewrite <- !app_assoc. by eexists.
Qed.

Lemma steps_7_to_9_fired inp file w final fired :
  session_state w !! "final_text" = Some final →
  truthy_val final = true →
  session_state w !! "log_event_fired" = Some fired →
  ∃ ns, StDev.steps_7_to_9 inp file w = (Done (), Spec.shown w ns).
Proof.
  intros Hfinal Htext Hfired. unfold StDev.steps_7_to_9, download_button.
  do 2 script_step. rewrite Htext. cbn [when].
  repeat script_step. rewrite <- !app_assoc. by eexists.
Qed.

Lemma opened_inv w :
  Notions.opened w = true →
  ∃ api_key gold,
    session_state w !! "project_started" = Some (VBool false)
    ∧ session_state w !! "api_key" = Some api_key ∧ truthy_val api_key = true
    ∧ session_state w !! "source_text" = Some VNone
    ∧ session_state w !! "gold_standard_prompt" = Some gold
    ∧ session_state w !! "translation_step_4" = Some VNone
    ∧ session_state w !! "translation_step_5" = Some VNone
    ∧ session_state w !! "translation_step_6" = Some VNone
    ∧ session_state w !! "final_text" = Some VNone.
Proof.
  unfold Notions.opened. rewrite !andb_true_iff, !bool_decide_eq_true.
  intros [[[[[[[Hp Hk] Hs] [gold Hg]] H4] H5] H6] Hf].
  destruct (session_state w !! "api_key") as [api_key|] eqn:E; [|done].
  exists api_key, gold. done.
Qed.

End steps.

(** X16 ([log_event], [read_logs]): when the log is empty, missing or ends
    with a line feed, and a list of events is logged one after the other,
    each with a user name and an event that have no line feed, no carriage
    return and no surrounding whitespace (and no colon in the name),
    [read_logs] gives the entries read before followed by one entry for
    every event, in order; from a missing log it gives exactly these. *)
Theorem read_logs_gives_history
    (history : list (datetime * string * string)) (w : Session.World)
    (Hlog : Spec.terminated (default "" (Session.log_file w)) = true)
    (Hhistory : Forall Notions.loggable history) :
  StDev.read_logs (Notions.log_all history w)
  = StDev.read_logs w ++ (Notions.entry_of <$> history)
  ∧ (Session.log_file w = None →
     StDev.read_logs (Notions.log_all history w) = Notions.entry_of <$> history).
Proof.
  split; [by apply read_logs_log_all|].
  intros Hnone. rewrite read_logs_log_all by done.
  unfold StDev.read_logs at 1. by rewrite Hnone.
Qed.

Lemma read_logs_gives_history_witness :
  StDev.read_logs
    (Notions.log_all
       [(Samples.morning, "ana", "Logged in");
        (MoreSamples.later, "ana", "Completed translation English->Portuguese");
        (MoreSamples.much_later, "ana", "Logged out")]
       TranslationApp.fresh)
  = [StDev.mk_entry "2025-03-14 09:26:53" "ana" "Logged in";
     StDev.mk_entry "2025-03-14 09:40:00" "ana" "Completed translation English->Portuguese";
     StDev.mk_entry "2025-03-14 09:42:00" "ana" "Logged out"].
Proof.
  refine (eq_trans
    (proj2 (read_logs_gives_history
       [(Samples.morning, "ana", "Logged in");
        (MoreSamples.later, "ana", "Completed translation English->Portuguese");
        (MoreSamples.much_later, "ana", "Logged out")]
       TranslationApp.fresh _ _) _) _); try reflexivity.
  repeat constructor.
Defined.

(** X17 (step 4 of the Streamlit scripts): with the button pressed and no
    draft yet, the answer of the model to the prompt of step 4 becomes the
    draft and the final text and the success is shown; an empty answer is
    dropped: nothing is stored and nothing is shown. *)
Theorem step_4_stores_the_answer
    (inp : Streamlit.Inputs) (w : Session.World) (api_key gold source draft : Val) (t : string)
    (Hkey : Session.session_state w !! "api_key" = Some api_key)
    (Hgold : Session.session_state w !! "gold_standard_prompt" = Some gold)
    (Hsource : Session.session_state w !! "source_text" = Some source)
    (Hdraft : Session.session_state w !! "translation_step_4" = Some draft)
    (Hnone : Session.truthy_val draft = false)
    (Hbutton : Streamlit.run_translation_button inp = true)
    (Hanswer : Streamlit.oracle inp (Session.to_option api_key) "gemini-2.5-flash"
                 (Streamlit.prompt_step_4 (Streamlit.source_lang inp)
                    (Streamlit.target_lang inp) gold source) = Returns t) :
  Streamlit.step_4 inp w =
    (Session.Done (),
     if Py.nonempty t then
       Session.mk_world
         (<["final_text" := VStr t]>
            (<["translation_step_4" := VStr t]> (Session.session_state w)))
         (Session.ui w ++ [OkTranslationComplete]) (Session.log_file w)
         (Session.journal w ++ [Session.Assigned "translation_step_4" (VStr t);
                                Session.Assigned "final_text" (VStr t)])
     else w).
Proof.
  unfold Streamlit.step_4. do 2 script_step. rewrite Hbutton. cbn [orb Session.when].
  do 2 script_step. rewrite Hnone. cbn [negb Session.when].
  do 6 script_step. rewrite (call_gemini_returns _ _ _ _ t) by done.
  do 2 script_step. rewrite app_nil_r.
  destruct t as [|c t]; cbn [Py.truthy Py.nonempty Session.when].
  - script_step. by destruct w.
  - repeat script_step. cbn [Session.of_option]. by rewrite <- app_assoc.
Qed.

Lemma step_4_stores_the_answer_witness :
  Session.session_state
    (Streamlit.step_4
       (Samples.press Samples.report false true false false false (Samples.answers "Ola"))
       Samples.started).2 !! "final_text" = Some (VStr "Ola")
  ∧ (Streamlit.step_4
       (Samples.press Samples.report false true false false false (Samples.answers ""))
       Samples.started).2 = Samples.started.
Proof.
  split.
  - rewrite (step_4_stores_the_answer
               (Samples.press Samples.report false true false false false (Samples.answers "Ola"))
               Samples.started (VStr "key") (VStr "") (VStr "Hello world") VNone "Ola");
      reflexivity.
  - rewrite (step_4_stores_the_answer
               (Samples.press Samples.report false true false false false (Samples.answers ""))
               Samples.started (VStr "key") (VStr "") (VStr "Hello world") VNone "");
      reflexivity.
Defined.

(** X18 (step 5 of the Streamlit scripts, the text area): when the text
    area holds a text other than the one it was given, that text becomes
    the review and the final text, without any request to the model; the
    text may be empty. *)
Theorem manual_edit_is_saved
    (inp : Streamlit.Inputs) (w : Session.World) (draft review : Val) (x : string)
    (Hdraft : Session.session_state w !! "translation_step_4" = Some draft)
    (Hreview : Session.session_state w !! "translation_step_5" = Some review)
    (Hthere : Session.truthy_val draft = true)
    (Hbutton : Streamlit.ask_edit_button inp = false)
    (Hwidget : Streamlit.manual_edit_widget inp = Some x)
    (Hchanged : VStr x ≠ Session.or_val review draft) :
  Streamlit.step_5 inp w =
    (Session.Done (),
     Session.mk_world
       (<["final_text" := VStr x]>
          (<["translation_step_5" := VStr x]> (Session.session_state w)))
       (Session.ui w ++ [InfoManualEditSaved]) (Session.log_file w)
       (Session.journal w ++ [Session.Assigned "translation_step_5" (VStr x);
                              Session.Assigned "final_text" (VStr x)])).
Proof.
  unfold Streamlit.step_5. do 2 script_step. rewrite Hthere, Hbutton. cbn [Session.when].
  do 6 script_step. rewrite Hwidget. cbn [fmap option_fmap option_map from_option].
  unfold id. rewrite bool_decide_eq_true_2 by done. cbn [Session.when].
  repeat script_step. by rewrite <- app_assoc.
Qed.

Lemma manual_edit_is_saved_witness :
  Session.session_state
    (Streamlit.step_5
       (Streamlit.mk_inputs (Some "key") [] [] (Some Samples.report) "English" "Portuguese"
          false false false false false (Some "") Samples.down)
       Samples.translated).2 !! "final_text" = Some (VStr "").
Proof.
  rewrite (manual_edit_is_saved
             (Streamlit.mk_inputs (Some "key") [] [] (Some Samples.report) "English" "Portuguese"
                false false false false false (Some "") Samples.down)
             Samples.translated (VStr "first") VNone ""); try reflexivity.
  discriminate.
Defined.

(** X19 (steps 7 to 9 of [app_st_dev.py]): the completion of a translation
    is logged once.  With a final text, a pass over steps 7 to 9 writes the
    log line only when [log_event_fired] is not in the session, and the
    flag is there afterwards, so that a later pass leaves the log as it
    is. *)
Theorem completion_is_logged_once
    (inp inp' : StDev.AuthInputs) (file file' : UploadedFile) (w : Session.World)
    (final user : Val)
    (Hfinal : Session.session_state w !! "final_text" = Some final)
    (Htext : Session.truthy_val final = true)
    (Huser : Session.session_state w !! "username" = Some user) :
  ∃ w' w'',
    StDev.steps_7_to_9 inp file w = (Session.Done (), w')
    ∧ Session.log_file w'
      = (if bool_decide (is_Some (Session.session_state w !! "log_event_fired"))
         then Session.log_file w
         else Some (default "" (Session.log_file w)
                    +:+ StDev.log_line (StDev.now inp) (Session.format user)
                          ("Completed translation "
                             +:+ Streamlit.source_lang (StDev.workflow inp) +:+ "->"
                             +:+ Streamlit.target_lang (StDev.workflow inp))))
    ∧ is_Some (Session.session_state w' !! "log_event_fired")
    ∧ StDev.steps_7_to_9 inp' file' w' = (Session.Done (), w'')
    ∧ Session.log_file w'' = Session.log_file w'.
Proof.
  destruct (Session.session_state w !! "log_event_fired") as [fired|] eqn:Hfired.
  - destruct (steps_7_to_9_fired inp file w final fired) as [ns Hrun]; [done..|].
    destruct (steps_7_to_9_fired inp' file' (Spec.shown w ns) final fired) as [ns' Hrun'];
      [done..|].
    eexists _, _. split; [exact Hrun|]. rewrite bool_decide_eq_true_2 by done.
    split; [done|].
    split; [cbn [Spec.shown Session.session_state]; by rewrite Hfired|].
    split; [exact Hrun'|done].
  - destruct (steps_7_to_9_first inp file w final user) as [ns Hrun]; [done..|].
    match type of Hrun with _ = (_, ?w1) =>
      destruct (steps_7_to_9_fired inp' file' w1 final (VBool true)) as [ns' Hrun'] end.
    + cbn [Session.session_state]. by rewrite lookup_insert_ne.
    + done.
    + cbn [Session.session_state]. by rewrite lookup_insert_eq.
    + eexists _, _. split; [exact Hrun|].
      rewrite bool_decide_eq_false_2 by (by intros [? ?]).
      split; [done|]. split; [cbn [Session.session_state]; by rewrite lookup_insert_eq|].
      split; [exact Hrun'|done].
Qed.

Lemma completion_is_logged_once_witness :
  ∃ w', StDev.steps_7_to_9 (Samples.auth (Samples.press Samples.report false false false false
                                            false Samples.down))
          Samples.report Samples.logged_in = (Session.Done (), w')
    ∧ Session.log_file w'
      = Some ("[2025-03-14 09:26:53] ana: Completed translation English->Portuguese" +:+ Py.nl).
Proof.
  destruct (completion_is_logged_once
              (Samples.auth (Samples.press Samples.report false false false false false
                               Samples.down))
              (Samples.auth (Samples.press Samples.report false false false false false
                               Samples.down))
              Samples.report Samples.report Samples.logged_in (VStr "first") (VStr "ana"))
    as (w' & w'' & Hrun & Hlog & _); [reflexivity|reflexivity|reflexivity|].
  exists w'. split; [exact Hrun|]. rewrite Hlog. reflexivity.
Defined.

(** X20 ([translation_app.py], StartProject): on a page where no project
    was started, with a key of the model, an uploaded source whose text is
    read and not empty, and no other button pressed, the run ends normally
    with a prepared project: the flag is set, the text and the gold
    standard prompt are stored, the word count of the text is shown, and
    the later steps ask for step 4 first. *)
Theorem start_project_prepares
    (inp : Streamlit.Inputs) (w : Session.World) (file : UploadedFile) (text : string)
    (Hopened : Notions.opened w = true)
    (Hstart : Streamlit.start_button inp = true)
    (Hfile : Streamlit.source_file inp = Some file)
    (Hread : (Streamlit.read_file file).1 = Some text)
    (Htext : text ≠ "")
    (Htranslate : Streamlit.run_translation_button inp = false)
    (Harchive : Streamlit.archive_button inp = false) :
  ∃ w', TranslationApp.run inp w = (Session.Done (), w')
    ∧ Spec.prepared w' = true
    ∧ Session.session_state w' !! "source_text" = Some (VStr text)
    ∧ Session.session_state w' !! "gold_standard_prompt"
      = Some (VStr (Streamlit.build_gold_standard_prompt
                      (Streamlit.gold_en_files inp) (Streamlit.gold_pt_files inp)).1)
    ∧ Session.session_state w' !! "final_text" = Some VNone
    ∧ OkFilesPrepared ∈ Session.ui w'
    ∧ MetricProjectScope (Py.count_words false text) ∈ Session.ui w'
    ∧ WarnCompleteStep4 ∈ Session.ui w'
    ∧ WarnCompleteStep4Or5 ∈ Session.ui w'.
Proof.
  destruct (opened_inv w Hopened) as (api_key & gold & Hp & Hk & Hkt & Hs & Hg & H4 & H5 & H6 & Hf).
  assert (Streamlit.read_file file = (Some text, [])) as Hfull.
  { destruct (read_file_cases file) as [[t E]|(n & E & _)];
      rewrite E in Hread; cbn in Hread; by simplify_eq. }
  unfold TranslationApp.run, TranslationApp.script, Streamlit.init_project,
    Streamlit.sidebar_configuration, Streamlit.check_and_start, Streamlit.step_2,
    Streamlit.step_3, Streamlit.step_4, Streamlit.step_5, Streamlit.step_6,
    TranslationApp.steps_7_to_9, TranslationApp.step_10.
  destruct text as [|c text]; [done|].
  repeat first
    [ script_step
    | rewrite Hstart | rewrite Hfile | rewrite Htranslate | rewrite Harchive
    | rewrite Hfull
    | rewrite Hkt; cbn [negb Session.when]
    | rewrite bool_decide_eq_true_2 by done; cbn [Session.when]
    | progress cbn [Session.of_option Session.truthy_val Py.nonempty Session.format
                    Session.or_val Session.when]
    | match goal with
      | |- context [Session.when (Py.nonempty ?g) _] => destruct (Py.nonempty g)
      end ].
  all: eexists; (split; [reflexivity|]); cbn [Session.session_state Session.ui].
  all: repeat (rewrite lookup_insert_eq || rewrite lookup_insert_ne by done).
  all: split;
    [ unfold Spec.prepared; cbn [Session.session_state];
      repeat (rewrite lookup_insert_eq || rewrite lookup_insert_ne by done);
      rewrite Hk, H4, H5, H6, Hf; cbn [from_option]; unfold id; rewrite Hkt;
      repeat (apply andb_true_intro; split); try done; apply bool_decide_eq_true_2;
      first [ by eexists | split; [by eexists|done] ]
    | ].
  all: repeat (split; [first [done | set_solver]|]); set_solver.
Qed.

Lemma start_project_prepares_witness :
  ∃ w', TranslationApp.run
          (Samples.press Samples.report true false false false false Samples.down)
          Samples.opened = (Session.Done (), w')
    ∧ Spec.prepared w' = true
    ∧ MetricProjectScope 2 ∈ Session.ui w'.
Proof.
  destruct (start_project_prepares
              (Samples.press Samples.report true false false false false Samples.down)
              Samples.opened Samples.report "Hello world")
    as (w' & Hrun & Hprepared & _ & _ & _ & _ & Hmetric & _);
    [vm_compute; reflexivity|reflexivity|reflexivity|reflexivity|discriminate
    |reflexivity|reflexivity|].
  exists w'. split; [exact Hrun|]. split; [exact Hprepared|exact Hmetric].
Defined.

(** X21 ([app_st_dev.py], archive and StartProject): the archive leaves the
    flag [project_started] in the session and deletes [source_text], so the
    keys of a project are not initialised again; when the user then presses
    StartProject with a source uploaded, the run ends with the
    [AttributeError] of reading [source_text]. *)
Theorem st_dev_start_after_archive
    (inp inp' : StDev.AuthInputs) (w : Session.World) (file : UploadedFile)
    (user api_key : Val) (t : datetime)
    (Huser : Session.session_state w !! "username" = Some user)
    (Hkey : Session.session_state w !! "api_key" = Some api_key)
    (Htruthy : Session.truthy_val api_key = true)
    (Hauth : Session.session_state w !! "authenticated" = Some (VBool true))
    (Hlast : Session.session_state w !! "last_activity" = Some (VTime t))
    (Harchive : Streamlit.archive_button (StDev.workflow inp) = true)
    (Hrecent : (Notions.elapsed (StDev.now inp') t ≤ 15 * 60 * 1000000)%Z)
    (Hlogout : StDev.logout_button inp' = false)
    (Hstart : Streamlit.start_button (StDev.workflow inp') = true)
    (Hfile : Streamlit.source_file (StDev.workflow inp') = Some file) :
  ∃ w', StDev.step_10 inp w = (Session.Rerun, w')
    ∧ Session.session_state w' !! "project_started" = Some (VBool false)
    ∧ Session.session_state w' !! "source_text" = None
    ∧ (StDev.run inp' w').1 = Session.AttributeError "source_text".
Proof.
  destruct (step_10_archive inp w user api_key (VBool true) (VTime t))
    as (w' & Hrun & Hs); [done..|].
  exists w'. split; [done|].
  assert (∀ key, Session.session_state w' !! key
                 = if bool_decide (key = "project_started") then Some (VBool false)
                   else if bool_decide (key ∈ ["api_key"; "username"; "authenticated";
                                               "last_activity"])
                        then Session.session_state w !! key else None) as Hlookup.
  { intros key. rewrite Hs. apply lookup_archived. }
  assert (Session.session_state w' !! "project_started" = Some (VBool false)) as Hp'
    by (by rewrite Hlookup).
  assert (Session.session_state w' !! "source_text" = None) as Hs'
    by (by rewrite Hlookup).
  assert (Session.session_state w' !! "username" = Some user) as Hu'
    by (by rewrite Hlookup).
  assert (Session.session_state w' !! "api_key" = Some api_key) as Hk'
    by (by rewrite Hlookup).
  assert (Session.session_state w' !! "authenticated" = Some (VBool true)) as Ha'
    by (by rewrite Hlookup).
  assert (Session.session_state w' !! "last_activity" = Some (VTime t)) as Hl'
    by (by rewrite Hlookup).
  split; [done|]. split; [done|].
  unfold StDev.run, StDev.script. rewrite bind_run.
  rewrite (gate_active inp' _ t) by (done || (unfold StDev.SESSION_TIMEOUT_MIN; lia)).
  unfold Streamlit.init_project, StDev.sidebar_auth, Streamlit.sidebar_configuration,
    Streamlit.check_and_start, Streamlit.step_2.
  repeat first
    [ script_step
    | rewrite Hlogout | rewrite Hstart | rewrite Hfile
    | rewrite Htruthy; cbn [negb Session.when]
    | rewrite getattr_run_None by solve_lookup
    | progress cbn [negb orb Session.when] ].
  reflexivity.
Qed.

Lemma st_dev_start_after_archive_witness :
  ∃ w', StDev.step_10
          (Samples.auth (Samples.press Samples.report false false false false true Samples.down))
          Samples.logged_in = (Session.Rerun, w')
    ∧ (StDev.run
         (Samples.auth (Samples.press Samples.report true false false false false Samples.down))
         w').1 = Session.AttributeError "source_text".
Proof.
  destruct (st_dev_start_after_archive
              (Samples.auth (Samples.press Samples.report false false false false true
                               Samples.down))
              (Samples.auth (Samples.press Samples.report true false false false false
                               Samples.down))
              Samples.logged_in Samples.report (VStr "ana") (VStr "key") Samples.morning)
    as (w' & Hrun & _ & _ & Herr);
    [reflexivity|reflexivity|reflexivity|reflexivity|reflexivity|reflexivity
    |vm_compute; discriminate|reflexivity|reflexivity|reflexivity|].
  exists w'. split; [exact Hrun|exact Herr].
Defined.
(** ** More about the wiring of [app_gradio.py] *)

Section wiring.
Import Py Helpers Gradio.

Lemma forallb_elem_of {A} (f : A → bool) l :
  forallb f l = true ↔ ∀ x, x ∈ l → f x = true.
Proof.
  induction l as [|a l IH]; cbn [forallb].
  - split; [|done]. intros _ x Hx. by apply elem_of_nil in Hx.
  - rewrite andb_true_iff, IH. split.
    + intros [H1 H2] x [->|Hx]%elem_of_cons; auto.
    + intros H. split; [apply H; by left|]. intros x Hx. apply H. by right.
Qed.

Lemma handle_outputs env ev app updates toasts :
  handle env ev app = Return updates toasts →
  forallb (λ cu, bool_decide (cu.1 ∈ outputs ev)) updates = true.
Proof.
  destruct ev; cbn [handle]; intros H.
  - apply start_project_components in H.
    apply forallb_elem_of. intros cu Hcu. apply bool_decide_eq_true_2.
    rewrite <- H. apply list_elem_of_fmap. by exists cu.
  - unfold run_step_4 in H. destruct (call_gemini _ _ _ _ _) as [t|]; [|done].
    destruct (nonempty t); injection H as <- <-; reflexivity.
  - unfold run_step_5_ai in H. destruct (call_gemini _ _ _ _ _) as [t|]; [|done].
    destruct (nonempty t); injection H as <- <-; reflexivity.
  - unfold on_manual_edit in H. injection H as <- <-. reflexivity.
  - unfold run_step_6 in H. destruct (call_gemini _ _ _ _ _) as [t|]; [|done].
    destruct (nonempty t); injection H as <- <-; reflexivity.
  - unfold download_docx in H. destruct (negb _); [injection H as <- <-; reflexivity|].
    destruct (gfile _); [|done]. injection H as <- <-. reflexivity.
  - unfold archive_project in H. injection H as <- <-. vm_compute. reflexivity.
  - injection H as <- <-. reflexivity.
Qed.

Lemma fire_frame env ev app c :
  c ∉ outputs ev → (fire env ev app).1 c = before ev app c.
Proof.
  intros Hc. unfold fire.
  destruct (handle env ev (before ev app)) as [updates toasts|] eqn:H; [|done].
  rewrite (handle_outputs _ _ _ _ _ H). cbn [fst].
  apply apply_updates_frame. intros Hin.
  apply list_elem_of_fmap in Hin as (cu & -> & Hcu).
  pose proof (handle_outputs _ _ _ _ _ H) as Hall.
  rewrite forallb_elem_of in Hall. apply Hall in Hcu.
  by apply bool_decide_eq_true in Hcu.
Qed.

Lemma before_frame ev app c :
  Notions.touches ev c = false → before ev app c = app c.
Proof.
  unfold Notions.touches. intros H. apply orb_false_iff in H as [_ H].
  destruct ev; try done; cbn [before].
  - apply bool_decide_eq_false in H. by apply fn_lookup_insert_ne.
  - apply bool_decide_eq_false in H. destruct (_ && _); [|done].
    by apply fn_lookup_insert_ne.
Qed.

Lemma fire_untouched env ev app c :
  Notions.touches ev c = false → (fire env ev app).1 c = app c.
Proof.
  intros H. rewrite fire_frame, before_frame; [done..|].
  unfold Notions.touches in H. apply orb_false_iff in H as [H _].
  by apply bool_decide_eq_false in H.
Qed.

Lemma fire_all_untouched steps c : ∀ app,
  Forall (λ step : Env * Event, Notions.touches step.2 c = false) steps →
  fire_all steps app c = app c.
Proof.
  induction steps as [|[env ev] steps IH]; intros app Hall; [done|].
  inversion_clear Hall as [|? ? Hev Hall']. unfold fire_all in *. cbn [foldl fst snd] in *.
  rewrite IH by done. by apply fire_untouched.
Qed.

Lemma fire_start_props env app updates toasts :
  handle env start_button_click app = Return updates toasts →
  (∀ c, c ∈ Notions.project_inputs →
     interactive ((fire env start_button_click app).1 c) = false)
  ∧ (∀ c, c ∈ (accordions true).*1 →
     visible ((fire env start_button_click app).1 c) = true).
Proof.
  unfold fire. cbn [before handle]. intros Hstart. rewrite Hstart.
  unfold start_project in Hstart.
  repeat match type of Hstart with
         | (if ?b then _ else _) = _ => destruct b
         | match ?r with Ok _ => _ | GrError _ => _ end = _ => destruct r
         | (let (_, _) := ?p in _) = _ => destruct p
         end; try discriminate Hstart.
  injection Hstart as <- <-.
  split; intros c Hc;
    cbv [Notions.project_inputs accordions fmap list_fmap fst] in Hc;
    rewrite !elem_of_cons, elem_of_nil in Hc.
  - destruct Hc as [->|[->|[->|[->|[->|[->|[]]]]]]]; vm_compute; reflexivity.
  - destruct Hc as [->|[->|[->|[->|[->|[->|[->|[->|[->|[]]]]]]]]]]; vm_compute; reflexivity.
Qed.

Lemma fire_archive_props env app :
  (∀ c, c ∈ Notions.project_inputs →
     interactive ((fire env archive_button_click app).1 c) = true)
  ∧ (∀ c, c ∈ (accordions true).*1 →
     visible ((fire env archive_button_click app).1 c) = false).
Proof.
  split; intros c Hc;
    cbv [Notions.project_inputs accordions fmap list_fmap fst] in Hc;
    rewrite !elem_of_cons, elem_of_nil in Hc.
  - destruct Hc as [->|[->|[->|[->|[->|[->|[]]]]]]]; vm_compute; reflexivity.
  - destruct Hc as [->|[->|[->|[->|[->|[->|[->|[->|[->|[]]]]]]]]]]; vm_compute; reflexivity.
Qed.

End wiring.

(** X22 (the handlers of [app_gradio.py] and their [outputs=] lists): every
    key of the dictionary a handler returns is one of the outputs the
    event was wired with, so the page applies every update a handler
    returns, and an event leaves every component that is no output of it as
    it was before the handler ran. *)
Theorem handlers_return_their_outputs
    (env : Gradio.Env) (ev : Gradio.Event) (app : Gradio.App) :
  (∀ updates toasts,
     Gradio.handle env ev (Gradio.before ev app) = Gradio.Return updates toasts →
     Forall (λ cu, cu.1 ∈ Gradio.outputs ev) updates
     ∧ Gradio.fire env ev app = (Gradio.apply_updates updates (Gradio.before ev app), toasts))
  ∧ (∀ c, c ∉ Gradio.outputs ev → (Gradio.fire env ev app).1 c = Gradio.before ev app c).
Proof.
  split; [|intros c; apply fire_frame].
  intros updates toasts H. pose proof (handle_outputs _ _ _ _ _ H) as Hall.
  split.
  - apply list.Forall_forall. intros cu Hcu. rewrite forallb_elem_of in Hall.
    apply Hall in Hcu. by apply bool_decide_eq_true in Hcu.
  - unfold Gradio.fire. by rewrite H, Hall.
Qed.

Lemma handlers_return_their_outputs_witness :
  (Gradio.fire (Samples.gradio_env (Samples.answers "Ola")) Gradio.step_4_button_click
     Samples.gradio_started).1 Gradio.step_6_prompt_text
  = Samples.gradio_started Gradio.step_6_prompt_text.
Proof.
  apply (proj2 (handlers_return_their_outputs (Samples.gradio_env (Samples.answers "Ola"))
                  Gradio.step_4_button_click Samples.gradio_started)).
  apply (bool_decide_eq_false _). vm_compute. reflexivity.
Defined.

(** X23 ([app_gradio.py], a whole session): a component changes only
    through the events that touch it.  When no event of a session has the
    component among its outputs, types into it or is a change of it by the
    user, the component ends as it started. *)
Theorem component_changes_only_when_touched
    (steps : list (Gradio.Env * Gradio.Event)) (app : Gradio.App) (c : Gradio.Component)
    (Hsteps : Forall (λ step : Gradio.Env * Gradio.Event,
                        Notions.touches step.2 c = false) steps) :
  Gradio.fire_all steps app c = app c.
Proof. by apply fire_all_untouched. Qed.

Lemma component_changes_only_when_touched_witness :
  Gradio.fire_all
    [(Samples.gradio_env (Samples.answers "Ola"), Gradio.step_4_button_click);
     (Samples.gradio_env (Samples.answers "Ola!"), Gradio.step_6_button_click);
     (Samples.gradio_env Samples.down, Gradio.prepare_download_button_click)]
    Samples.gradio_started Gradio.api_key_state
  = Samples.gradio_started Gradio.api_key_state.
Proof.
  apply component_changes_only_when_touched.
  repeat constructor.
Defined.

(** X24 ([start_project], [archive_project]): a StartProject that succeeds
    opens the nine accordions and locks the inputs of step 1, so that a
    change of an upload or of a language by the user no longer reaches the
    page; the archive closes the accordions and unlocks the inputs. *)
Theorem start_locks_the_inputs
    (env env' : Gradio.Env) (app : Gradio.App)
    (updates : list (Gradio.Component * Gradio.Update)) (toasts : list Notice)
    (Hstart : Gradio.handle env Gradio.start_button_click app = Gradio.Return updates toasts) :
  let started := (Gradio.fire env Gradio.start_button_click app).1 in
  let archived := (Gradio.fire env' Gradio.archive_button_click started).1 in
  (∀ c, c ∈ Notions.project_inputs → Gradio.interactive (started c) = false)
  ∧ (∀ c, c ∈ (Gradio.accordions true).*1 → Gradio.visible (started c) = true)
  ∧ (∀ c v, c ∈ Notions.project_inputs →
       Gradio.fire env' (Gradio.user_change c v) started = (started, []))
  ∧ (∀ c, c ∈ Notions.project_inputs → Gradio.interactive (archived c) = true)
  ∧ (∀ c, c ∈ (Gradio.accordions true).*1 → Gradio.visible (archived c) = false).
Proof.
  cbv zeta.
  destruct (fire_start_props env app updates toasts Hstart) as [Hlock Hopen].
  destruct (fire_archive_props env' (Gradio.fire env Gradio.start_button_click app).1)
    as [Hunlock Hclose].
  split; [done|]. split; [done|]. split; [|done].
  intros c v Hc. specialize (Hlock c Hc). clear Hopen Hunlock Hclose.
  set (started := (Gradio.fire env Gradio.start_button_click app).1) in *.
  clearbody started. unfold Gradio.fire. cbn [Gradio.before Gradio.handle].
  rewrite Hlock, andb_false_r. reflexivity.
Qed.

Lemma start_locks_the_inputs_witness :
  let app := (Gradio.fire (Samples.gradio_env Samples.down)
                (Gradio.user_change Gradio.source_file_upload (Gradio.GFile Samples.report))
                Gradio.initial).1 in
  let started := (Gradio.fire (Samples.gradio_env Samples.down) Gradio.start_button_click
                    app).1 in
  Gradio.fire (Samples.gradio_env Samples.down)
    (Gradio.user_change Gradio.source_file_upload (Gradio.GFile Samples.blank)) started
  = (started, []).
Proof.
  intros app started.
  refine (proj1 (proj2 (proj2 (start_locks_the_inputs (Samples.gradio_env Samples.down)
            (Samples.gradio_env Samples.down) app _ _ _)))
            Gradio.source_file_upload (Gradio.GFile Samples.blank) _).
  - vm_compute. reflexivity.
  - apply (bool_decide_eq_true _). vm_compute. reflexivity.
Defined.
(** X25 ([on_manual_edit] and the wiring of [step_5_target_text.input]): a
    text typed in the box of step 5 becomes the final text and the text of
    the final widget, and the prompt of step 6 is built again from it; the
    review of the model in [translation_step_5_state] is left as it is, and
    a proofreading request made next sends that prompt. *)
Theorem gradio_manual_edit (env env' : Gradio.Env) (app : Gradio.App) (typed : string) :
  let edited := (Gradio.fire env (Gradio.step_5_target_text_input typed) app).1 in
  let prompt :=
    Gradio.generate_step_6_prompt (Gradio.gformat (Gradio.value (app Gradio.target_lang_dd)))
      typed in
  (Gradio.fire env (Gradio.step_5_target_text_input typed) app).2 = []
  ∧ Gradio.value (edited Gradio.final_text_state) = Gradio.GStr typed
  ∧ Gradio.value (edited Gradio.final_translation_widget) = Gradio.GStr typed
  ∧ Gradio.value (edited Gradio.step_6_prompt_text) = Gradio.GStr prompt
  ∧ edited Gradio.translation_step_5_state = app Gradio.translation_step_5_state
  ∧ Spec.asked env' edited Gradio.step_6_prompt_text
    = Gradio.env_oracle env' (Gradio.gtext (Gradio.value (app Gradio.api_key_state)))
        (Gradio.gformat (Gradio.value (app Gradio.model_name_dd))) prompt.
Proof.
  cbv zeta.
  assert (Gradio.fire env (Gradio.step_5_target_text_input typed) app
          = (Gradio.apply_updates
               [(Gradio.final_text_state, Gradio.plain (Gradio.GStr typed));
                (Gradio.final_translation_widget, Gradio.plain (Gradio.GStr typed));
                (Gradio.step_6_prompt_text,
                 Gradio.text
                   (Gradio.generate_step_6_prompt
                      (Gradio.gformat (Gradio.value (app Gradio.target_lang_dd))) typed))]
               (Gradio.before (Gradio.step_5_target_text_input typed) app), [])) as ->
    by reflexivity.
  cbn [fst snd]. unfold Spec.asked. repeat split; reflexivity.
Qed.

(** X26 ([run_step_4], [start_project] and the prompt of step 6): only the
    editing step and a typed text build the prompt of step 6.  After an
    archive, as long as no event touches the box of that prompt (a new
    start, the translation, the download and changes of other inputs do
    not), the box stays empty, and a proofreading request sends the empty
    prompt to the model. *)
Theorem proofreading_prompt_stays_empty
    (env0 env : Gradio.Env) (steps : list (Gradio.Env * Gradio.Event)) (app : Gradio.App)
    (Hsteps : Forall (λ step : Gradio.Env * Gradio.Event,
                        Notions.touches step.2 Gradio.step_6_prompt_text = false) steps) :
  let page := Gradio.fire_all ((env0, Gradio.archive_button_click) :: steps) app in
  Gradio.value (page Gradio.step_6_prompt_text) = Gradio.GStr ""
  ∧ Spec.asked env page Gradio.step_6_prompt_text
    = Gradio.env_oracle env (Gradio.gtext (Gradio.value (page Gradio.api_key_state)))
        (Gradio.gformat (Gradio.value (page Gradio.model_name_dd))) "".
Proof.
  cbv zeta.
  assert (Gradio.value (Gradio.fire_all ((env0, Gradio.archive_button_click) :: steps) app
                          Gradio.step_6_prompt_text) = Gradio.GStr "") as Hempty.
  { unfold Gradio.fire_all. cbn [foldl fst snd].
    fold (Gradio.fire_all steps (Gradio.fire env0 Gradio.archive_button_click app).1).
    rewrite fire_all_untouched by done. vm_compute. reflexivity. }
  split; [done|]. unfold Spec.asked. by rewrite Hempty.
Qed.

Lemma proofreading_prompt_stays_empty_witness :
  Gradio.value
    (Gradio.fire_all
       [(Samples.gradio_env Samples.down, Gradio.archive_button_click);
        (Samples.gradio_env Samples.down,
         Gradio.user_change Gradio.source_file_upload (Gradio.GFile Samples.report));
        (Samples.gradio_env Samples.down, Gradio.start_button_click);
        (Samples.gradio_env (Samples.answers "Ola"), Gradio.step_4_button_click)]
       Gradio.initial Gradio.step_6_prompt_text) = Gradio.GStr "".
Proof.
  refine (proj1 (proofreading_prompt_stays_empty (Samples.gradio_env Samples.down)
            (Samples.gradio_env Samples.down)
            [(Samples.gradio_env Samples.down,
              Gradio.user_change Gradio.source_file_upload (Gradio.GFile Samples.report));
             (Samples.gradio_env Samples.down, Gradio.start_button_click);
             (Samples.gradio_env (Samples.answers "Ola"), Gradio.step_4_button_click)]
            Gradio.initial _)).
  repeat constructor.
Defined.

(** X27 ([download_docx]): without a final text the handler warns and
    empties the download widget, which is what happens right after an
    archive; with a final text but no source file object the handler ends
    with the error of the missing name and the page stays as it is. *)
Theorem download_needs_a_project (env env0 : Gradio.Env) (app : Gradio.App) :
  (Gradio.gtruthy (Gradio.value (app Gradio.final_text_state)) = false →
   Gradio.fire env Gradio.prepare_download_button_click app
   = (<[Gradio.download_file_widget :=
          Gradio.apply_update (Gradio.plain Gradio.GNone) (app Gradio.download_file_widget)]> app,
      [WarnNoFinalText]))
  ∧ (Gradio.gtruthy (Gradio.value (app Gradio.final_text_state)) = true →
     Gradio.gfile (Gradio.value (app Gradio.source_file_obj_state)) = None →
     Gradio.fire env Gradio.prepare_download_button_click app
     = (app, [ErrCreatingDocx "'NoneType' object has no attribute 'name'"]))
  ∧ (Gradio.fire env Gradio.prepare_download_button_click
       (Gradio.fire env0 Gradio.archive_button_click app).1).2 = [WarnNoFinalText].
Proof.
  split; [|split].
  - intros H. unfold Gradio.fire. cbn [Gradio.before Gradio.handle].
    unfold Gradio.download_docx. rewrite H. reflexivity.
  - intros H Hobj. unfold Gradio.fire. cbn [Gradio.before Gradio.handle].
    unfold Gradio.download_docx. rewrite H, Hobj. reflexivity.
  - vm_compute. reflexivity.
Qed.

Lemma download_needs_a_project_witness :
  Gradio.fire (Samples.gradio_env Samples.down) Gradio.prepare_download_button_click
    Gradio.initial
  = (<[Gradio.download_file_widget :=
         Gradio.apply_update (Gradio.plain Gradio.GNone)
           (Gradio.initial Gradio.download_file_widget)]> Gradio.initial,
     [WarnNoFinalText]).
Proof.
  apply (proj1 (download_needs_a_project (Samples.gradio_env Samples.down)
                  (Samples.gradio_env Samples.down) Gradio.initial)).
  reflexivity.
Defined.

(** ** The admin panel *)

Section admin.
Import Py Session StDev Admin.

Lemma admin_panel_added inp file w :
  getenv_ADMIN_PASSWORD inp = Some (entered inp) →
  add_user_button inp = true →
  (load_users file).1 !! new_user inp = None →
  new_user inp ≠ "" → new_pass inp ≠ "" →
  admin_panel inp file w =
    mk_admin_outcome
      (Some (<[new_user inp := mk_user (new_pass inp) (new_role inp)]> (load_users file).1))
      (log_event (admin_now inp) "ADMIN" ("Created new user: " +:+ new_user inp) w).2
      ([OkAdminAccess;
        TableUsers ((λ kv : string * UserAccount, (kv.1, role kv.2))
                      <$> map_to_list (load_users file).1)]
       ++ [OkUserAdded (new_user inp)])
      true.
Proof.
  intros Hpw Hadd Hnew Hu Hp. unfold admin_panel.
  rewrite bool_decide_eq_false_2 by (rewrite Hpw; by intros []).
  destruct (load_users file) as [users file'] eqn:E. cbn [fst] in Hnew.
  cbv beta iota. rewrite Hadd.
  rewrite (bool_decide_eq_false_2 (is_Some (users !! new_user inp)))
    by (rewrite Hnew; by intros [? ?]).
  destruct (new_user inp); [done|]. destruct (new_pass inp); [done|].
  reflexivity.
Qed.

Lemma admin_panel_keeps_accounts inp file w u account :
  (load_users file).1 !! u = Some account →
  default ∅ (users_file (admin_panel inp file w)) !! u = Some account.
Proof.
  intros Hu. unfold admin_panel.
  assert (default ∅ file !! u = Some account) as Hfile.
  { destruct file; [done|]. cbn in Hu. by rewrite lookup_empty in Hu. }
  assert (default ∅ (load_users file).2 !! u = Some account) as Hfile'.
  { by destruct file. }
  destruct (bool_decide (Some (entered inp) ≠ getenv_ADMIN_PASSWORD inp)); [done|].
  destruct (load_users file) as [users file'] eqn:E. cbn [fst snd] in *.
  destruct (add_user_button inp); [|done].
  case_bool_decide as Hold; [done|].
  destruct (negb (nonempty (new_user inp)) || negb (nonempty (new_pass inp))); [done|].
  cbn [users_file save_users from_option]. unfold id.
  rewrite lookup_insert_ne; [done|]. intros Heq. apply Hold. rewrite Heq. by eexists.
Qed.

End admin.

(** X28 ([admin_panel], [save_users], [load_users], [login_ui]): with the
    admin password, a name that is not in the table and a password that is
    not empty, Add User saves the table with the new account, logs the
    creation under ADMIN and reruns; with the saved table that name and
    password log in. *)
Theorem admin_added_user_can_log_in
    (inp : Admin.AdminInputs) (file : Admin.UsersFile) (w0 : Session.World)
    (login : StDev.AuthInputs) (w : Session.World)
    (Hadmin : Admin.getenv_ADMIN_PASSWORD inp = Some (Admin.entered inp))
    (Hadd : Admin.add_user_button inp = true)
    (Hnew : (Admin.load_users file).1 !! Admin.new_user inp = None)
    (Hname : Admin.new_user inp ≠ "")
    (Hpass : Admin.new_pass inp ≠ "")
    (Hfile : StDev.users_json login = Admin.users_file (Admin.admin_panel inp file w0))
    (Huser : StDev.login_username login = Admin.new_user inp)
    (Hword : StDev.login_password login = Admin.new_pass inp)
    (Hbutton : StDev.login_button login = true)
    (Hout : default (VBool false) (Session.session_state w !! "authenticated") = VBool false) :
  Admin.users_file (Admin.admin_panel inp file w0)
  = Some (<[Admin.new_user inp := StDev.mk_user (Admin.new_pass inp) (Admin.new_role inp)]>
            (Admin.load_users file).1)
  ∧ Admin.reruns (Admin.admin_panel inp file w0) = true
  ∧ Session.log_file (Admin.world (Admin.admin_panel inp file w0))
    = Some (default "" (Session.log_file w0)
            +:+ StDev.log_line (Admin.admin_now inp) "ADMIN"
                  ("Created new user: " +:+ Admin.new_user inp))
  ∧ ∃ w', StDev.authentication_gate login w = (Session.Rerun, w')
      ∧ Session.session_state w' !! "authenticated" = Some (VBool true)
      ∧ Session.session_state w' !! "username" = Some (VStr (Admin.new_user inp)).
Proof.
  rewrite admin_panel_added in * by done.
  cbn [Admin.users_file Admin.reruns Admin.world] in *.
  split; [done|]. split; [done|]. split; [done|].
  destruct (gate_sets_flag login w Hout) as [j ->].
  rewrite bind_run,
    (login_ui_success login _ (StDev.mk_user (Admin.new_pass inp) (Admin.new_role inp))).
  - eexists. split; [reflexivity|]. cbn [Session.session_state]. rewrite Huser.
    split; [by rewrite !lookup_insert_ne, lookup_insert_eq by done|].
    by rewrite lookup_insert_ne, lookup_insert_eq by done.
  - done.
  - unfold StDev.load_users. rewrite Hfile, Huser. cbn [from_option]. unfold id.
    apply lookup_insert_eq.
  - by rewrite Hword.
Qed.

Lemma admin_added_user_can_log_in_witness :
  ∃ w', StDev.authentication_gate
          (StDev.mk_auth_inputs
             (Samples.press Samples.report false false false false false Samples.down)
             MoreSamples.later
             (Admin.users_file
                (Admin.admin_panel MoreSamples.add_bob (Some MoreSamples.users)
                   TranslationApp.fresh))
             "bob" "pw" true false)
          TranslationApp.fresh = (Session.Rerun, w')
    ∧ Session.session_state w' !! "username" = Some (VStr "bob").
Proof.
  destruct (admin_added_user_can_log_in MoreSamples.add_bob (Some MoreSamples.users)
              TranslationApp.fresh
              (StDev.mk_auth_inputs
                 (Samples.press Samples.report false false false false false Samples.down)
                 MoreSamples.later
                 (Admin.users_file
                    (Admin.admin_panel MoreSamples.add_bob (Some MoreSamples.users)
                       TranslationApp.fresh))
                 "bob" "pw" true false)
              TranslationApp.fresh)
    as (_ & _ & _ & w' & Hrun & _ & Hname);
    [reflexivity|reflexivity|reflexivity|discriminate|discriminate
    |reflexivity|reflexivity|reflexivity|reflexivity|reflexivity|].
  exists w'. split; [exact Hrun|exact Hname].
Defined.

(** X29 ([admin_panel]): whatever is entered, the panel never removes or
    changes an account: every user of the table loaded before is in the
    user file afterwards with the same password and role, and without the
    admin password the file, the log and the page logic are left alone. *)
Theorem admin_panel_keeps_accounts_and_needs_password
    (inp : Admin.AdminInputs) (file : Admin.UsersFile) (w : Session.World) :
  (∀ u account,
     (Admin.load_users file).1 !! u = Some account →
     default ∅ (Admin.users_file (Admin.admin_panel inp file w)) !! u = Some account)
  ∧ (Admin.getenv_ADMIN_PASSWORD inp ≠ Some (Admin.entered inp) →
     Admin.admin_panel inp file w
     = Admin.mk_admin_outcome file w [Admin.WarnAdminPassword] false).
Proof.
  split; [intros u account; apply admin_panel_keeps_accounts|].
  intros H. unfold Admin.admin_panel. by rewrite bool_decide_eq_true_2.
Qed.

Lemma admin_panel_keeps_accounts_and_needs_password_witness :
  Admin.admin_panel
    (Admin.mk_admin_inputs None "" "bob" "pw" "admin" true Samples.morning)
    (Some MoreSamples.users) TranslationApp.fresh
  = Admin.mk_admin_outcome (Some MoreSamples.users) TranslationApp.fresh
      [Admin.WarnAdminPassword] false.
Proof.
  apply (proj2 (admin_panel_keeps_accounts_and_needs_password
                  (Admin.mk_admin_inputs None "" "bob" "pw" "admin" true Samples.morning)
                  (Some MoreSamples.users) TranslationApp.fresh)).
  discriminate.
Defined.
Section archive.
Import Py Helpers Session Streamlit.

Lemma run_archive inp w file :
  Spec.prepared w = true →
  source_file inp = Some file →
  archive_button inp = true →
  manual_edit_widget inp = None →
  run_translation_button inp = false →
  ask_edit_button inp = false →
  ask_proofread_button inp = false →
  ∃ w' api_key,
    session_state w !! "api_key" = Some api_key
    ∧ TranslationApp.run inp w = (Rerun, w')
    ∧ session_state w' = <["api_key" := api_key]> ∅
    ∧ OkArchived ∈ ui w'.
Proof.
  intros (k & g & src & t4 & t5 & t6 & ft & Hs & Hk & Hkt & Hsrc & Hne & Hg & H4 & H5 & H6 & Hf)%prepared_inv
    Hfile Harchive Hmanual Hb4 Hb5 Hb6.
  unfold TranslationApp.run, TranslationApp.script, init_project,
    sidebar_configuration, check_and_start, step_2, step_3, TranslationApp.step_10.
  rewrite Hfile, Harchive.
  repeat script_step. rewrite Hkt. repeat script_step.
  rewrite orb_true_r. cbn [when].
  repeat script_step. rewrite Hkt. cbn [when negb]. repeat script_step.
  rewrite (insert_id (session_state w) "project_started") by done.
  repeat script_step.
  rewrite (bool_decide_eq_false_2 (src = VNone)) by done. cbn [when].
  repeat script_step.
  match goal with |- context [step_4 inp ?w0] =>
    destruct (step_4_no_write inp w0 "" k g src t4 Hk Hg Hsrc H4) as (ns4 & -> & _);
      [by right; left|]
  end.
  unfold Spec.shown. repeat script_step.
  match goal with |- context [step_5 inp ?w0] =>
    destruct (step_5_no_write inp w0 "" k g src t4 t5 Hk Hg Hsrc H4 H5 Hmanual)
      as (ns5 & -> & _); [by left|]
  end.
  unfold Spec.shown. repeat script_step.
  match goal with |- context [step_6 inp ?w0] =>
    destruct (step_6_no_write inp w0 "" k t4 t5 Hk H4 H5) as (ns6 & -> & _); [by left|]
  end.
  unfold Spec.shown. repeat script_step.
  match goal with |- context [TranslationApp.steps_7_to_9 file ?w0] =>
    destruct (steps_7_to_9_no_write w0 ft Hf file) as (ns7 & ->)
  end.
  unfold Spec.shown. repeat script_step. rewrite cleared_empty.
  unfold rerun. eexists _, k. split; [done|]. split; [reflexivity|]. split; [done|].
  cbn [ui]. apply elem_of_app. right. by left.
Qed.

Lemma run_first w inp api_key :
  session_state w = <["api_key" := api_key]> ∅ →
  start_button inp = false →
  ∃ w', TranslationApp.run inp w = (Done (), w')
    ∧ session_state w' = Notions.first_session (getenv_GEMINI_API_KEY inp).
Proof.
  intros Hw Hstart.
  unfold TranslationApp.run, TranslationApp.script, init_project, sidebar_configuration.
  rewrite Hw, Hstart.
  repeat script_step.
  rewrite has_run_None by (cbn [session_state]; by rewrite lookup_insert_ne).
  cbn [when negb].
  repeat script_step.
  destruct (truthy_val (of_option (getenv_GEMINI_API_KEY inp)));
    repeat script_step; (eexists; split; [reflexivity|]); cbn [session_state];
    unfold Notions.first_session;
    by rewrite (insert_insert_ne _ "project_started" "api_key"), insert_insert_eq by done.
Qed.

End archive.

(** X30 ([translation_app.py], the archive): on a prepared project, a run
    with only the archive button pressed shows the archive notice, leaves
    nothing in the session but the key of the model and starts the script
    again; that next run sets every key of a project to its first value
    and takes the key of the model from the environment again. *)
Theorem archive_starts_over
    (inp : Streamlit.Inputs) (w : Session.World) (file : UploadedFile)
    (Hprepared : Spec.prepared w = true)
    (Hfile : Streamlit.source_file inp = Some file)
    (Harchive : Streamlit.archive_button inp = true)
    (Hmanual : Streamlit.manual_edit_widget inp = None)
    (Htranslate : Streamlit.run_translation_button inp = false)
    (Hedit : Streamlit.ask_edit_button inp = false)
    (Hproofread : Streamlit.ask_proofread_button inp = false) :
  ∃ w1 w2 api_key,
    Session.session_state w !! "api_key" = Some api_key
    ∧ TranslationApp.run inp w = (Session.Rerun, w1)
    ∧ Session.session_state w1 = <["api_key" := api_key]> ∅
    ∧ OkArchived ∈ Session.ui w1
    ∧ TranslationApp.interact 1 inp w = (Session.Done (), w2)
    ∧ Session.session_state w2
      = Notions.first_session (Streamlit.getenv_GEMINI_API_KEY inp).
Proof.
  destruct (run_archive inp w file) as (w1 & api_key & Hkey & Hrun & Hs1 & Hui); [done..|].
  destruct (run_first w1 (TranslationApp.no_buttons inp) api_key) as (w2 & Hrun2 & Hs2);
    [done..|].
  exists w1, w2, api_key. split; [done|]. split; [exact Hrun|]. split; [done|].
  split; [done|].
  cbn [TranslationApp.interact]. rewrite Hrun.
  change (TranslationApp.interact 0 (TranslationApp.no_buttons inp)) with
    (λ w0, match TranslationApp.run (TranslationApp.no_buttons inp) w0 with
           | (Session.Rerun, w') => (Session.Rerun, w')
           | r => r
           end).
  cbv beta. rewrite Hrun2. done.
Qed.

Lemma archive_starts_over_witness :
  Session.session_state
    (TranslationApp.interact 1
       (Samples.press Samples.report false false false false true Samples.down)
       Samples.translated).2
  = Notions.first_session (Some "key").
Proof.
  destruct (archive_starts_over
              (Samples.press Samples.report false false false false true Samples.down)
              Samples.translated Samples.report)
    as (w1 & w2 & api_key & _ & _ & _ & _ & Hrun & Hs);
    [vm_compute; reflexivity|reflexivity|reflexivity|reflexivity|reflexivity|reflexivity
    |reflexivity|].
  rewrite Hrun. exact Hs.
Defined.
